(** * Spam detector: threshold resolution, scoring endpoints, file upload,
      the offline batch scorer, the interface helpers and the cleaning of
      the training data

    A shallow embedding of [api/main.py] and [src/batch_predict.py], and of
    the helpers of [ui/app.py] and [src/preprocess.py] that work on their
    data.

    - Python [str] values are lists of code points, [bytes] values lists of
      bytes, [float] values IEEE binary64 numbers (primitive floats), [int]
      values are in [Z].
    - Exceptions are explicit: a fallible computation returns a [result].
    - Dictionaries with string keys are [gmap]s; lists updated by index use
      list lookup and insert with the [IndexError] written out.
    - scikit-learn, numpy and pandas are outside the repository.  What the
      code only needs as a callable is a field of a record ([Vectorizer],
      [Classifier]) or of the class [Runtime]; what has a short and fixed
      meaning ([str.strip], [str.splitlines], the codecs, column selection,
      [df[name] = values]) is written out. *)

From Stdlib Require Import PrimFloat ZArith NArith String Ascii Strings.Byte
  List Bool Lia.
From Stdlib Require Uint63.
From stdpp Require Import base option list gmap pretty.

Set Warnings "-inexact-float".

Local Open Scope Z_scope.

(* ===================================================================== *)
(** * Python values *)
(* ===================================================================== *)

Module Py.

(** A Python [str]: the sequence of its Unicode code points. *)
Definition str := list N.

(** A Python [bytes] object. *)
Definition bytes := list byte.

(** An ASCII literal as a [str]. *)
Definition py (s : string) : str := N_of_ascii <$> list_ascii_of_string s.

Arguments py : simpl never.

(** [a == b] on strings. *)
Definition str_eqb (a b : str) : bool := bool_decide (a = b).

(** Truthiness of a string: [bool(s)]. *)
Definition truthy (s : str) : bool :=
  match s with [] => false | _ :: _ => true end.

(** ** Exceptions *)

(** The built-in and library exception classes the code can meet. *)
Inductive kind :=
| UnicodeDecodeError
| UnicodeEncodeError
| ValueError
| IndexError
| KeyError
| RuntimeError
| LibraryError.          (* anything else raised inside pandas *)

(** The [detail] of the [HTTPException]s the API raises. *)
Inductive detail :=
| ModelNotLoaded                (* "Model not loaded" *)
| EmptyText                     (* "Empty 'text'" *)
| NoTextsProvided               (* "No texts provided" *)
| BatchTooLarge (limit : Z)     (* f"Batch too large (>{MAX_BATCH})" *)
| MissingFileName               (* "Uploaded file must have a name" *)
| UnsupportedFileType (ext : str)
| CouldNotReadFile (cause : kind)
| MissingTextColumn.

Inductive exn :=
| HTTPException (status_code : Z) (d : detail)
| Exception (k : kind).

Inductive result (A : Type) :=
| Ok (a : A)
| Raise (e : exn).
Arguments Ok {A} a.
Arguments Raise {A} e.

Definition bind {A B} (r : result A) (k : A -> result B) : result B :=
  match r with
  | Ok a => k a
  | Raise e => Raise e
  end.

(** The status a client sees: [HTTPException]s keep theirs, everything
    else reaches the handler registered for [Exception], which answers
    500. *)
Definition status_of {A} (r : result A) : Z :=
  match r with
  | Ok _ => 200
  | Raise (HTTPException s _) => s
  | Raise (Exception _) => 500
  end.

(** [l[i]] for a list, with its [IndexError] (non-negative [i]). *)
Definition getitem {A} (l : list A) (i : nat) : result A :=
  match l !! i with
  | Some a => Ok a
  | None => Raise (Exception IndexError)
  end.

(** ** [str.strip] and [str.splitlines] *)

(** [str.isspace] for one code point: the characters [strip] removes. *)
Definition isspace (c : N) : bool :=
  ((9 <=? c) && (c <=? 13) || (28 <=? c) && (c <=? 32)
   || (c =? 133) || (c =? 160) || (c =? 5760)
   || (8192 <=? c) && (c <=? 8202)
   || (c =? 8232) || (c =? 8233) || (c =? 8239) || (c =? 8287)
   || (c =? 12288))%N.

Fixpoint lstrip (s : str) : str :=
  match s with
  | [] => []
  | c :: rest => if isspace c then lstrip rest else s
  end.

Definition rstrip (s : str) : str := rev (lstrip (rev s)).

Definition strip (s : str) : str := rstrip (lstrip s).

(** Line boundaries of [str.splitlines] other than CR. *)
Definition is_linebreak (c : N) : bool :=
  ((c =? 10) || (c =? 11) || (c =? 12) || (c =? 28) || (c =? 29)
   || (c =? 30) || (c =? 133) || (c =? 8232) || (c =? 8233))%N.

(** [cur] is the line being read, last character first. *)
Fixpoint splitlines_from (cur : str) (s : str) : list str :=
  match s with
  | [] => match cur with [] => [] | _ :: _ => [rev cur] end
  | c :: rest =>
      if (c =? 13)%N then
        match rest with
        | 10%N :: rest' => rev cur :: splitlines_from [] rest'
        | _ => rev cur :: splitlines_from [] rest
        end
      else if is_linebreak c then rev cur :: splitlines_from [] rest
      else splitlines_from (c :: cur) rest
  end.

Definition splitlines (s : str) : list str := splitlines_from [] s.

(** ** Codecs *)

Inductive encoding := utf_8 | utf_8_sig | cp1252 | latin_1 | ISO_8859_1.

Definition is_cont (b : N) : bool := ((128 <=? b) && (b <=? 191))%N.

(** Strict UTF-8: no overlong forms, no surrogates, nothing above
    U+10FFFF.  [None] stands for [UnicodeDecodeError]. *)
Fixpoint utf8_decode (bs : list N) : option str :=
  match bs with
  | [] => Some []
  | b0 :: r0 =>
      if (b0 <? 128)%N then cons b0 <$> utf8_decode r0
      else if ((194 <=? b0) && (b0 <=? 223))%N then
        match r0 with
        | b1 :: r1 =>
            if is_cont b1
            then cons ((b0 - 192) * 64 + (b1 - 128))%N <$> utf8_decode r1
            else None
        | _ => None
        end
      else if ((224 <=? b0) && (b0 <=? 239))%N then
        match r0 with
        | b1 :: b2 :: r2 =>
            if is_cont b1 && is_cont b2
               && (negb (b0 =? 224) || (160 <=? b1))%N
               && (negb (b0 =? 237) || (b1 <=? 159))%N
            then cons ((b0 - 224) * 4096 + (b1 - 128) * 64 + (b2 - 128))%N
                   <$> utf8_decode r2
            else None
        | _ => None
        end
      else if ((240 <=? b0) && (b0 <=? 244))%N then
        match r0 with
        | b1 :: b2 :: b3 :: r3 =>
            if is_cont b1 && is_cont b2 && is_cont b3
               && (negb (b0 =? 240) || (144 <=? b1))%N
               && (negb (b0 =? 244) || (b1 <=? 143))%N
            then cons ((b0 - 240) * 262144 + (b1 - 128) * 4096
                       + (b2 - 128) * 64 + (b3 - 128))%N
                   <$> utf8_decode r3
            else None
        | _ => None
        end
      else None
  end.

(** The code points of the bytes 0x80..0x9F in Windows-1252; five bytes
    are undefined. *)
Definition cp1252_high : list (option N) :=
  [ Some 8364; None; Some 8218; Some 402; Some 8222; Some 8230; Some 8224;
    Some 8225; Some 710; Some 8240; Some 352; Some 8249; Some 338; None;
    Some 381; None; None; Some 8216; Some 8217; Some 8220; Some 8221;
    Some 8226; Some 8211; Some 8212; Some 732; Some 8482; Some 353;
    Some 8250; Some 339; None; Some 382; Some 376 ]%N.

Definition cp1252_char (b : N) : option N :=
  if ((128 <=? b) && (b <=? 159))%N
  then mjoin (cp1252_high !! N.to_nat (b - 128))
  else Some b.

Definition decode (enc : encoding) (content : bytes) : option str :=
  let bs := Byte.to_N <$> content in
  match enc with
  | utf_8 => utf8_decode bs
  | utf_8_sig =>
      match bs with
      | 239%N :: 187%N :: 191%N :: rest => utf8_decode rest
      | _ => utf8_decode bs
      end
  | cp1252 => mapM cp1252_char bs
  | latin_1 | ISO_8859_1 => Some bs
  end.

(** [content.decode(enc)]. *)
Definition bytes_decode (content : bytes) (enc : encoding) : result str :=
  match decode enc content with
  | Some s => Ok s
  | None => Raise (Exception UnicodeDecodeError)
  end.

(** [s.encode("latin-1")] does not raise: every code point is below
    256. *)
Definition latin_1_encodable (s : str) : bool :=
  forallb (fun c => (c <=? 255)%N) s.

(** ** [pathlib]: the name, suffix and stem of a path *)

Definition slash : N := 47%N.
Definition dot : N := 46%N.

(** [s.split(sep)] for a one-character separator; [cur] is the piece
    being read, last character first. *)
Fixpoint split_from (sep : N) (cur : str) (s : str) : list str :=
  match s with
  | [] => [rev cur]
  | c :: rest =>
      if (c =? sep)%N then rev cur :: split_from sep [] rest
      else split_from sep (c :: cur) rest
  end.

(** [PurePosixPath(p).name]: the last component, empty and [.]
    components dropped. *)
Definition path_name (p : str) : str :=
  default [] (last
    (filter (fun c => c <> [] /\ c <> [dot]) (split_from slash [] p))).

(** [name.rfind('.')]: the index of the last dot, if any. *)
Fixpoint rfind_dot (i : nat) (s : str) : option nat :=
  match s with
  | [] => None
  | c :: rest =>
      match rfind_dot (S i) rest with
      | Some j => Some j
      | None => if (c =? dot)%N then Some i else None
      end
  end.

(** [PurePath.suffix]: [name[i:]] when [0 < i < len(name) - 1]. *)
Definition path_suffix (p : str) : str :=
  let name := path_name p in
  match rfind_dot 0 name with
  | Some i =>
      if (0 <? i)%nat && (S i <? length name)%nat then drop i name else []
  | None => []
  end.

(** [PurePath.stem]: [name[:i]] under the same condition, else [name]. *)
Definition path_stem (p : str) : str :=
  let name := path_name p in
  match rfind_dot 0 name with
  | Some i =>
      if (0 <? i)%nat && (S i <? length name)%nat then take i name else name
  | None => name
  end.

End Py.

Import Py.

(** [x ← r; k] runs [k] on the value of [r] and passes an exception on. *)
#[export] Instance result_ret : MRet result := @Ok.
#[export] Instance result_bind : MBind result := fun A B k r => bind r k.
#[export] Instance result_fmap : FMap result :=
  fun A B f r => bind r (fun a => Ok (f a)).

(* ===================================================================== *)
(** * numpy arrays and pandas frames *)
(* ===================================================================== *)

Module Np.

(** The two types of the entries of a float array.  Every [float32]
    number is a binary64 number, and is kept as such. *)
Inductive dtype := float64 | float32.

(** A two-dimensional float array: [shape[0]] is the number of [rows],
    [shape1] is [shape[1]] and is there also when the array has no row. *)
Record ndarray2 :=
  { dtype_of : dtype; shape1 : nat; rows : list (list float) }.

(** [a[:, j]] for [0 <= j]. *)
Definition column (a : ndarray2) (j : nat) : result (list float) :=
  if (j <? shape1 a)%nat
  then Ok ((fun r => default nan (r !! j)) <$> rows a)
  else Raise (Exception IndexError).

(** [a[:, -1]]. *)
Definition last_column (a : ndarray2) : result (list float) :=
  match shape1 a with
  | O => Raise (Exception IndexError)
  | S j => column a j
  end.

(** [mask.nonzero()[0]]: the indices of the true entries, ascending. *)
Fixpoint nonzero_from (i : nat) (mask : list bool) : list nat :=
  match mask with
  | [] => []
  | b :: rest =>
      if b then i :: nonzero_from (S i) rest else nonzero_from (S i) rest
  end.

Definition nonzero (mask : list bool) : list nat := nonzero_from 0 mask.

(** [np.where(mask)[0]]: with the condition alone, [np.where] is
    [nonzero]. *)
Definition np_where (mask : list bool) : list nat := nonzero mask.

(** What [decision_function] returns: [ndim == 1] or a matrix. *)
Inductive scores :=
| Scores1 (v : list float)
| Scores2 (a : ndarray2).

End Np.

Module Pd.

Inductive cell :=
| CStr (s : str)
| CFloat (f : float)
| CInt (z : Z).

(** [pd.isna] on one entry: a missing entry is a NaN. *)
Definition isna (c : cell) : bool :=
  match c with
  | CFloat f => is_nan f
  | _ => false
  end.

(** A frame: named columns of equal length, in column order. *)
Record DataFrame := { nrows : nat; data : list (str * list cell) }.

Definition columns (df : DataFrame) : list str := (data df).*1.

Fixpoint lookup_column (name : str) (d : list (str * list cell))
  : option (list cell) :=
  match d with
  | [] => None
  | (n, v) :: rest => if str_eqb n name then Some v else lookup_column name rest
  end.

(** [df[name]]. *)
Definition getcol (df : DataFrame) (name : str) : result (list cell) :=
  match lookup_column name (data df) with
  | Some v => Ok v
  | None => Raise (Exception KeyError)
  end.

(** An existing column is replaced in place, a new one goes last. *)
Fixpoint assign (name : str) (v : list cell) (d : list (str * list cell))
  : list (str * list cell) :=
  match d with
  | [] => [(name, v)]
  | (n, w) :: rest =>
      if str_eqb n name then (n, v) :: rest else (n, w) :: assign name v rest
  end.

(** [df[name] = values] for a list or array of values: the length must
    be that of the index, unless the frame is still empty. *)
Definition setcol (df : DataFrame) (name : str) (v : list cell)
  : result DataFrame :=
  match data df, nrows df with
  | [], O => Ok {| nrows := length v; data := [(name, v)] |}
  | _, _ =>
      if (length v =? nrows df)%nat
      then Ok {| nrows := nrows df; data := assign name v (data df) |}
      else Raise (Exception ValueError)
  end.

(** [pd.DataFrame({"text": lines})]. *)
Definition text_frame (lines : list str) : DataFrame :=
  {| nrows := length lines; data := [(py "text", CStr <$> lines)] |}.

End Pd.

Import Np Pd.

(* ===================================================================== *)
(** * The model bundle and the library calls *)
(* ===================================================================== *)

Module Sk.

(** The fitted vectorizer.  [transform] is what the call returns for a
    list of texts.  scikit-learn checks that there is at least one sample:
    [rejects_empty] is the exception the call raises when the list is
    empty ([ValueError] for the TF-IDF vectorizers this repository
    trains), or [None] for a vectorizer that takes an empty list. *)
Record Vectorizer (Features : Type) :=
{ transform : list str -> Features;
  rejects_empty : option kind }.

(** The fitted classifier.  [hasattr(clf, "predict_proba")] is
  [predict_proba ≠ None], likewise for [decision_function]. *)
Record Classifier (Features : Type) := {
classes_ : list cell;
predict : Features -> list cell;
predict_proba : option (Features -> ndarray2);
decision_function : option (Features -> scores)
}.

(** The dictionary stored by training, keys [vectorizer] and [model]. *)
Record Bundle (Features : Type) := {
vectorizer : Vectorizer Features;
model : Classifier Features
}.

Arguments transform {Features} _ _.
Arguments rejects_empty {Features} _.
Arguments classes_ {Features} _.
Arguments predict {Features} _ _.
Arguments predict_proba {Features} _.
Arguments decision_function {Features} _.
Arguments vectorizer {Features} _.
Arguments model {Features} _.

(** [vec.transform(texts)] for a list that may be empty. *)
Definition transform_call {Features} (vec : Vectorizer Features)
    (texts : list str) : result Features :=
  match texts with
  | [] =>
      match rejects_empty vec with
      | Some k => Raise (Exception k)
      | None => Ok (transform vec [])
      end
  | _ :: _ => Ok (transform vec texts)
  end.

End Sk.

Abbreviation Vectorizer := Sk.Vectorizer.
Abbreviation Classifier := Sk.Classifier.
Abbreviation Bundle := Sk.Bundle.

(** What [joblib.load] can return. *)
Inductive loaded (Features : Type) :=
| NotADict
| Dict (vec : option (Vectorizer Features)) (clf : option (Classifier Features)).
Arguments NotADict {Features}.
Arguments Dict {Features} vec clf.

(** A chunked reader: iterating yields frames until one read raises. *)
Definition TextFileReader := list (result DataFrame).

(** Library and interpreter calls the code passes values to. *)
Class Runtime := {
  (** [s.lower()] *)
  str_lower : str -> str;
  (** [str(x)] for a float *)
  float_str : float -> str;
  (** [str(n)] for an int *)
  int_str : Z -> str;
  (** [np.exp] on one entry *)
  np_exp : float -> float;
  (** [p >= t] for a [numpy.float32] scalar [p] and a Python float [t],
      as NumPy's promotion rules decide it *)
  ge_float32 : float -> float -> bool;
  (** [pd.read_csv(StringIO(text))] *)
  read_csv : str -> result DataFrame;
  (** [pd.read_excel(BytesIO(content))] *)
  read_excel : bytes -> result DataFrame;
  (** [pd.read_csv(path, sep=None, engine="python", encoding=enc,
      chunksize=chunksize)] *)
  read_csv_chunks : str -> encoding -> Z -> result TextFileReader;
  (** [pd.api.types.is_string_dtype] on a column *)
  is_string_dtype : list cell -> bool
}.

(** [str(x)], which is also what [astype(str)] does to one entry that is
    not missing.  (A missing entry becomes the text [nan] under pandas
    before 3 and stays missing from pandas 3 on; where a statement says
    that an uploaded frame is scored, it is for a text column without
    missing entries.) *)
Definition py_str `{Runtime} (c : cell) : str :=
  match c with
  | CStr s => s
  | CFloat f => float_str f
  | CInt z => int_str z
  end.

(** An environment variable read as a number: the text, and the value
    when [float(text)] does not raise [ValueError]. *)
Record env_number := { raw : str; as_float : option float }.

(** The environment at import time. *)
Class Settings := {
  (** [int(os.getenv("MAX_BATCH", "1000"))] *)
  MAX_BATCH : Z;
  (** [os.getenv("SYSTEM_PROFILE")] *)
  SYSTEM_PROFILE_env : option str;
  (** [os.getenv("SPAM_THRESHOLD")] *)
  SPAM_THRESHOLD_env : option env_number
}.

(* ===================================================================== *)
(** * api/main.py: profiles and thresholds *)
(* ===================================================================== *)

Record profile_definition :=
  { label : str; threshold : float; description : str }.

Definition PROFILE_DEFINITIONS : list (str * profile_definition) :=
  [ (py "default",
     {| label := py "Default (balanced)";
        threshold := 0.55;
        description := py "General-purpose profile with balanced spam capture vs. false positives." |});
    (py "telco",
     {| label := py "Telecom / SMS filtering";
        threshold := 0.55;
        description := py "Suitable for telecoms: slightly conservative to avoid blocking real OTPs / alerts." |});
    (py "bank",
     {| label := py "Bank / Financial (very strict)";
        threshold := 0.65;
        description := py "Very strict: only mark as spam when highly confident. Protects legitimate financial messages." |});
    (py "marketing",
     {| label := py "Email marketing / newsletters (aggressive)";
        threshold := 0.45;
        description := py "Aggressive: catch promotional & marketing spam even if it risks some false positives." |});
    (py "aggressive",
     {| label := py "Aggressive (max spam capture)";
        threshold := 0.45;
        description := py "Maximize spam capture. Use when you prefer to over-block rather than miss spam." |});
    (py "balanced",
     {| label := py "Balanced (general use)";
        threshold := 0.55;
        description := py "Balanced behavior similar to 'default', suitable for most use cases." |});
    (py "conservative",
     {| label := py "Conservative (protect REAL messages)";
        threshold := 0.60;
        description := py "More conservative: only flag spam when probability is high." |}) ].

(** [{key: value["threshold"] for key, value in PROFILE_DEFINITIONS.items()}] *)
Definition PROFILE_THRESHOLDS : gmap str float :=
  list_to_map ((fun kv => (kv.1, threshold kv.2)) <$> PROFILE_DEFINITIONS).

Definition PROFILE_ALIASES : gmap str str :=
  list_to_map
    [ (py "financial", py "bank");
      (py "telecom", py "telco");
      (py "email_marketing", py "marketing");
      (py "newsletter", py "marketing") ].

(** [d.get(key, fallback)] *)
Definition dict_get {V} (d : gmap str V) (key : str) (fallback : V) : V :=
  default fallback (d !! key).

Record PredictOut := {
  text : str;
  pred : str;
  proba_spam : option float;
  request_id : option str
}.

Record BatchPredictItem := {
  item_text : str;
  item_pred : str;
  item_proba_spam : option float
}.

Record BatchPredictOut := {
  size : nat;
  items : list BatchPredictItem;
  batch_request_id : option str
}.

(** The streamed attachment: its file name and the frame written by
    [to_csv(index=False)], header first, one record per row. *)
Record FileResponse := { filename : str; body : DataFrame }.

Section Api.

Context `{Runtime} `{Settings} {Features : Type}.

(** [os.getenv("SYSTEM_PROFILE", "default").lower()] *)
Definition SYSTEM_PROFILE : str :=
  str_lower (default (py "default") SYSTEM_PROFILE_env).

(** A value of [SPAM_THRESHOLD] that [float()] rejects is logged and
    skipped. *)
Definition compute_spam_threshold : float :=
  let from_profile :=
    let profile_key := dict_get PROFILE_ALIASES SYSTEM_PROFILE SYSTEM_PROFILE in
    dict_get PROFILE_THRESHOLDS profile_key
      (dict_get PROFILE_THRESHOLDS (py "default") 0%float) in
  match SPAM_THRESHOLD_env with
  | Some env_override =>
      match as_float env_override with
      | Some v => v
      | None => from_profile
      end
  | None => from_profile
  end.

Definition SPAM_THRESHOLD : float := compute_spam_threshold.

Definition resolve_threshold (profile : option str) : float :=
  match profile with
  | Some p =>
      if truthy p then
        let key := str_lower p in
        let key := dict_get PROFILE_ALIASES key key in
        match PROFILE_THRESHOLDS !! key with
        | Some t => t
        | None => SPAM_THRESHOLD
        end
      else SPAM_THRESHOLD
  | None => SPAM_THRESHOLD
  end.

(** [clf.classes_.astype(str) == "spam"] *)
Definition is_spam_class (clf : Classifier Features) : list bool :=
  (fun c => str_eqb (py_str c) (py "spam")) <$> Sk.classes_ clf.

(** ** The spam column, as each endpoint computes it *)

(** [/predict]:
    [proba = clf.predict_proba(X)],
    [spam_idx = np.where(clf.classes_.astype(str) == "spam")[0]],
    [spam_idx = spam_idx[0] if len(spam_idx) else
                (1 if proba.shape[1] == 2 else 0)],
    [proba[:, spam_idx]]. *)
Definition predict_spam_column (clf : Classifier Features)
    (clf_predict_proba : Features -> ndarray2) (X : Features)
  : result (list float) :=
  let proba := clf_predict_proba X in
  let spam_idx := np_where (is_spam_class clf) in
  let spam_idx :=
    match spam_idx with
    | i :: _ => i
    | [] => if (shape1 proba =? 2)%nat then 1%nat else 0%nat
    end in
  column proba spam_idx.

(** [/batch]: the same lines, with
    [(clf.classes_.astype(str) == "spam").nonzero()[0]]. *)
Definition batch_spam_column (clf : Classifier Features)
    (clf_predict_proba : Features -> ndarray2) (X : Features)
  : result (list float) :=
  let proba := clf_predict_proba X in
  let spam_idx := nonzero (is_spam_class clf) in
  let spam_idx :=
    match spam_idx with
    | i :: _ => i
    | [] => if (shape1 proba =? 2)%nat then 1%nat else 0%nat
    end in
  column proba spam_idx.

(** [/file-predict]: again with [.nonzero()[0]]. *)
Definition file_predict_spam_column (clf : Classifier Features)
    (clf_predict_proba : Features -> ndarray2) (X : Features)
  : result (list float) :=
  let proba := clf_predict_proba X in
  let spam_idx := nonzero (is_spam_class clf) in
  let spam_idx :=
    match spam_idx with
    | i :: _ => i
    | [] => if (shape1 proba =? 2)%nat then 1%nat else 0%nat
    end in
  column proba spam_idx.

(** ** POST /predict *)

Definition predict (MODEL_BUNDLE : option (Bundle Features))
    (payload_text : str) (rid : option str) (profile : option str)
  : result PredictOut :=
  match MODEL_BUNDLE with
  | None => Raise (HTTPException 503 ModelNotLoaded)
  | Some bundle =>
      let text := strip payload_text in
      if negb (truthy text) then Raise (HTTPException 422 EmptyText)
      else
        let vec := Sk.vectorizer bundle in
        let clf := Sk.model bundle in
        (* one text: the list is not empty *)
        let X := Sk.transform vec [text] in
        let threshold := resolve_threshold profile in
        match Sk.predict_proba clf with
        | Some clf_predict_proba =>
            col ← predict_spam_column clf clf_predict_proba X;
            p ← getitem col 0;
            let label := if (threshold <=? p)%float then py "spam" else py "ham" in
            Ok {| text := text; pred := label; proba_spam := Some p;
                  request_id := rid |}
        | None =>
            raw ← getitem (Sk.predict clf X) 0;
            Ok {| text := text; pred := py_str raw; proba_spam := None;
                  request_id := rid |}
        end
  end.

(** ** POST /batch *)

(** [for i, p in enumerate(spam_probs): probs[i] = float(p);
    preds[i] = "spam" if p >= threshold else "ham"] *)
Fixpoint batch_fill (threshold : float) (i : nat) (spam_probs : list float)
    (preds : list str) (probs : list (option float))
  : result (list str * list (option float)) :=
  match spam_probs with
  | [] => Ok (preds, probs)
  | p :: rest =>
      if negb (i <? length probs)%nat then Raise (Exception IndexError)
      else
        let probs := <[i := Some p]> probs in
        if negb (i <? length preds)%nat then Raise (Exception IndexError)
        else
          let preds :=
            <[i := if (threshold <=? p)%float then py "spam" else py "ham"]> preds in
          batch_fill threshold (S i) rest preds probs
  end.

(** [zip(texts, preds, probs)] into the response items. *)
Fixpoint zip_items (texts preds : list str) (probs : list (option float))
  : list BatchPredictItem :=
  match texts, preds, probs with
  | t :: texts, l :: preds, pr :: probs =>
      {| item_text := t; item_pred := l; item_proba_spam := pr |}
        :: zip_items texts preds probs
  | _, _, _ => []
  end.

(** The body of [batch] once the request has passed the three guards; the
    list of texts is then not empty. *)
Definition batch_score (bundle : Bundle Features) (payload_texts : list str)
    (rid : option str) (profile : option str) : result BatchPredictOut :=
  let vec := Sk.vectorizer bundle in
  let clf := Sk.model bundle in
  let texts := strip <$> payload_texts in
  let X := Sk.transform vec texts in
  let preds := replicate (length texts) (py "ham") in
  let probs := replicate (length texts) (@None float) in
  let threshold := resolve_threshold profile in
  '(preds, probs) ←
    match Sk.predict_proba clf with
    | Some clf_predict_proba =>
        spam_probs ← batch_spam_column clf clf_predict_proba X;
        batch_fill threshold 0 spam_probs preds probs
    | None =>
        let raw_preds := Sk.predict clf X in
        Ok (py_str <$> raw_preds, probs)
    end;
  let items := zip_items texts preds probs in
  Ok {| size := length items; items := items; batch_request_id := rid |}.

Definition batch (MODEL_BUNDLE : option (Bundle Features))
    (payload_texts : list str) (rid : option str) (profile : option str)
  : result BatchPredictOut :=
  match MODEL_BUNDLE with
  | None => Raise (HTTPException 503 ModelNotLoaded)
  | Some bundle =>
      match payload_texts with
      | [] => Raise (HTTPException 422 NoTextsProvided)
      | _ :: _ =>
          if Z.of_nat (length payload_texts) >? MAX_BATCH
          then Raise (HTTPException 413 (BatchTooLarge MAX_BATCH))
          else batch_score bundle payload_texts rid profile
      end
  end.

(** ** POST /file-predict *)

(** [[ln.strip() for ln in lines if ln.strip()]] *)
Definition nonblank_lines (lines : list str) : list str :=
  strip <$> filter (fun ln => truthy (strip ln) = true) lines.

(** The [try] block that reads the upload, before its handlers. *)
Definition read_by_extension (ext : str) (content : bytes)
  : result DataFrame :=
  if str_eqb ext (py ".csv") then
    match (s ← bytes_decode content utf_8; read_csv s) with
    | Ok df => Ok df
    | Raise _ =>
        s ← bytes_decode content utf_8;
        Ok (text_frame (nonblank_lines (splitlines s)))
    end
  else if str_eqb ext (py ".xlsx") || str_eqb ext (py ".xls") then
    read_excel content
  else if str_eqb ext (py ".txt") then
    s ← bytes_decode content utf_8;
    Ok (text_frame (nonblank_lines (splitlines s)))
  else Raise (HTTPException 415 (UnsupportedFileType ext)).

(** [except HTTPException: raise] and
    [except Exception as exc: raise HTTPException(400, ...)]. *)
Definition read_upload (ext : str) (content : bytes) : result DataFrame :=
  match read_by_extension ext content with
  | Ok df => Ok df
  | Raise (HTTPException s d) => Raise (HTTPException s d)
  | Raise (Exception k) => Raise (HTTPException 400 (CouldNotReadFile k))
  end.

(** [p >= threshold] in the loop over [spam_probs]: [p] is an entry of
    the array, a NumPy scalar of the array's type, and [threshold] a
    Python float.  For [float64] both are binary64 numbers. *)
Definition scalar_ge (dt : dtype) (p threshold : float) : bool :=
  match dt with
  | float64 => (threshold <=? p)%float
  | float32 => ge_float32 p threshold
  end.

(** [f'attachment; filename="{out_name}"'] *)
Definition content_disposition (out_name : str) : str :=
  py "attachment; filename=" ++ [34%N] ++ out_name ++ [34%N].

(** The handler.  [vec.transform] gets the texts of the column, a list
    that is empty when the frame has no row; with [predict_proba] the
    labels are decided on the entries of the array, one by one;
    [StreamingResponse(..., headers=...)] encodes the value of every
    header as Latin-1 when it is built, inside the handler, and raises
    [UnicodeEncodeError] on a file name with a character above U+00FF. *)
Definition file_predict (MODEL_BUNDLE : option (Bundle Features))
    (file_filename : option str) (content : bytes) (profile : option str)
  : result FileResponse :=
  match MODEL_BUNDLE with
  | None => Raise (HTTPException 503 ModelNotLoaded)
  | Some bundle =>
      let original_name := default [] file_filename in
      if negb (truthy original_name)
      then Raise (HTTPException 400 MissingFileName)
      else
        let ext := str_lower (path_suffix original_name) in
        df ← read_upload ext content;
        if negb (bool_decide (py "text" ∈ columns df))
        then Raise (HTTPException 422 MissingTextColumn)
        else
          let vec := Sk.vectorizer bundle in
          let clf := Sk.model bundle in
          text_column ← getcol df (py "text");
          let texts : list str := py_str <$> (text_column : list cell) in
          X ← Sk.transform_call vec texts;
          let threshold := resolve_threshold profile in
          '(preds, spam_probs) ←
            match Sk.predict_proba clf with
            | Some clf_predict_proba =>
                spam_probs ← file_predict_spam_column clf clf_predict_proba X;
                Ok ((fun p => if scalar_ge (dtype_of (clf_predict_proba X))
                                   p threshold
                              then py "spam" else py "ham")
                      <$> (spam_probs : list float),
                    Some spam_probs)
            | None =>
                let raw_preds := Sk.predict clf X in
                Ok (py_str <$> raw_preds, None)
            end;
          df ← setcol df (py "pred") (CStr <$> preds);
          df ← match spam_probs with
               | Some sp => setcol df (py "proba_spam") (CFloat <$> sp)
               | None => Ok df
               end;
          let out_name := py "prediction_" ++ path_stem original_name ++ py ".csv" in
          if latin_1_encodable (content_disposition out_name)
          then Ok {| filename := out_name; body := df |}
          else Raise (Exception UnicodeEncodeError)
  end.

End Api.

(* ===================================================================== *)
(** * src/batch_predict.py: the offline batch scorer *)
(* ===================================================================== *)

Module BatchPredict.

Definition FALLBACK_ENCODINGS : list encoding :=
  [utf_8; utf_8_sig; cp1252; latin_1; ISO_8859_1].

(** The output file: the chunks appended so far, each with the flag
    [header] it was written with. *)
Definition output_file := list (bool * DataFrame).

Section Cli.

Context `{Runtime} {Features : Type}.

(** [{c.lower(): c for c in df.columns}]: a later column wins. *)
Definition cols_lower (df : DataFrame) : gmap str str :=
  foldl (fun m c => <[str_lower c := c]> m) ∅ (columns df).

Fixpoint first_known (keys : list str) (m : gmap str str) : option str :=
  match keys with
  | [] => None
  | k :: rest =>
      match m !! k with
      | Some c => Some c
      | None => first_known rest m
      end
  end.

Definition _detect_text_col (df : DataFrame) (preferred : option str)
  : result str :=
  let p := default [] preferred in
  if truthy p && bool_decide (p ∈ columns df) then Ok p
  else
    match first_known
            [py "text"; py "message"; py "sms"; py "content"; py "body"]
            (cols_lower df) with
    | Some c => Ok c
    | None =>
        match find (fun c => is_string_dtype c.2) (data df) with
        | Some c => Ok c.1
        | None => Raise (Exception ValueError)
        end
    end.

Fixpoint _iter_csv_from (path : str) (chunksize : Z)
    (encodings : list encoding) (last_err : option exn)
  : result TextFileReader :=
  match encodings with
  | [] => Raise (default (Exception RuntimeError) last_err)
  | enc :: rest =>
      match read_csv_chunks path enc chunksize with
      | Ok reader => Ok reader
      | Raise e => _iter_csv_from path chunksize rest (Some e)
      end
  end.

Definition _iter_csv (path : str) (chunksize : Z) : result TextFileReader :=
  _iter_csv_from path chunksize FALLBACK_ENCODINGS None.

(** [df.to_csv(out_path, mode="a", header=not wrote_header)] *)
Definition _write_chunk (file : output_file) (df : DataFrame)
    (wrote_header : bool) : output_file * bool :=
  (file ++ [(negb wrote_header, df)], true).

(** [1 / (1 + np.exp(-d))] *)
Definition sigmoid (d : float) : float := (1 / (1 + np_exp (- d)))%float.

(** [proba = model.predict_proba(X)],
    [spam_idx = np.where(model.classes_.astype(str) == "spam")[0]],
    [spam_idx = spam_idx[0] if len(spam_idx) else
                (1 if proba.shape[1] == 2 else 0)],
    [proba[:, spam_idx]]. *)
Definition main_spam_column (model : Classifier Features)
    (model_predict_proba : Features -> ndarray2) (X : Features)
  : result (list float) :=
  let proba := model_predict_proba X in
  let spam_idx :=
    np_where ((fun c => str_eqb (py_str c) (py "spam"))
                <$> Sk.classes_ model) in
  let spam_idx :=
    match spam_idx with
    | i :: _ => i
    | [] => if (shape1 proba =? 2)%nat then 1%nat else 0%nat
    end in
  column proba spam_idx.

(** The [if] / [elif] / [else] that fills [proba_spam]. *)
Definition chunk_proba_spam (model : Classifier Features) (X : Features)
    (texts : list str) : result (list float) :=
  match Sk.predict_proba model with
  | Some model_predict_proba => main_spam_column model model_predict_proba X
  | None =>
      match Sk.decision_function model with
      | Some model_decision_function =>
          match model_decision_function X with
          | Scores1 dfun => Ok (sigmoid <$> dfun)
          | Scores2 dfun =>
              scores ← last_column dfun;
              Ok (sigmoid <$> (scores : list float))
          end
      | None => Ok (replicate (length texts) nan)
      end
  end.

(** [out_chunk["proba_spam"] >= thr], entry by entry. *)
Definition cell_ge (thr : float) (c : cell) : bool :=
  match c with
  | CFloat f => (thr <=? f)%float
  | _ => false
  end.

(** The body of the loop over the chunks, up to the write. *)
Definition score_chunk (vectorizer : Vectorizer Features)
    (model : Classifier Features) (threshold : option float)
    (tcol : str) (chunk : DataFrame) : result DataFrame :=
  text_column ← getcol chunk tcol;
  let texts : list str := py_str <$> (text_column : list cell) in
  let X := Sk.transform vectorizer texts in
  let pred := Sk.predict model X in
  proba_spam ← chunk_proba_spam model X texts;
  out_chunk ← setcol chunk (py "pred") pred;
  out_chunk ← setcol out_chunk (py "proba_spam")
                (CFloat <$> (proba_spam : list float));
  match threshold with
  | Some thr =>
      ps ← getcol out_chunk (py "proba_spam");
      setcol out_chunk (py "pred_thresholded")
        ((fun c => CStr (if cell_ge thr c then py "spam" else py "ham"))
           <$> (ps : list cell))
  | None => Ok out_chunk
  end.

(** [for i, chunk in enumerate(reader)].  The second component tells
    how the loop ended; what was written before an exception stays in
    the file. *)
Fixpoint main_loop (vectorizer : Vectorizer Features)
    (model : Classifier Features) (text_col : option str)
    (threshold : option float) (i : nat) (reader : TextFileReader)
    (tcol : str) (file : output_file) (wrote_header : bool)
  : output_file * result unit :=
  match reader with
  | [] => (file, Ok ())
  | Raise e :: _ => (file, Raise e)
  | Ok chunk :: rest =>
      match (tcol ← (if (i =? 0)%nat
                     then _detect_text_col chunk text_col
                     else Ok tcol);
             out_chunk ← score_chunk vectorizer model threshold tcol chunk;
             Ok (tcol, out_chunk)) with
      | Raise e => (file, Raise e)
      | Ok (tcol, out_chunk) =>
          let '(file, wrote_header) :=
            _write_chunk file out_chunk wrote_header in
          main_loop vectorizer model text_col threshold (S i) rest
            tcol file wrote_header
      end
  end.

(** [obj] is what [joblib.load(model_path)] returned. *)
Definition main (obj : loaded Features) (input_path : str)
    (text_col : option str) (chunksize : Z) (threshold : option float)
  : output_file * result unit :=
  match obj with
  | Dict (Some vectorizer) (Some model) =>
      match _iter_csv input_path chunksize with
      | Raise e => ([], Raise e)
      | Ok reader =>
          main_loop vectorizer model text_col threshold 0 reader [] []
            false
      end
  | _ => ([], Raise (Exception ValueError))
  end.

End Cli.

End BatchPredict.

(* ===================================================================== *)
(** * The vocabulary of the properties *)
(* ===================================================================== *)

Module Spec.

(** The index of the first entry equal to [x]. *)
Fixpoint index_of (x : str) (l : list str) : option nat :=
  match l with
  | [] => None
  | y :: rest => if str_eqb y x then Some 0%nat else S <$> index_of x rest
  end.

(** The column taken as spam probability, in the words of the
    specification: the index of a class named [spam] if there is one,
    else the second column of a two-column matrix, else the first. *)
Definition spam_column (class_names : list str) (ncols : nat) : nat :=
  match index_of (py "spam") class_names with
  | Some i => i
  | None => if (ncols =? 2)%nat then 1%nat else 0%nat
  end.

(** [label = "spam" if spamProbability >= threshold else "ham"] *)
Definition label_at (threshold p : float) : str :=
  if (threshold <=? p)%float then py "spam" else py "ham".

End Spec.

(** Every column of a frame has one entry per row. *)
Definition frame_ok (df : DataFrame) : Prop :=
  Forall (fun c => length c.2 = nrows df) (data df).

Section Contract.

Context {Features : Type}.

(** What the code takes for granted of a fitted scikit-learn pair: one
    row of output per text, one probability column per class, at least
    one class. *)
Record row_per_text (b : Bundle Features) : Prop := {
  classes_nonempty : Sk.classes_ (Sk.model b) <> [];
  proba_width : forall pp texts,
    Sk.predict_proba (Sk.model b) = Some pp ->
    shape1 (pp (Sk.transform (Sk.vectorizer b) texts))
    = length (Sk.classes_ (Sk.model b));
  proba_length : forall pp texts,
    Sk.predict_proba (Sk.model b) = Some pp ->
    length (rows (pp (Sk.transform (Sk.vectorizer b) texts))) = length texts;
  predict_length : forall texts,
    length (Sk.predict (Sk.model b) (Sk.transform (Sk.vectorizer b) texts))
    = length texts
}.

(** Scoring is done sample by sample: the output for a list of texts is
    the outputs for the texts one at a time, put together in order. *)
Record per_sample (b : Bundle Features) : Prop := {
  per_sample_rows : row_per_text b;
  proba_concat : forall pp texts,
    Sk.predict_proba (Sk.model b) = Some pp ->
    rows (pp (Sk.transform (Sk.vectorizer b) texts))
    = flat_map (fun t => rows (pp (Sk.transform (Sk.vectorizer b) [t]))) texts;
  predict_concat : forall texts,
    Sk.predict (Sk.model b) (Sk.transform (Sk.vectorizer b) texts)
    = flat_map
        (fun t => Sk.predict (Sk.model b) (Sk.transform (Sk.vectorizer b) [t]))
        texts
}.

End Contract.

(** An item of the batch response. *)
Definition item_of (t l : str) (pr : option float) : BatchPredictItem :=
  {| item_text := t; item_pred := l; item_proba_spam := pr |}.

Section Scores.

Context `{Runtime} {Features : Type}.

(** The spam probabilities of [texts] scored in one call: the entries of
    column [Spec.spam_column] of the classifier's matrix, row by row. *)
Definition spam_probs (b : Bundle Features) (pp : Features -> ndarray2)
    (texts : list str) : list float :=
  let proba := pp (Sk.transform (Sk.vectorizer b) texts) in
  (fun r => default nan
              (r !! Spec.spam_column (py_str <$> Sk.classes_ (Sk.model b))
                      (shape1 proba)))
    <$> rows proba.

(** The classes [predict] gives to [texts] scored in one call. *)
Definition raw_preds (b : Bundle Features) (texts : list str) : list cell :=
  Sk.predict (Sk.model b) (Sk.transform (Sk.vectorizer b) texts).

(** The labels of [texts] under [threshold], and their probabilities when
    the classifier has [predict_proba]. *)
Definition score_all (b : Bundle Features) (threshold : float)
    (texts : list str) : list str * option (list float) :=
  match Sk.predict_proba (Sk.model b) with
  | Some pp =>
      let ps := spam_probs b pp texts in
      (Spec.label_at threshold <$> ps, Some ps)
  | None => (py_str <$> raw_preds b texts, None)
  end.

(** The labels and probabilities [file_predict] computes for [texts].
    They are those of [score_all], except that a probability is compared
    with the threshold as an entry of the classifier's array, in the type
    of that array. *)
Definition upload_scores (b : Bundle Features) (threshold : float)
    (texts : list str) : list str * option (list float) :=
  match Sk.predict_proba (Sk.model b) with
  | Some pp =>
      let ps := spam_probs b pp texts in
      let dt := dtype_of (pp (Sk.transform (Sk.vectorizer b) texts)) in
      ((fun p => if scalar_ge dt p threshold then py "spam" else py "ham")
         <$> ps,
       Some ps)
  | None => (py_str <$> raw_preds b texts, None)
  end.

(** [predict_proba] returns arrays of [float64], as scikit-learn's
    classifiers do on the matrices of a TF-IDF vectorizer. *)
Definition proba_is_float64 (b : Bundle Features) : Prop :=
  forall pp texts,
    Sk.predict_proba (Sk.model b) = Some pp ->
    dtype_of (pp (Sk.transform (Sk.vectorizer b) texts)) = float64.

(** The frame [file_predict] returns for the frame [df] it has read:
    [pred] assigned, then [proba_spam] when there are probabilities. *)
Definition scored_frame (df : DataFrame) (labels : list str)
    (probs : option (list float)) : DataFrame :=
  let with_pred := assign (py "pred") (CStr <$> labels) (data df) in
  {| nrows := nrows df;
     data := match probs with
             | Some ps => assign (py "proba_spam") (CFloat <$> ps) with_pred
             | None => with_pred
             end |}.


End Scores.

Section Vocabulary.

Context `{Runtime} `{Settings} {Features : Type}.

(** The key [resolve_threshold] looks up for a requested profile. *)
Definition canonical_key (p : str) : str :=
  dict_get PROFILE_ALIASES (str_lower p) (str_lower p).

(** What [/predict] answers for [t] is what item [it] of a batch holds. *)
Definition same_score (b : Bundle Features) (rid profile : option str)
    (t : str)
    (it : BatchPredictItem) : Prop :=
  exists o : PredictOut,
    predict (Some b) t rid profile = Ok o /\
    item_text it = text o /\
    item_pred it = pred o /\
    item_proba_spam it = proba_spam o.

(** An upload that is handled line by line: it decodes as UTF-8 to [s] and
    is a [.txt] file, or a [.csv] file on which [pd.read_csv] raises. *)
Definition reads_as_lines (ext : str) (content : bytes) (s : str) : Prop :=
  bytes_decode content utf_8 = Ok s /\
  (ext = py ".txt" \/ (ext = py ".csv" /\ exists e, read_csv s = Raise e)).

(** An upload that is parsed as a table: a [.csv] file that decodes as
    UTF-8 to a text on which [pd.read_csv] returns [df], or an Excel file
    on which [pd.read_excel] returns [df]. *)
Definition reads_as_table (ext : str) (content : bytes) (df : DataFrame)
  : Prop :=
  (ext = py ".csv" /\
   exists s, bytes_decode content utf_8 = Ok s /\ read_csv s = Ok df)
  \/ ((ext = py ".xlsx" \/ ext = py ".xls") /\ read_excel content = Ok df).

(** Opening the file with encoding [enc] raises. *)
Definition open_fails (path : str) (chunksize : Z) (enc : encoding) : Prop :=
  exists err, read_csv_chunks path enc chunksize = Raise err.



End Vocabulary.

(* ===================================================================== *)
(** * A small installation, for the examples *)
(* ===================================================================== *)

Module Demo.

(** [str.lower] on ASCII text. *)
Definition ascii_lower (s : str) : str :=
  (fun c => if ((65 <=? c) && (c <=? 90))%N then (c + 32)%N else c) <$> s.

(** A reader for one-column files: the first line names the column, each
    further line is one entry.  Lines with a comma or a quote are left to
    the real parser. *)
Definition one_column (s : str) : result DataFrame :=
  match splitlines s with
  | [] => Raise (Exception LibraryError)
  | header :: lines =>
      if existsb (fun c => (c =? 44) || (c =? 34))%N s
      then Raise (Exception LibraryError)
      else Ok {| nrows := length lines; data := [(header, CStr <$> lines)] |}
  end.

(** The one file of the examples, [inbox.csv], written in Latin-1:
    a header [text] and the message [café]. *)
Definition inbox_csv : bytes :=
  [x74; x65; x78; x74; x0a; x63; x61; x66; xe9; x0a].

Definition open_file (path : str) (enc : encoding) (chunksize : Z)
  : result TextFileReader :=
  if str_eqb path (py "inbox.csv") then
    s ← bytes_decode inbox_csv enc;
    df ← one_column s;
    Ok [Ok df]
  else Raise (Exception LibraryError).

(** The uploads of the examples: [note.txt] holds [café] in Latin-1,
    [sms.txt] four messages and two blank lines, [blank.txt] blank lines
    only. *)
Definition note_txt : bytes := [x63; x61; x66; xe9].

Definition sms_txt : bytes :=
  list_byte_of_string "Free entry in 2 a wkly comp to win FA Cup final tickets!"
  ++ [x0a; x0a]
  ++ list_byte_of_string "  Your OTP code is 394021.  " ++ [x0d; x0a]
  ++ list_byte_of_string "Congratulations! You won a FREE vacation, click now!"
  ++ [x0a; x20; x09; x0a]
  ++ list_byte_of_string "Hey, are we still meeting at 5 pm today?" ++ [x0a].


(** The [float32] number nearest to a positive number [t] in the normal
    range of [float32]: the 53-bit mantissa rounded to 24 bits, ties to
    even. *)
Definition to_float32 (t : float) : float :=
  let '(m, e) := frshiftexp t in
  let scaled := (m * 16777216)%float in
  let rounded := (scaled + 4503599627370496 - 4503599627370496)%float in
  ldshiftexp (rounded / 16777216)%float e.

(** [str.lower] is the ASCII one and the examples keep to ASCII keys; no
    example reaches [float_str] or [np_exp] (no float is turned into text,
    the toy classifiers have no [decision_function]), so these two are
    constants.  A [float32] scalar is compared with a Python float as
    NumPy 2 does it: the Python float is rounded to [float32] first. *)
Definition runtime : Runtime := {|
  str_lower := ascii_lower;
  float_str := fun _ => py "?";
  int_str := fun z => py (pretty z);
  np_exp := fun _ => nan;
  ge_float32 := fun p t => (to_float32 t <=? p)%float;
  read_csv := one_column;
  read_excel := fun _ => Raise (Exception LibraryError);
  read_csv_chunks := open_file;
  is_string_dtype :=
    forallb (fun c => match c with CStr _ => true | _ => false end)
|}.

(** No variable set but [MAX_BATCH=3]. *)
Definition settings : Settings :=
  {| MAX_BATCH := 3; SYSTEM_PROFILE_env := None; SPAM_THRESHOLD_env := None |}.

(** [SPAM_THRESHOLD=0.3]. *)
Definition settings_override : Settings :=
  {| MAX_BATCH := 1000; SYSTEM_PROFILE_env := None;
     SPAM_THRESHOLD_env := Some {| raw := py "0.3"; as_float := Some 0.3%float |} |}.

(** A toy pair: the features are the texts, long texts score 0.6 and
    short ones 0.2.  Like a TF-IDF vectorizer, the vectorizer refuses an
    empty list. *)
Definition toy_score (t : str) : float :=
  if (20 <? length t)%nat then 0.6%float else 0.2%float.

Definition toy_vectorizer : Vectorizer (list str) :=
  {| Sk.transform := fun texts => texts;
     Sk.rejects_empty := Some ValueError |}.

(** The same vectorizer without the check for an empty list. *)
Definition lenient_vectorizer : Vectorizer (list str) :=
  {| Sk.transform := fun texts => texts;
     Sk.rejects_empty := None |}.

Definition toy_proba (X : list str) : ndarray2 :=
  {| dtype_of := float64; shape1 := 2;
     rows := (fun t => [(1 - toy_score t)%float; toy_score t]) <$> X |}.

Definition toy_predict (X : list str) : list cell :=
  (fun t => CStr (if (0.5 <=? toy_score t)%float then py "spam" else py "ham"))
    <$> X.

Definition toy_classes : list cell := [CStr (py "ham"); CStr (py "spam")].

(** With [predict_proba]. *)
Definition bundle : Bundle (list str) :=
  {| Sk.vectorizer := toy_vectorizer;
     Sk.model := {| Sk.classes_ := toy_classes;
                    Sk.predict := toy_predict;
                    Sk.predict_proba := Some toy_proba;
                    Sk.decision_function := None |} |}.

(** With [predict] only. *)
Definition bundle_labels : Bundle (list str) :=
  {| Sk.vectorizer := toy_vectorizer;
     Sk.model := {| Sk.classes_ := toy_classes;
                    Sk.predict := toy_predict;
                    Sk.predict_proba := None;
                    Sk.decision_function := None |} |}.


Definition bundle_labels_lenient : Bundle (list str) :=
  {| Sk.vectorizer := lenient_vectorizer; Sk.model := Sk.model bundle_labels |}.

(** A classifier that computes in [float32]: every text scores the
    [float32] number nearest to 0.45, which is a little below 0.45. *)
Definition bundle_float32 : Bundle (list str) :=
  {| Sk.vectorizer := toy_vectorizer;
     Sk.model :=
       {| Sk.classes_ := toy_classes;
          Sk.predict := toy_predict;
          Sk.predict_proba :=
            Some (fun X =>
                    {| dtype_of := float32; shape1 := 2;
                       rows := (fun _ => [(1 - to_float32 0.45)%float;
                                          to_float32 0.45%float]) <$> X |});
          Sk.decision_function := None |} |}.

End Demo.

(** The messages of the examples. *)
Definition short_message : str := py " see you at 5 ".
Definition long_message : str := py "You won a FREE vacation, click now!".

(** The run of the examples: [inbox.csv] scored by the toy pair with
    [--threshold 0.5].  One chunk is written, with the header. *)
Definition inbox_scored : DataFrame :=
  {| nrows := 1;
     data := [ (py "text", [CStr [99; 97; 102; 233]%N]);
               (py "pred", [CStr (py "ham")]);
               (py "proba_spam", [CFloat 0.2]);
               (py "pred_thresholded", [CStr (py "ham")]) ] |}.


(* ===================================================================== *)
(** * api/main.py: the profile listing *)
(* ===================================================================== *)

Record profile_entry := {
  entry_key : str;
  entry_label : str;
  entry_threshold : float;
  entry_description : str
}.

Record ProfilesOut := {
  listed_system_profile : str;
  listed_default_threshold : float;
  listed_profiles : list profile_entry
}.

Section Listing.

Context `{Runtime} `{Settings}.

(** GET /profiles *)
Definition list_profiles : ProfilesOut :=
  {| listed_system_profile := SYSTEM_PROFILE;
     listed_default_threshold := SPAM_THRESHOLD;
     listed_profiles :=
       (fun kv => {| entry_key := kv.1;
                     entry_label := label kv.2;
                     entry_threshold := threshold kv.2;
                     entry_description := description kv.2 |})
         <$> PROFILE_DEFINITIONS |}.

(** No usable override: [SPAM_THRESHOLD] is unset, or [float()] rejects
    its text. *)
Definition no_valid_override : Prop :=
  forall e, SPAM_THRESHOLD_env = Some e -> as_float e = None.

End Listing.

(** [SPAM_THRESHOLD=high] and [SYSTEM_PROFILE=Newsletter]: a text that is
    no number, and an alias written with a capital. *)
Definition settings_invalid_override : Settings :=
  {| MAX_BATCH := 1000;
     SYSTEM_PROFILE_env := Some (py "Newsletter");
     SPAM_THRESHOLD_env := Some {| raw := py "high"; as_float := None |} |}.

(** [Text.csv]: one column, named [Text] with a capital, one message. *)
Definition capital_text_csv : bytes :=
  list_byte_of_string "Text" ++ [x0a]
  ++ list_byte_of_string "hello there" ++ [x0a].

(** A pair whose [predict_proba] answers for the first text only. *)
Definition first_row_only : Bundle (list str) :=
  {| Sk.vectorizer := Demo.toy_vectorizer;
     Sk.model := {| Sk.classes_ := Demo.toy_classes;
                    Sk.predict := Demo.toy_predict;
                    Sk.predict_proba := Some (fun X => Demo.toy_proba (take 1 X));
                    Sk.decision_function := None |} |}.

(** A pair whose [predict_proba] answers twice for every text. *)
Definition every_row_twice : Bundle (list str) :=
  {| Sk.vectorizer := Demo.toy_vectorizer;
     Sk.model := {| Sk.classes_ := Demo.toy_classes;
                    Sk.predict := Demo.toy_predict;
                    Sk.predict_proba := Some (fun X => Demo.toy_proba (X ++ X));
                    Sk.decision_function := None |} |}.

(** A parsed file that already has a column [pred], before [text]. *)
Definition labelled_frame : DataFrame :=
  {| nrows := 2;
     data := [ (py "pred", [CStr (py "old"); CStr (py "old")]);
               (py "text", [CStr (py "see you at 5");
                            CStr (py "You won a FREE vacation, click now!")]);
               (py "sender", [CInt 1; CInt 2]) ] |}.

(** The runtime of the examples, with a [read_csv] that parses every file
    to [labelled_frame]. *)
Definition runtime_labelled : Runtime := {|
  str_lower := Demo.ascii_lower;
  float_str := fun _ => py "?";
  int_str := fun z => py (pretty z);
  np_exp := fun _ => nan;
  ge_float32 := fun p t => (Demo.to_float32 t <=? p)%float;
  read_csv := fun _ => Ok labelled_frame;
  read_excel := fun _ => Raise (Exception LibraryError);
  read_csv_chunks := Demo.open_file;
  is_string_dtype :=
    forallb (fun c => match c with CStr _ => true | _ => false end)
|}.

(* ===================================================================== *)
(** * ui/app.py: the helpers that read what the API sent *)
(* ===================================================================== *)

Module Ui.

(** The two exceptions the helpers below can leave: [df["pred"]] without
    such a column, and [.strip()] on a label that is no string. *)
Inductive failure := NoSuchColumn (* KeyError *) | NotAString (* AttributeError *).

Definition outcome (A : Type) : Type := A + failure.

(** [bool(x)] for an entry of a column: [""], [0] and [0.0] are false,
    NaN is true. *)
Definition cell_truthy (c : cell) : bool :=
  match c with
  | CStr s => truthy s
  | CFloat f => negb (f =? 0)%float
  | CInt z => negb (z =? 0)%Z
  end.

(** One entry of the listing, as the JSON object the interface holds: a
    key read with [.get] may be missing. *)
Record profile := {
  p_key : option str;
  p_label : option str;
  p_threshold : option float;
  p_description : option str
}.

(** The body of GET /profiles once decoded. *)
Record profiles_data := {
  system_profile : str;
  default_threshold : float;
  profiles : list profile
}.

Record Metrics := {
  total : nat;
  spam : nat;
  real : nat;
  spam_rate : float
}.

(** [int / int] for the counts of a table: both are far below 2^53, where
    the conversion to [float] is exact and the quotient is the correctly
    rounded one. *)
Definition int_div (a b : nat) : float :=
  (PrimFloat.of_uint63 (Uint63.of_Z (Z.of_nat a))
   / PrimFloat.of_uint63 (Uint63.of_Z (Z.of_nat b)))%float.

(** [(labels == x).sum()] *)
Definition count_eq (x : str) (labels : list str) : nat :=
  length (filter (fun l => l = x) labels).

Definition builtin_profile : profile :=
  {| p_key := Some (py "default");
     p_label := Some (py "Default (balanced)");
     p_threshold := Some 0.40%float;
     p_description := Some (py "General-purpose profile.") |}.

(** The JSON object for one entry of the listing. *)
Definition json_profile (e : profile_entry) : profile :=
  {| p_key := Some (entry_key e);
     p_label := Some (entry_label e);
     p_threshold := Some (entry_threshold e);
     p_description := Some (entry_description e) |}.

(** [fetch_profiles]: the decoded body of GET /profiles, or the built-in
    listing when the request raises ([response] is [None]). *)
Definition fetch_profiles (response : option ProfilesOut) : profiles_data :=
  match response with
  | Some body =>
      {| system_profile := listed_system_profile body;
         default_threshold := listed_default_threshold body;
         profiles := json_profile <$> listed_profiles body |}
  | None =>
      {| system_profile := py "default";
         default_threshold := 0.40%float;
         profiles := [builtin_profile] |}
  end.

(** The lines under "Profiles bootstrap": the list of profiles and the
    default key the page works with. *)
Definition bootstrap (data : profiles_data) : list profile * str :=
  match profiles data with
  | [] =>
      ([ {| p_key := Some (py "default");
            p_label := Some (py "Default (balanced)");
            p_threshold := Some 0.40%float;
            p_description := Some (py "General-purpose profile.") |} ],
       py "default")
  | profiles_list => (profiles_list, system_profile data)
  end.

(** [active_label] is [st.session_state.get("active_profile_label")]. *)
Definition get_active_profile (active_label : option str)
    (profiles_list : list profile) (default_key : str) : profile :=
  let by_label :=
    match active_label with
    | Some l =>
        if truthy l
        then find (fun p => bool_decide (p_label p = Some l)) profiles_list
        else None
    | None => None
    end in
  match by_label with
  | Some p => p
  | None =>
      match find (fun p => bool_decide (p_key p = Some default_key))
              profiles_list with
      | Some p => p
      | None =>
          {| p_key := Some default_key;
             p_label := Some (py "Default (balanced)");
             p_threshold := Some 0.40%float;
             p_description := None |}
      end
  end.

Definition get_profile_by_key (active_label : option str)
    (profiles_list : list profile) (key default_key : str) : profile :=
  match find (fun p => bool_decide (p_key p = Some key)) profiles_list with
  | Some p => p
  | None => get_active_profile active_label profiles_list default_key
  end.

Section Labels.

Context `{Runtime}.

(** [normalize_label] on one entry of a column.  [raw_label or ""] is the
    entry itself unless it is false; [.strip()] exists on strings only. *)
Definition normalize_label (raw_label : cell) : outcome str :=
  match raw_label with
  | CStr s =>
      let v := str_lower (strip s) in
      if str_eqb v (py "spam") then inl (py "Spam")
      else if str_eqb v (py "ham") || str_eqb v (py "real") then inl (py "Real")
      else inl s
  | _ =>
      if cell_truthy raw_label then inr NotAString
      else
        let v := str_lower (strip []) in
        if str_eqb v (py "spam") then inl (py "Spam")
        else if str_eqb v (py "ham") || str_eqb v (py "real")
        then inl (py "Real")
        else inl []
  end.

(** [series.apply(normalize_label)]: entry by entry, in order. *)
Fixpoint apply_normalize_label (col : list cell) : outcome (list str) :=
  match col with
  | [] => inl []
  | c :: rest =>
      match normalize_label c with
      | inr e => inr e
      | inl l =>
          match apply_normalize_label rest with
          | inr e => inr e
          | inl ls => inl (l :: ls)
          end
      end
  end.

(** [df.empty]: no column or no row. *)
Definition df_empty (df : DataFrame) : bool :=
  match data df with
  | [] => true
  | _ :: _ => (nrows df =? 0)%nat
  end.

Definition compute_dashboard_metrics (df : DataFrame) : outcome Metrics :=
  if df_empty df
  then inl {| total := 0; spam := 0; real := 0; spam_rate := 0 |}
  else
    match lookup_column (py "pred") (data df) with
    | None => inr NoSuchColumn
    | Some pred_column =>
        match apply_normalize_label pred_column with
        | inr e => inr e
        | inl labels =>
            let total := length labels in
            let spam := count_eq (py "Spam") labels in
            let real := count_eq (py "Real") labels in
            let spam_rate :=
              if (0 <? total)%nat then int_div spam total else 0%float in
            inl {| total := total; spam := spam; real := real;
                   spam_rate := spam_rate |}
        end
    end.

End Labels.

End Ui.

(* ===================================================================== *)
(** * src/preprocess.py: cleaning the training data *)
(* ===================================================================== *)

Module Preprocess.

(** What is left of [s] after the prefix [p], if [s] starts with it. *)
Fixpoint after_prefix (p s : str) : option str :=
  match p, s with
  | [], _ => Some s
  | a :: p', b :: s' => if (a =? b)%N then after_prefix p' s' else None
  | _ :: _, [] => None
  end.

(** [\S+] has something to match. *)
Definition nonspace_follows (rest : option str) : bool :=
  match rest with
  | Some (c :: _) => negb (isspace c)
  | _ => false
  end.

(** [URL_RE = https?://\S+|www\.\S+] matches at the head of [s]. *)
Definition url_starts (s : str) : bool :=
  nonspace_follows (after_prefix (py "http://") s)
  || nonspace_follows (after_prefix (py "https://") s)
  || nonspace_follows (after_prefix (py "www.") s).

(** [URL_RE.sub(" ", s)].  No character of the two prefixes is white
    space and [\S+] is greedy, so a match that starts at a position runs
    to the end of the run of non-space characters the position is in:
    the scan replaces that run by one space and goes on behind it.
    [in_match] tells that the scan is inside such a run. *)
Fixpoint URL_RE_sub_from (in_match : bool) (s : str) : str :=
  match s with
  | [] => []
  | c :: rest =>
      if in_match then
        if isspace c then c :: URL_RE_sub_from false rest
        else URL_RE_sub_from true rest
      else if url_starts s then 32%N :: URL_RE_sub_from true rest
      else c :: URL_RE_sub_from false rest
  end.

Definition URL_RE_sub (s : str) : str := URL_RE_sub_from false s.

(** [HTML_RE = <[^>]+>] matches at the head of [s]: a [<], a character
    other than [>], and a [>] somewhere behind. *)
Definition tag_starts (s : str) : bool :=
  match s with
  | 60%N :: c :: rest =>
      negb (c =? 62)%N && existsb (fun d => (d =? 62)%N) rest
  | _ => false
  end.

(** [HTML_RE.sub(" ", s)]: a match runs to the first [>] behind its
    [<]. *)
Fixpoint HTML_RE_sub_from (in_match : bool) (s : str) : str :=
  match s with
  | [] => []
  | c :: rest =>
      if in_match then
        if (c =? 62)%N then HTML_RE_sub_from false rest
        else HTML_RE_sub_from true rest
      else if tag_starts s then 32%N :: HTML_RE_sub_from true rest
      else c :: HTML_RE_sub_from false rest
  end.

Definition HTML_RE_sub (s : str) : str := HTML_RE_sub_from false s.

(** [[A-Za-z0-9]] *)
Definition is_token_char (c : N) : bool :=
  ((48 <=? c) && (c <=? 57) || (65 <=? c) && (c <=? 90)
   || (97 <=? c) && (c <=? 122))%N.

(** [TOK_RE.findall(s)] for [TOK_RE = [A-Za-z0-9]+]: the maximal runs.
    [cur] is the run being read, last character first. *)
Fixpoint TOK_RE_findall_from (cur : str) (s : str) : list str :=
  match s with
  | [] => match cur with [] => [] | _ :: _ => [rev cur] end
  | c :: rest =>
      if is_token_char c then TOK_RE_findall_from (c :: cur) rest
      else
        match cur with
        | [] => TOK_RE_findall_from [] rest
        | _ :: _ => rev cur :: TOK_RE_findall_from [] rest
        end
  end.

Definition TOK_RE_findall (s : str) : list str := TOK_RE_findall_from [] s.

(** [sep.join(parts)] *)
Fixpoint join (sep : str) (parts : list str) : str :=
  match parts with
  | [] => []
  | p :: rest =>
      match rest with
      | [] => p
      | _ :: _ => p ++ sep ++ join sep rest
      end
  end.

(** [df[mask]] on one column. *)
Fixpoint select_rows {A} (mask : list bool) (l : list A) : list A :=
  match mask, l with
  | b :: mask', x :: l' =>
      if b then x :: select_rows mask' l' else select_rows mask' l'
  | _, _ => []
  end.

(** [df[mask]] for a Boolean mask with the index of the frame. *)
Definition filter_rows (mask : list bool) (df : DataFrame) : DataFrame :=
  {| nrows := length (filter (fun b => b = true) mask);
     data := (fun c => (c.1, select_rows mask c.2)) <$> data df |}.

(** [~df.duplicated(subset=...)] on the rows seen through [subset]: a
    row is kept when no earlier row has its values. *)
Fixpoint first_occurrences (seen : list (str * str)) (keys : list (str * str))
  : list bool :=
  match keys with
  | [] => []
  | k :: rest =>
      negb (bool_decide (k ∈ seen)) :: first_occurrences (k :: seen) rest
  end.

(** [df[name] = series] for a series with the index of the frame. *)
Definition set_series (df : DataFrame) (name : str) (v : list cell)
  : DataFrame :=
  {| nrows := nrows df; data := assign name v (data df) |}.

Section Clean.

Context `{Runtime}.

Definition clean_text (s : cell) : str :=
  let s := py_str s in
  let s := str_lower s in
  let s := URL_RE_sub s in
  let s := HTML_RE_sub s in
  let tokens := TOK_RE_findall s in
  join [32%N] tokens.

(** [read] is what [pd.read_csv(path, sep=None, engine="python",
    encoding=encoding)] returned or raised. *)
Definition load_and_clean (read : result DataFrame) (text_col label_col : str)
  : result DataFrame :=
  df ← read;
  if negb (bool_decide (text_col ∈ columns df))
     || negb (bool_decide (label_col ∈ columns df))
  then Raise (Exception ValueError)
  else
    labels ← getcol df label_col;
    let df :=
      set_series df label_col
        ((fun c => CStr (str_lower (strip (py_str c))))
           <$> (labels : list cell)) in
    texts ← getcol df text_col;
    let df :=
      set_series df text_col
        ((fun c => CStr (clean_text (CStr (py_str c))))
           <$> (texts : list cell)) in
    texts ← getcol df text_col;
    let df :=
      filter_rows ((fun c => (0 <? length (py_str c))%nat)
                     <$> (texts : list cell)) df in
    texts ← getcol df text_col;
    labels ← getcol df label_col;
    let df :=
      filter_rows
        (first_occurrences []
           (zip (py_str <$> (texts : list cell))
                (py_str <$> (labels : list cell)))) df in
    texts ← getcol df text_col;
    labels ← getcol df label_col;
    Ok {| nrows := nrows df;
          data := [(text_col, texts); (label_col, labels)] |}.

End Clean.

End Preprocess.

(* ===================================================================== *)
(** * Further vocabulary *)
(* ===================================================================== *)

(** A string [strip] leaves alone: no white space at either end. *)
Definition starts_clean (s : str) : Prop :=
  match s with
  | [] => True
  | c :: _ => isspace c = false
  end.

(** The only [HTTPException]s [r] can be have a status in [allowed]. *)
Definition raises_only {A} (allowed : list Z) (r : result A) : Prop :=
  forall s d, r = Raise (HTTPException s d) -> s ∈ allowed.

(** [pd.read_excel] knows nothing of the web framework: what it raises is
    no [HTTPException]. *)
Definition excel_errors_are_plain `{Runtime} : Prop :=
  forall content, raises_only [] (read_excel content).

(** The extensions [file_predict] reads. *)
Definition supported (ext : str) : bool :=
  str_eqb ext (py ".csv") || str_eqb ext (py ".xlsx")
  || str_eqb ext (py ".xls") || str_eqb ext (py ".txt").

(** The names [_detect_text_col] looks for, in this order. *)
Definition known_names : list str :=
  [py "text"; py "message"; py "sms"; py "content"; py "body"].

(** The request names a column of the frame. *)
Definition preferred_column (df : DataFrame) (preferred : option str)
    (p : str) : Prop :=
  preferred = Some p /\ truthy p = true /\ p ∈ columns df.

(** [str.lower] as it is on ASCII text: the capitals [A] to [Z] become
    small letters and nothing else changes. *)
Definition lower_is_ascii `{Runtime} : Prop :=
  forall s : str,
    Forall (fun c => (c < 128)%N) s -> str_lower s = Demo.ascii_lower s.

(** [str.lower] leaves no capital [A] to [Z] behind. *)
Definition lower_has_no_capitals `{Runtime} : Prop :=
  forall s : str,
    Forall (fun c => ~ (65 <= c <= 90)%N) (str_lower s).

(** [a] to [z] and [0] to [9]. *)
Definition is_word_char (c : N) : bool :=
  ((48 <=? c) && (c <=? 57) || (97 <=? c) && (c <=? 122))%N.

(** Words of small letters and digits, one space between two of them. *)
Definition spaced_words (words : list str) (t : str) : Prop :=
  t = Preprocess.join [32%N] words /\
  Forall (fun w => w <> [] /\ Forall (fun c => is_word_char c = true) w) words.

(** The labels the interface meets: those the API writes and those the
    interface shows. *)
Definition known_labels : list str :=
  [py "spam"; py "ham"; py "Spam"; py "Real"].

(** A small training file: a message twice up to case and punctuation,
    and one that is nothing but a tag and marks. *)
Definition training_frame : DataFrame :=
  {| nrows := 4;
     data := [ (py "label", [CStr (py " Spam "); CStr (py "ham");
                             CStr (py "SPAM"); CStr (py "ham")]);
               (py "text", [CStr (py "WIN a prize!"); CStr (py "<b>!!!</b>");
                            CStr (py "win a PRIZE"); CStr (py "see you")]) ] |}.

(** The [header] flags of an output file of [n] chunks that was written
    with the column names once, at the top. *)
Definition header_flags (n : nat) : list bool :=
  match n with
  | O => []
  | S k => true :: replicate k false
  end.

(** A frame whose column names are written in capitals: [ID], [Body],
    [MESSAGE]. *)
Definition mixed_case_frame : DataFrame :=
  {| nrows := 2;
     data := [ (py "ID", [CInt 1; CInt 2]);
               (py "Body", [CStr (py "see you at 5"); CStr (py "call me")]);
               (py "MESSAGE", [CStr (py "You won a FREE vacation, click now!");
                               CStr (py "ok")]) ] |}.

(* ===================================================================== *)
(** * Threshold resolution *)
(* ===================================================================== *)

Section Thresholds.

Context `{Runtime} `{Settings}.

Lemma resolve_threshold_none : resolve_threshold None = SPAM_THRESHOLD.
Proof. reflexivity. Qed.

Lemma resolve_threshold_miss (p : str) :
  PROFILE_THRESHOLDS !! canonical_key p = None ->
  resolve_threshold (Some p) = SPAM_THRESHOLD.
Proof.
  unfold resolve_threshold, canonical_key. intros Hmiss.
  destruct (truthy p); [|reflexivity]. cbv zeta. now rewrite Hmiss.
Qed.

Lemma resolve_threshold_hit (p : str) (t : float) :
  truthy p = true ->
  PROFILE_THRESHOLDS !! canonical_key p = Some t ->
  resolve_threshold (Some p) = t.
Proof.
  unfold resolve_threshold, canonical_key. intros -> Hhit.
  cbv zeta. now rewrite Hhit.
Qed.

Lemma SPAM_THRESHOLD_override (e : env_number) (v : float) :
  SPAM_THRESHOLD_env = Some e -> as_float e = Some v -> SPAM_THRESHOLD = v.
Proof.
  unfold SPAM_THRESHOLD, compute_spam_threshold. now intros -> ->.
Qed.

(** C8.  A requested profile whose key, lowercased and passed through the
    aliases, is not in the catalog resolves to the process-wide default
    [SPAM_THRESHOLD]; so does a request without a profile.
    [resolve_threshold] is a total function: no input makes it raise. *)
Theorem resolve_threshold_unknown_profile :
  resolve_threshold None = SPAM_THRESHOLD /\
  forall p : str,
    PROFILE_THRESHOLDS !! canonical_key p = None ->
    resolve_threshold (Some p) = SPAM_THRESHOLD.
Proof.
  split; [apply resolve_threshold_none | apply resolve_threshold_miss].
Qed.

(** C1, as the code has it.  With a valid [SPAM_THRESHOLD] override [v],
    the process-wide default is [v], and a request gets [v] when it names
    no profile or a key that is not in the catalog; a request that names
    a profile of the catalog gets that profile's threshold. *)
Theorem resolve_threshold_under_override (e : env_number) (v : float) :
  SPAM_THRESHOLD_env = Some e ->
  as_float e = Some v ->
  SPAM_THRESHOLD = v /\
  resolve_threshold None = v /\
  (forall p : str,
     PROFILE_THRESHOLDS !! canonical_key p = None ->
     resolve_threshold (Some p) = v) /\
  (forall (p : str) (t : float),
     truthy p = true ->
     PROFILE_THRESHOLDS !! canonical_key p = Some t ->
     resolve_threshold (Some p) = t).
Proof.
  intros He Hv.
  pose proof (SPAM_THRESHOLD_override e v He Hv) as Hdefault.
  repeat split.
  - exact Hdefault.
  - now rewrite resolve_threshold_none.
  - intros p Hmiss. now rewrite resolve_threshold_miss.
  - intros p t Hp Hhit. now apply resolve_threshold_hit.
Qed.

End Thresholds.

(** The catalog entries used below. *)
Lemma bank_threshold : PROFILE_THRESHOLDS !! py "bank" = Some 0.65%float.
Proof. vm_compute. reflexivity. Qed.

Lemma platinum_unknown :
  PROFILE_THRESHOLDS !! @canonical_key Demo.runtime (py "Platinum") = None.
Proof. vm_compute. reflexivity. Qed.

(** C8 at the unknown profile [Platinum]. *)
Lemma resolve_threshold_unknown_profile_witness :
  @resolve_threshold Demo.runtime Demo.settings (Some (py "Platinum"))
  = @SPAM_THRESHOLD Demo.runtime Demo.settings.
Proof.
  apply (proj2 (@resolve_threshold_unknown_profile Demo.runtime Demo.settings)).
  vm_compute. reflexivity.
Defined.

(** C1 with [SPAM_THRESHOLD=0.3]: the default is 0.3, and so is the
    threshold of a request without a profile. *)
Lemma resolve_threshold_under_override_witness :
  @SPAM_THRESHOLD Demo.runtime Demo.settings_override = 0.3%float /\
  @resolve_threshold Demo.runtime Demo.settings_override None = 0.3%float.
Proof.
  pose proof (@resolve_threshold_under_override Demo.runtime
                Demo.settings_override
                {| raw := py "0.3"; as_float := Some 0.3%float |} 0.3%float
                eq_refl eq_refl) as (Hdefault & Hnone & _).
  exact (conj Hdefault Hnone).
Defined.

(** C1 as stated fails: with the valid override 0.3 in force, a request for
    the profile [bank] is resolved to 0.65, the threshold of [bank], and
    not to the override. *)
Lemma override_bypassed_by_bank_profile :
  @SPAM_THRESHOLD_env Demo.settings_override
  = Some {| raw := py "0.3"; as_float := Some 0.3%float |} /\
  @resolve_threshold Demo.runtime Demo.settings_override (Some (py "bank"))
  = 0.65%float /\
  @resolve_threshold Demo.runtime Demo.settings_override (Some (py "bank"))
  <> 0.3%float.
Proof.
  assert (Hbank : @resolve_threshold Demo.runtime Demo.settings_override
                    (Some (py "bank")) = 0.65%float)
    by (vm_compute; reflexivity).
  split; [reflexivity|]. split; [exact Hbank|].
  rewrite Hbank. intros Heq.
  apply (f_equal (fun x => (x <=? 0.5)%float)) in Heq.
  vm_compute in Heq. discriminate Heq.
Qed.

(* ===================================================================== *)
(** * The spam column *)
(* ===================================================================== *)

Section SpamColumn.

Context `{Runtime} {Features : Type}.

Lemma nonzero_from_head (x : str) (k : nat) (names : list str) :
  head (nonzero_from k ((fun n => str_eqb n x) <$> names))
  = (fun i => (k + i)%nat) <$> Spec.index_of x names.
Proof.
  revert k. induction names as [|n names IH]; intros k; [reflexivity|].
  cbn [fmap list_fmap nonzero_from Spec.index_of].
  destruct (str_eqb n x); cbn.
  - f_equal. lia.
  - rewrite IH. destruct (Spec.index_of x names); cbn; [|reflexivity].
    f_equal. lia.
Qed.

(** The three lines every path shares pick [Spec.spam_column]. *)
Lemma picked_index (clf : Classifier Features) (ncols : nat) :
  match nonzero (is_spam_class clf) with
  | i :: _ => i
  | [] => if (ncols =? 2)%nat then 1%nat else 0%nat
  end
  = Spec.spam_column (py_str <$> Sk.classes_ clf) ncols.
Proof.
  unfold Spec.spam_column, nonzero, is_spam_class.
  pose proof (nonzero_from_head (py "spam") 0 (py_str <$> Sk.classes_ clf))
    as Hhead.
  rewrite <- list_fmap_compose in Hhead.
  change ((fun n => str_eqb n (py "spam")) ∘ py_str)
    with (fun c => str_eqb (py_str c) (py "spam")) in Hhead.
  destruct (nonzero_from 0 _) as [|i rest];
    destruct (Spec.index_of _ _); cbn in Hhead; congruence.
Qed.

(** The four paths compute the same column. *)
Lemma spam_columns_chosen (clf : Classifier Features)
    (pp : Features -> ndarray2) (X : Features) :
  predict_spam_column clf pp X
  = column (pp X)
      (Spec.spam_column (py_str <$> Sk.classes_ clf) (shape1 (pp X))) /\
  batch_spam_column clf pp X
  = column (pp X)
      (Spec.spam_column (py_str <$> Sk.classes_ clf) (shape1 (pp X))) /\
  file_predict_spam_column clf pp X
  = column (pp X)
      (Spec.spam_column (py_str <$> Sk.classes_ clf) (shape1 (pp X))) /\
  BatchPredict.main_spam_column clf pp X
  = column (pp X)
      (Spec.spam_column (py_str <$> Sk.classes_ clf) (shape1 (pp X))).
Proof.
  unfold predict_spam_column, batch_spam_column, file_predict_spam_column,
    BatchPredict.main_spam_column, np_where.
  pose proof (picked_index clf (shape1 (pp X))) as Hpick.
  unfold is_spam_class in *.
  repeat split; cbv zeta; now rewrite Hpick.
Qed.

(** C4.  In the single-item, batch and file-upload endpoints and in the
    offline batch scorer, the column read as spam probability is the one
    the precedence names: the index of the first class named [spam];
    without such a class the second column of a two-column matrix; else
    the first column. *)
Theorem spam_column_precedence (clf : Classifier Features)
    (pp : Features -> ndarray2) (X : Features) :
  let chosen :=
    column (pp X)
      (Spec.spam_column (py_str <$> Sk.classes_ clf) (shape1 (pp X))) in
  predict_spam_column clf pp X = chosen /\
  batch_spam_column clf pp X = chosen /\
  file_predict_spam_column clf pp X = chosen /\
  BatchPredict.main_spam_column clf pp X = chosen.
Proof.
  cbv zeta.
  unfold predict_spam_column, batch_spam_column, file_predict_spam_column,
    BatchPredict.main_spam_column, np_where.
  pose proof (picked_index clf (shape1 (pp X))) as Hpick.
  unfold is_spam_class in *.
  repeat split; cbv zeta; now rewrite Hpick.
Qed.

Lemma index_of_lt (x : str) (l : list str) (i : nat) :
  Spec.index_of x l = Some i -> (i < length l)%nat.
Proof.
  revert i. induction l as [|y l IH]; intros i; cbn; [discriminate|].
  destruct (str_eqb y x).
  - intros [= <-]. lia.
  - destruct (Spec.index_of x l) as [j|]; cbn; [|discriminate].
    intros [= <-]. specialize (IH j eq_refl). lia.
Qed.

Lemma spam_column_lt (names : list str) :
  names <> [] ->
  (Spec.spam_column names (length names) < length names)%nat.
Proof.
  intros Hne. unfold Spec.spam_column.
  destruct (Spec.index_of _ _) as [i|] eqn:Hi.
  - now apply index_of_lt in Hi.
  - destruct names as [|a [|b [|c names]]]; cbn; try lia. congruence.
Qed.

End SpamColumn.

(** The precedence on four class lists. *)
Example spam_column_named :
  Spec.spam_column [py "ham"; py "promo"; py "spam"] 3 = 2%nat.
Proof. reflexivity. Qed.

Example spam_column_first_named :
  Spec.spam_column [py "spam"; py "ham"] 2 = 0%nat.
Proof. reflexivity. Qed.

Example spam_column_two_unnamed : Spec.spam_column [py "0"; py "1"] 2 = 1%nat.
Proof. reflexivity. Qed.

Example spam_column_three_unnamed :
  Spec.spam_column [py "0"; py "1"; py "2"] 3 = 0%nat.
Proof. reflexivity. Qed.

(* ===================================================================== *)
(** * Scoring one text and scoring a batch *)
(* ===================================================================== *)

Section Scoring.

Context `{Runtime} `{Settings} {Features : Type}.
Variable b : Bundle Features.
Hypothesis contract : row_per_text b.

Lemma column_in_range (a : ndarray2) (j : nat) :
  (j < shape1 a)%nat ->
  column a j = Ok ((fun r => default nan (r !! j)) <$> rows a).
Proof.
  intros Hj. unfold column.
  destruct (Nat.ltb_spec j (shape1 a)); [reflexivity | lia].
Qed.

(** Under the contract the chosen column exists, so reading it gives
    [spam_probs], one entry per text. *)
Lemma chosen_column (pp : Features -> ndarray2) (texts : list str) :
  Sk.predict_proba (Sk.model b) = Some pp ->
  column (pp (Sk.transform (Sk.vectorizer b) texts))
    (Spec.spam_column (py_str <$> Sk.classes_ (Sk.model b))
       (shape1 (pp (Sk.transform (Sk.vectorizer b) texts))))
  = Ok (spam_probs b pp texts).
Proof.
  intros Hpp. apply column_in_range.
  rewrite (proba_width b contract pp texts Hpp).
  rewrite <- (length_fmap py_str (Sk.classes_ (Sk.model b))).
  apply spam_column_lt. intros Hnil. apply fmap_nil_inv in Hnil.
  now apply (classes_nonempty b contract).
Qed.

Lemma length_spam_probs (pp : Features -> ndarray2) (texts : list str) :
  Sk.predict_proba (Sk.model b) = Some pp ->
  length (spam_probs b pp texts) = length texts.
Proof.
  intros Hpp. unfold spam_probs. cbv zeta. rewrite length_fmap.
  now apply (proba_length b contract).
Qed.

Lemma length_raw_preds (texts : list str) :
  length (raw_preds b texts) = length texts.
Proof. apply (predict_length b contract). Qed.

(** ** The loop of [batch] *)

Lemma batch_fill_from (thr : float) (ps : list float) :
  forall (done_preds : list str) (done_probs : list (option float))
         (todo_preds : list str) (todo_probs : list (option float)),
    length done_preds = length done_probs ->
    length todo_preds = length ps ->
    length todo_probs = length ps ->
    batch_fill thr (length done_preds) ps
      (done_preds ++ todo_preds) (done_probs ++ todo_probs)
    = Ok (done_preds ++ (Spec.label_at thr <$> ps),
          done_probs ++ (Some <$> ps)).
Proof.
  induction ps as [|p ps IH];
    intros done_preds done_probs todo_preds todo_probs Hdone Hpreds Hprobs.
  - destruct todo_preds; [|discriminate]. destruct todo_probs; [|discriminate].
    reflexivity.
  - destruct todo_preds as [|l todo_preds]; [discriminate|].
    destruct todo_probs as [|q todo_probs]; [discriminate|].
    cbn [batch_fill].
    rewrite !length_app. cbn [length].
    destruct (Nat.ltb_spec (length done_preds)
                (length done_probs + S (length todo_probs))); [|lia].
    cbn [negb].
    destruct (Nat.ltb_spec (length done_preds)
                (length done_preds + S (length todo_preds))); [|lia].
    cbn [negb].
    rewrite (insert_app_r_alt done_preds _ (length done_preds)) by lia.
    rewrite (insert_app_r_alt done_probs _ (length done_preds)) by lia.
    rewrite Hdone, !Nat.sub_diag. cbn [insert list_insert].
    specialize (IH (done_preds ++ [Spec.label_at thr p])
                   (done_probs ++ [Some p]) todo_preds todo_probs).
    rewrite !length_app in IH. cbn [length] in IH.
    rewrite <- !app_assoc in IH. cbn [app] in IH.
    replace (S (length done_probs)) with (length done_probs + 1)%nat by lia.
    rewrite Hdone in IH. cbn [fmap list_fmap].
    apply IH; cbn in *; lia.
Qed.

Lemma batch_fill_all (thr : float) (ps : list float) (n : nat) :
  length ps = n ->
  batch_fill thr 0 ps (replicate n (py "ham")) (replicate n None)
  = Ok (Spec.label_at thr <$> ps, Some <$> ps).
Proof.
  intros Hn.
  apply (batch_fill_from thr ps [] [] (replicate n (py "ham"))
           (replicate n None)); rewrite ?length_replicate; auto.
Qed.

Lemma zip_items_proba (thr : float) (texts : list str) (ps : list float) :
  zip_items texts (Spec.label_at thr <$> ps) (Some <$> ps)
  = zip_with (fun t p => item_of t (Spec.label_at thr p) (Some p)) texts ps.
Proof.
  revert ps. induction texts as [|t texts IH]; intros [|p ps];
    cbn; try reflexivity.
  now rewrite IH.
Qed.

Lemma zip_items_labels (texts : list str) (raws : list cell) (n : nat) :
  length texts = n ->
  zip_items texts (py_str <$> raws) (replicate n None)
  = zip_with (fun t raw => item_of t (py_str raw) None) texts raws.
Proof.
  revert raws n. induction texts as [|t texts IH]; intros [|raw raws] n Hn;
    cbn in *; subst n; cbn; try reflexivity.
  now rewrite IH.
Qed.

(** ** The two results of [batch_score] *)

Lemma batch_score_proba (pp : Features -> ndarray2) (texts : list str)
    (rid profile : option str) :
  Sk.predict_proba (Sk.model b) = Some pp ->
  batch_score b texts rid profile
  = Ok {| size := length texts;
          items := zip_with
                     (fun t p =>
                        item_of t (Spec.label_at (resolve_threshold profile) p)
                          (Some p))
                     (strip <$> texts) (spam_probs b pp (strip <$> texts));
          batch_request_id := rid |}.
Proof.
  intros Hpp. unfold batch_score. cbv zeta. rewrite Hpp.
  destruct (spam_columns_chosen (Sk.model b) pp
              (Sk.transform (Sk.vectorizer b) (strip <$> texts)))
    as (_ & -> & _).
  rewrite (chosen_column pp (strip <$> texts) Hpp).
  cbn [mbind result_bind bind].
  rewrite batch_fill_all
    by (rewrite (length_spam_probs pp _ Hpp); reflexivity).
  cbn [mbind result_bind bind]. rewrite zip_items_proba.
  rewrite length_zip_with_l_eq
    by (now rewrite (length_spam_probs pp _ Hpp)).
  now rewrite length_fmap.
Qed.

Lemma batch_score_labels (texts : list str) (rid profile : option str) :
  Sk.predict_proba (Sk.model b) = None ->
  batch_score b texts rid profile
  = Ok {| size := length texts;
          items := zip_with (fun t raw => item_of t (py_str raw) None)
                     (strip <$> texts) (raw_preds b (strip <$> texts));
          batch_request_id := rid |}.
Proof.
  intros Hpp. unfold batch_score. cbv zeta. rewrite Hpp.
  cbn [mbind result_bind bind].
  rewrite (zip_items_labels _ _ _ eq_refl).
  fold (raw_preds b (strip <$> texts)).
  rewrite length_zip_with_l_eq by (now rewrite length_raw_preds).
  now rewrite length_fmap.
Qed.

(** ** The two results of [predict] *)

Lemma predict_proba_result (pp : Features -> ndarray2) (t : str)
    (rid profile : option str) :
  Sk.predict_proba (Sk.model b) = Some pp ->
  truthy (strip t) = true ->
  exists p : float,
    spam_probs b pp [strip t] = [p] /\
    predict (Some b) t rid profile
    = Ok {| text := strip t;
            pred := Spec.label_at (resolve_threshold profile) p;
            proba_spam := Some p;
            request_id := rid |}.
Proof.
  intros Hpp Ht.
  pose proof (length_spam_probs pp [strip t] Hpp) as Hlen.
  destruct (spam_probs b pp [strip t]) as [|p [|? ?]] eqn:Hps;
    try discriminate Hlen.
  exists p. split; [reflexivity|].
  unfold predict. cbv zeta. rewrite Ht, Hpp. cbn [negb].
  destruct (spam_columns_chosen (Sk.model b) pp
              (Sk.transform (Sk.vectorizer b) [strip t])) as (-> & _).
  rewrite (chosen_column pp [strip t] Hpp), Hps. reflexivity.
Qed.

Lemma predict_label_result (t : str) (rid profile : option str) :
  Sk.predict_proba (Sk.model b) = None ->
  truthy (strip t) = true ->
  exists raw : cell,
    raw_preds b [strip t] = [raw] /\
    predict (Some b) t rid profile
    = Ok {| text := strip t; pred := py_str raw; proba_spam := None;
            request_id := rid |}.
Proof.
  intros Hpp Ht.
  pose proof (length_raw_preds [strip t]) as Hlen.
  destruct (raw_preds b [strip t]) as [|raw [|? ?]] eqn:Hraw;
    try discriminate Hlen.
  exists raw. split; [reflexivity|].
  unfold predict. cbv zeta. rewrite Ht, Hpp. cbn [negb].
  unfold raw_preds in Hraw. rewrite Hraw. reflexivity.
Qed.

End Scoring.

(* ===================================================================== *)
(** * Labels, guards and batch invariance *)
(* ===================================================================== *)

Section Endpoints.

Context `{Runtime} `{Settings} {Features : Type}.
Variable b : Bundle Features.

(** C3.  With [predict_proba], the probability [/predict] and [/batch]
    work with is the entry of the classifier's matrix in the spam column,
    for the stripped text ([spam_probs]); the text is labelled [spam] when
    this probability [p] satisfies [p >= threshold] for the resolved
    threshold and [ham] otherwise, and [p] is reported.  With [predict]
    only, the label is the predicted class as a string, the probability
    is absent ([None]), and the result is the same under every environment
    and every requested profile: the threshold plays no part. *)
Theorem label_rule (texts : list str) (t : str) (rid profile : option str) :
  row_per_text b ->
  truthy (strip t) = true ->
  (forall pp, Sk.predict_proba (Sk.model b) = Some pp ->
     (exists p : float,
        spam_probs b pp [strip t] = [p] /\
        predict (Some b) t rid profile
        = Ok {| text := strip t;
                pred := if (resolve_threshold profile <=? p)%float
                        then py "spam" else py "ham";
                proba_spam := Some p;
                request_id := rid |}) /\
     length (spam_probs b pp (strip <$> texts)) = length texts /\
     batch_score b texts rid profile
     = Ok {| size := length texts;
             items :=
               zip_with
                 (fun t p =>
                    {| item_text := t;
                       item_pred :=
                         if (resolve_threshold profile <=? p)%float
                         then py "spam" else py "ham";
                       item_proba_spam := Some p |})
                 (strip <$> texts)
                 (spam_probs b pp (strip <$> texts));
             batch_request_id := rid |}) /\
  (Sk.predict_proba (Sk.model b) = None ->
     (exists raw : cell,
        Sk.predict (Sk.model b) (Sk.transform (Sk.vectorizer b) [strip t])
        = [raw] /\
        forall (other : Settings) (profile' : option str),
          @predict _ other _ (Some b) t rid profile'
          = Ok {| text := strip t; pred := py_str raw; proba_spam := None;
                  request_id := rid |}) /\
     (forall (other : Settings) (profile' : option str),
        @batch_score _ other _ b texts rid profile'
        = Ok {| size := length texts;
                items :=
                  zip_with
                    (fun t raw =>
                       {| item_text := t; item_pred := py_str raw;
                          item_proba_spam := None |})
                    (strip <$> texts)
                    (Sk.predict (Sk.model b)
                       (Sk.transform (Sk.vectorizer b) (strip <$> texts)));
                batch_request_id := rid |})).
Proof.
  intros contract Ht. split.
  - intros pp Hpp. split; [|split].
    + destruct (predict_proba_result b contract pp t rid profile Hpp Ht)
        as (p & Hp & Hout).
      now exists p.
    + now rewrite (length_spam_probs b contract pp _ Hpp), length_fmap.
    + apply (batch_score_proba b contract pp texts rid profile Hpp).
  - intros Hpp. split.
    + destruct (predict_label_result b contract t rid profile Hpp Ht)
        as (raw & Hraw & _).
      exists raw. split; [exact Hraw|]. intros other profile'.
      destruct (@predict_label_result _ other _ b contract t rid profile'
                  Hpp Ht) as (raw' & Hraw' & Hres).
      unfold raw_preds in *. congruence.
    + intros other profile'.
      apply (@batch_score_labels _ other _ b contract texts rid profile' Hpp).
Qed.

(** [batch] once the model is loaded, case by case. *)
Lemma batch_empty (rid profile : option str) :
  batch (Some b) [] rid profile = Raise (HTTPException 422 NoTextsProvided).
Proof. reflexivity. Qed.

Lemma batch_too_large (texts : list str) (rid profile : option str) :
  texts <> [] ->
  Z.of_nat (length texts) > MAX_BATCH ->
  batch (Some b) texts rid profile
  = Raise (HTTPException 413 (BatchTooLarge MAX_BATCH)).
Proof.
  intros Hne Hlen. unfold batch. destruct texts as [|t texts]; [done|].
  destruct (Z.gtb_spec (Z.of_nat (length (t :: texts))) MAX_BATCH);
    [reflexivity | lia].
Qed.

Lemma batch_within (texts : list str) (rid profile : option str) :
  texts <> [] ->
  Z.of_nat (length texts) <= MAX_BATCH ->
  batch (Some b) texts rid profile = batch_score b texts rid profile.
Proof.
  intros Hne Hlen. unfold batch. destruct texts as [|t texts]; [done|].
  destruct (Z.gtb_spec (Z.of_nat (length (t :: texts))) MAX_BATCH);
    [lia | reflexivity].
Qed.

Lemma batch_score_returns (texts : list str) (rid profile : option str) :
  row_per_text b ->
  exists out : BatchPredictOut,
    batch_score b texts rid profile = Ok out /\
    size out = length texts /\
    length (items out) = length texts.
Proof.
  intros contract.
  destruct (Sk.predict_proba (Sk.model b)) as [pp|] eqn:Hpp.
  - eexists. split; [apply (batch_score_proba b contract pp _ _ _ Hpp)|].
    cbn. split; [reflexivity|].
    rewrite length_zip_with_l_eq, length_fmap; [reflexivity|].
    now rewrite (length_spam_probs b contract pp _ Hpp).
  - eexists. split; [apply (batch_score_labels b contract _ _ _ Hpp)|].
    cbn. split; [reflexivity|].
    rewrite length_zip_with_l_eq, length_fmap; [reflexivity|].
    now rewrite (length_raw_preds b contract).
Qed.

(** For a limit that is not negative the empty list is never above it,
    and 413 is the answer exactly for the lists above the limit. *)
Lemma batch_too_large_iff (texts : list str) (rid profile : option str) :
  row_per_text b ->
  0 <= MAX_BATCH ->
  status_of (batch (Some b) texts rid profile) = 413
  <-> Z.of_nat (length texts) > MAX_BATCH.
Proof.
  intros contract Hmax.
  destruct (decide (texts = [])) as [->|Hne].
  { rewrite batch_empty. cbn. split; [discriminate | lia]. }
  destruct (Z_gt_le_dec (Z.of_nat (length texts)) MAX_BATCH) as [Hgt|Hle].
  { rewrite batch_too_large by assumption. cbn. split; [now intros _ | done]. }
  rewrite batch_within by assumption.
  destruct (batch_score_returns texts rid profile contract) as (out & -> & _).
  cbn. split; [discriminate | lia].
Qed.

(** C5.  With the model loaded and a batch limit that is not negative,
    [/batch] answers 422 exactly for the empty list, 413 exactly for the
    lists longer than [MAX_BATCH], and scores every list of 1 to
    [MAX_BATCH] texts, one item per text. *)
Theorem batch_guards (texts : list str) (rid profile : option str) :
  row_per_text b ->
  0 <= MAX_BATCH ->
  (status_of (batch (Some b) texts rid profile) = 422 <-> texts = []) /\
  (status_of (batch (Some b) texts rid profile) = 413
   <-> Z.of_nat (length texts) > MAX_BATCH) /\
  (1 <= Z.of_nat (length texts) <= MAX_BATCH ->
   exists out : BatchPredictOut,
     batch (Some b) texts rid profile = Ok out /\
     size out = length texts /\
     length (items out) = length texts).
Proof.
  intros contract Hmax.
  split; [|split; [now apply batch_too_large_iff|]].
  - destruct (decide (texts = [])) as [->|Hne].
    { now rewrite batch_empty. }
    destruct (Z_gt_le_dec (Z.of_nat (length texts)) MAX_BATCH) as [Hgt|Hle].
    { rewrite batch_too_large by assumption. cbn. split; [discriminate|done]. }
    rewrite batch_within by assumption.
    destruct (batch_score_returns texts rid profile contract) as (out & -> & _).
    cbn. split; [discriminate|done].
  - intros [Hone Hle].
    assert (Hne : texts <> []) by (intros ->; cbn in Hone; lia).
    rewrite batch_within by assumption.
    now apply batch_score_returns.
Qed.

End Endpoints.

Section BatchInvariance.

Context `{Runtime} `{Settings} {Features : Type}.
Variable b : Bundle Features.
Hypothesis sample_wise : per_sample b.

Let contract : row_per_text b := per_sample_rows b sample_wise.

Lemma spam_probs_concat (pp : Features -> ndarray2) (texts : list str) :
  Sk.predict_proba (Sk.model b) = Some pp ->
  spam_probs b pp texts = flat_map (fun t => spam_probs b pp [t]) texts.
Proof.
  intros Hpp. unfold spam_probs. cbv zeta.
  rewrite (proba_concat b sample_wise pp texts Hpp).
  rewrite (proba_width b contract pp texts Hpp).
  induction texts as [|t texts IH]; [reflexivity|].
  cbn [flat_map]. rewrite fmap_app, IH.
  now rewrite (proba_width b contract pp [t] Hpp).
Qed.

Lemma singles_proba (pp : Features -> ndarray2) (texts : list str)
    (rid profile : option str) :
  Sk.predict_proba (Sk.model b) = Some pp ->
  Forall (fun t => truthy (strip t) = true) texts ->
  Forall2 (same_score b rid profile) texts
    (zip_with
       (fun t p =>
          item_of t (Spec.label_at (resolve_threshold profile) p) (Some p))
       (strip <$> texts)
       (flat_map (fun t => spam_probs b pp [t]) (strip <$> texts))).
Proof.
  intros Hpp. induction 1 as [|t texts Ht _ IH]; [constructor|].
  cbn [fmap list_fmap flat_map].
  destruct (predict_proba_result b contract pp t rid profile Hpp Ht)
    as (p & -> & Hp).
  cbn [app zip_with]. constructor; [|exact IH].
  eexists. split; [exact Hp|]. cbn. auto.
Qed.

Lemma singles_labels (texts : list str) (rid profile : option str) :
  Sk.predict_proba (Sk.model b) = None ->
  Forall (fun t => truthy (strip t) = true) texts ->
  Forall2 (same_score b rid profile) texts
    (zip_with (fun t raw => item_of t (py_str raw) None)
       (strip <$> texts)
       (flat_map (fun t => raw_preds b [t]) (strip <$> texts))).
Proof.
  intros Hpp. induction 1 as [|t texts Ht _ IH]; [constructor|].
  cbn [fmap list_fmap flat_map].
  destruct (predict_label_result b contract t rid profile Hpp Ht)
    as (raw & -> & Hraw).
  cbn [app zip_with]. constructor; [|exact IH].
  eexists. split; [exact Hraw|]. cbn. auto.
Qed.

(** C7.  For texts that are not empty once stripped, scoring the list in
    one [/batch] call gives, item by item and in order, the text, label
    and spam probability that [/predict] gives for each text alone under
    the same profile.  The second part is the same statement through the
    guards of [/batch], which let lists of 1 to [MAX_BATCH] texts pass. *)
Theorem batch_invariance (texts : list str) (rid profile : option str) :
  Forall (fun t => truthy (strip t) = true) texts ->
  exists out : BatchPredictOut,
    batch_score b texts rid profile = Ok out /\
    size out = length texts /\
    Forall2 (same_score b rid profile) texts (items out) /\
    (texts <> [] -> Z.of_nat (length texts) <= MAX_BATCH ->
     batch (Some b) texts rid profile = Ok out).
Proof.
  intros Htexts.
  destruct (Sk.predict_proba (Sk.model b)) as [pp|] eqn:Hpp.
  - eexists. split; [apply (batch_score_proba b contract pp _ _ _ Hpp)|].
    cbn [size items]. split; [reflexivity|]. split.
    + rewrite (spam_probs_concat pp _ Hpp).
      now apply singles_proba.
    + intros Hne Hle. rewrite batch_within by assumption.
      apply (batch_score_proba b contract pp _ _ _ Hpp).
  - eexists. split; [apply (batch_score_labels b contract _ _ _ Hpp)|].
    cbn [size items]. split; [reflexivity|]. split.
    + unfold raw_preds at 1.
      rewrite (predict_concat b sample_wise (strip <$> texts)).
      now apply singles_labels.
    + intros Hne Hle. rewrite batch_within by assumption.
      apply (batch_score_labels b contract _ _ _ Hpp).
Qed.

End BatchInvariance.

(* ===================================================================== *)
(** * The toy pair honours the contract *)
(* ===================================================================== *)

Lemma toy_rows_concat (texts : list str) :
  rows (Demo.toy_proba texts)
  = flat_map (fun t => rows (Demo.toy_proba [t])) texts.
Proof.
  induction texts as [|t texts IH]; [reflexivity|].
  cbn in *. now rewrite <- IH.
Qed.

Lemma toy_predict_concat (texts : list str) :
  Demo.toy_predict texts = flat_map (fun t => Demo.toy_predict [t]) texts.
Proof.
  induction texts as [|t texts IH]; [reflexivity|].
  cbn in *. now rewrite <- IH.
Qed.

Lemma demo_rows : row_per_text Demo.bundle.
Proof.
  split.
  - discriminate.
  - intros pp texts [= <-]. reflexivity.
  - intros pp texts [= <-]. cbn. apply length_fmap.
  - intros texts. cbn. apply length_fmap.
Qed.

Lemma demo_per_sample : per_sample Demo.bundle.
Proof.
  split.
  - exact demo_rows.
  - intros pp texts [= <-]. apply toy_rows_concat.
  - intros texts. apply toy_predict_concat.
Qed.

Lemma demo_labels_rows : row_per_text Demo.bundle_labels.
Proof.
  split.
  - discriminate.
  - intros pp texts [=].
  - intros pp texts [=].
  - intros texts. cbn. apply length_fmap.
Qed.

(** C3 on the toy pair: the result of [/predict] for [long_message] has
    the probability of the classifier's matrix and the label the rule
    gives. *)
Lemma label_rule_witness :
  exists p : float,
    @spam_probs Demo.runtime _ Demo.bundle Demo.toy_proba [strip long_message]
    = [p] /\
    @predict Demo.runtime Demo.settings _ (Some Demo.bundle) long_message
      None (Some (py "bank"))
    = Ok {| text := strip long_message;
            pred := if (@resolve_threshold Demo.runtime Demo.settings
                          (Some (py "bank")) <=? p)%float
                    then py "spam" else py "ham";
            proba_spam := Some p;
            request_id := None |}.
Proof.
  destruct (@label_rule Demo.runtime Demo.settings _ Demo.bundle
              [short_message] long_message None (Some (py "bank"))
              demo_rows eq_refl) as [Hproba _].
  destruct (Hproba Demo.toy_proba eq_refl) as [Hone _].
  exact Hone.
Defined.

(** The scenario of the catalog: a message scoring 0.6 is [ham] under
    [bank] (0.65) and [spam] under [aggressive] (0.45). *)
Example bank_versus_aggressive :
  pred <$> @predict Demo.runtime Demo.settings _ (Some Demo.bundle)
             long_message None (Some (py "bank")) = Ok (py "ham") /\
  pred <$> @predict Demo.runtime Demo.settings _ (Some Demo.bundle)
             long_message None (Some (py "aggressive")) = Ok (py "spam").
Proof. split; vm_compute; reflexivity. Qed.

(** C5 at the boundary: with [MAX_BATCH=3] a batch of three texts is
    scored. *)
Lemma batch_guards_witness :
  exists out : BatchPredictOut,
    @batch Demo.runtime Demo.settings _ (Some Demo.bundle)
      [short_message; long_message; short_message] None None = Ok out /\
    size out = 3%nat /\
    length (items out) = 3%nat.
Proof.
  destruct (@batch_guards Demo.runtime Demo.settings _ Demo.bundle
              [short_message; long_message; short_message] None None
              demo_rows) as (_ & _ & Hscore).
  - cbn. lia.
  - apply Hscore. cbn. lia.
Defined.

(** ... and a batch of four is refused. *)
Example batch_of_four_refused :
  @batch Demo.runtime Demo.settings _ (Some Demo.bundle)
    [short_message; long_message; short_message; long_message] None None
  = Raise (HTTPException 413 (BatchTooLarge 3)).
Proof. reflexivity. Qed.

(** C7 on the toy pair. *)
Lemma batch_invariance_witness :
  exists out : BatchPredictOut,
    @batch_score Demo.runtime Demo.settings _ Demo.bundle
      [short_message; long_message] None None = Ok out /\
    size out = 2%nat /\
    Forall2 (@same_score Demo.runtime Demo.settings _ Demo.bundle None None)
      [short_message; long_message] (items out).
Proof.
  destruct (@batch_invariance Demo.runtime Demo.settings _ Demo.bundle
              demo_per_sample [short_message; long_message] None None)
    as (out & Hout & Hsize & Hsame & _).
  - repeat constructor.
  - exists out. auto.
Defined.

(* ===================================================================== *)
(** * Reading and scoring an upload *)
(* ===================================================================== *)

Lemma lookup_column_elem (name : str) (d : list (str * list cell))
    (v : list cell) :
  lookup_column name d = Some v -> (name, v) ∈ d.
Proof.
  induction d as [|[n w] d IH]; cbn; [discriminate|].
  unfold str_eqb. case_bool_decide as Hn.
  - intros [= ->]. subst n. apply list_elem_of_here.
  - intros Hv. apply list_elem_of_further. now apply IH.
Qed.

Lemma lookup_column_None (name : str) (d : list (str * list cell)) :
  lookup_column name d = None -> name ∉ d.*1.
Proof.
  induction d as [|[n w] d IH]; cbn.
  - intros _. apply not_elem_of_nil.
  - unfold str_eqb. case_bool_decide as Hn; [discriminate|].
    intros Hd. apply not_elem_of_cons. split; [congruence | now apply IH].
Qed.

Lemma lookup_assign_same (name : str) (v : list cell)
    (d : list (str * list cell)) :
  lookup_column name (assign name v d) = Some v.
Proof.
  induction d as [|[n w] d IH]; cbn.
  - unfold str_eqb. now rewrite bool_decide_eq_true_2.
  - destruct (str_eqb n name) eqn:Hn; cbn; now rewrite Hn.
Qed.

Lemma lookup_assign_other (name other : str) (v : list cell)
    (d : list (str * list cell)) :
  other <> name ->
  lookup_column other (assign name v d) = lookup_column other d.
Proof.
  intros Hne. induction d as [|[n w] d IH]; cbn.
  - unfold str_eqb. now rewrite bool_decide_eq_false_2 by congruence.
  - destruct (str_eqb n name) eqn:Hn; cbn.
    + unfold str_eqb in *. apply bool_decide_eq_true_1 in Hn. subst n.
      now rewrite bool_decide_eq_false_2 by congruence.
    + now rewrite IH.
Qed.

Lemma assign_nonempty (name : str) (v : list cell)
    (d : list (str * list cell)) :
  assign name v d <> [].
Proof. destruct d as [|[n w] d]; cbn; [|destruct (str_eqb n name)]; discriminate. Qed.

Lemma setcol_nonempty (df : DataFrame) (name : str) (v : list cell) :
  data df <> [] ->
  length v = nrows df ->
  setcol df name v
  = Ok {| nrows := nrows df; data := assign name v (data df) |}.
Proof.
  intros Hne Hlen. unfold setcol. rewrite Hlen, Nat.eqb_refl.
  destruct (data df); [done|reflexivity].
Qed.


Lemma py_str_lines `{Runtime} (lines : list str) :
  py_str <$> (CStr <$> lines) = lines.
Proof.
  rewrite <- list_fmap_compose. induction lines as [|ln lines IH]; cbn; congruence.
Qed.

Lemma lookup_column_is_Some (name : str) (d : list (str * list cell)) :
  name ∈ d.*1 -> exists v, lookup_column name d = Some v.
Proof.
  intros Hin. destruct (lookup_column name d) as [v|] eqn:Hv; [now exists v|].
  now apply lookup_column_None in Hv.
Qed.

Lemma setcol_Ok (df df' : DataFrame) (name : str) (v : list cell) :
  data df <> [] ->
  setcol df name v = Ok df' ->
  df' = {| nrows := nrows df; data := assign name v (data df) |} /\
  length v = nrows df.
Proof.
  unfold setcol. intros Hne.
  destruct (data df) as [|c d] eqn:Hdata; [done|].
  destruct (length v =? nrows df)%nat eqn:Hlen; [|discriminate].
  apply Nat.eqb_eq in Hlen. now intros [= <-].
Qed.

Lemma column_Ok (a : ndarray2) (j : nat) (v : list float) :
  column a j = Ok v -> v = (fun r => default nan (r !! j)) <$> rows a.
Proof. unfold column. destruct (_ <? _)%nat; congruence. Qed.

Lemma latin_1_header (stem : str) :
  latin_1_encodable
    (content_disposition (py "prediction_" ++ stem ++ py ".csv"))
  = latin_1_encodable stem.
Proof.
  unfold content_disposition, latin_1_encodable. rewrite !forallb_app.
  change (forallb (fun c => (c <=? 255)%N) (py "attachment; filename="))
    with true.
  change (forallb (fun c => (c <=? 255)%N) (py "prediction_")) with true.
  change (forallb (fun c => (c <=? 255)%N) (py ".csv")) with true.
  change (forallb (fun c => (c <=? 255)%N) [34%N]) with true.
  cbn [andb]. now rewrite !andb_true_r.
Qed.

Lemma transform_call_accepted {Features : Type} (vec : Vectorizer Features)
    (texts : list str) :
  texts <> [] \/ Sk.rejects_empty vec = None ->
  Sk.transform_call vec texts = Ok (Sk.transform vec texts).
Proof.
  destruct texts as [|t texts]; [|reflexivity].
  intros [Hne | Hnone]; [done|]. cbn. now rewrite Hnone.
Qed.

Lemma transform_call_Ok {Features : Type} (vec : Vectorizer Features)
    (texts : list str) (X : Features) :
  Sk.transform_call vec texts = Ok X -> X = Sk.transform vec texts.
Proof.
  unfold Sk.transform_call.
  destruct texts; [destruct (Sk.rejects_empty vec)|]; congruence.
Qed.

Section Upload.

Context `{Runtime} `{Settings} {Features : Type}.
Variable b : Bundle Features.

(** For arrays of [float64] the upload labels as the other endpoints
    do. *)
Lemma upload_scores_float64 (thr : float) (texts : list str) :
  proba_is_float64 b ->
  upload_scores b thr texts = score_all b thr texts.
Proof.
  intros Hfloat. unfold upload_scores, score_all.
  destruct (Sk.predict_proba (Sk.model b)) as [pp|] eqn:Hpp; [|reflexivity].
  cbv zeta. now rewrite (Hfloat pp texts Hpp).
Qed.

Lemma upload_column (pp : Features -> ndarray2) (texts : list str)
    (ps : list float) :
  file_predict_spam_column (Sk.model b) pp
    (Sk.transform (Sk.vectorizer b) texts) = Ok ps ->
  ps = spam_probs b pp texts.
Proof.
  destruct (spam_columns_chosen (Sk.model b) pp
              (Sk.transform (Sk.vectorizer b) texts)) as (_ & _ & -> & _).
  apply column_Ok.
Qed.

(** What [file_predict] returns when it returns: the frame it has read,
    with the labels and probabilities of its text column. *)
Lemma file_predict_table (name : str) (content : bytes) (profile : option str)
    (df : DataFrame) (resp : FileResponse) :
  truthy name = true ->
  read_upload (str_lower (path_suffix name)) content = Ok df ->
  file_predict (Some b) (Some name) content profile = Ok resp ->
  exists cells : list cell,
    lookup_column (py "text") (data df) = Some cells /\
    let scores :=
      upload_scores b (resolve_threshold profile) (py_str <$> cells) in
    resp = {| filename := py "prediction_" ++ path_stem name ++ py ".csv";
              body := scored_frame df scores.1 scores.2 |} /\
    length scores.1 = nrows df /\
    (forall ps, scores.2 = Some ps -> length ps = nrows df).
Proof.
  intros Hname Hread. unfold file_predict. cbn [from_option id].
  rewrite Hname. cbn [negb]. rewrite Hread. cbn [mbind result_bind bind].
  case_bool_decide as Hcol; cbn [negb]; [|discriminate].
  destruct (lookup_column_is_Some _ _ Hcol) as [cells Hcells].
  assert (Hne : data df <> []).
  { intros Hnil. unfold columns in Hcol. rewrite Hnil in Hcol.
    now apply not_elem_of_nil in Hcol. }
  unfold getcol. rewrite Hcells. cbn [mbind result_bind bind].
  destruct (Sk.transform_call _ _) as [X|e] eqn:HX; [|discriminate].
  apply transform_call_Ok in HX. subst X. cbn [mbind result_bind bind].
  intros Hres. exists cells. split; [reflexivity|]. cbv zeta.
  unfold upload_scores.
  destruct (Sk.predict_proba (Sk.model b)) as [pp|] eqn:Hpp.
  - destruct (file_predict_spam_column _ _ _) as [ps|e] eqn:Hps;
      [|discriminate].
    apply upload_column in Hps. subst ps.
    cbn [mbind result_bind bind fst snd] in *.
    destruct (setcol df (py "pred") _) as [df1|e] eqn:H1; [|discriminate].
    apply setcol_Ok in H1 as [-> Hlen1]; [|exact Hne].
    cbn [mbind result_bind bind] in Hres.
    destruct (setcol _ (py "proba_spam") _) as [df2|e] eqn:H2; [|discriminate].
    apply setcol_Ok in H2 as [-> Hlen2]; [|apply assign_nonempty].
    cbn [mbind result_bind bind nrows data] in *.
    destruct (latin_1_encodable _); [|discriminate].
    injection Hres as <-. rewrite !length_fmap in *.
    split; [reflexivity|]. split; [exact Hlen2|]. now intros ps [= <-].
  - cbn [mbind result_bind bind fst snd] in *.
    destruct (setcol df (py "pred") _) as [df1|e] eqn:H1; [|discriminate].
    apply setcol_Ok in H1 as [-> Hlen1]; [|exact Hne].
    cbn [mbind result_bind bind] in Hres.
    destruct (latin_1_encodable _); [|discriminate].
    injection Hres as <-. rewrite !length_fmap in *.
    split; [reflexivity|]. split; [exact Hlen1|]. discriminate.
Qed.


Hypothesis contract : row_per_text b.

Lemma length_upload_scores (thr : float) (texts : list str) :
  length (upload_scores b thr texts).1 = length texts /\
  forall ps,
    (upload_scores b thr texts).2 = Some ps -> length ps = length texts.
Proof.
  unfold upload_scores.
  destruct (Sk.predict_proba (Sk.model b)) as [pp|] eqn:Hpp; cbn.
  - rewrite length_fmap, (length_spam_probs b contract pp _ Hpp).
    split; [reflexivity|]. intros ps [= <-].
    apply (length_spam_probs b contract pp _ Hpp).
  - rewrite length_fmap, (length_raw_preds b contract). split; [reflexivity|].
    discriminate.
Qed.

(** Scoring a frame that has been read: the body of [file_predict] after
    the [try] block, for a text column the vectorizer accepts and a file
    name that can be sent in a header. *)
Lemma file_predict_frame (name : str) (content : bytes) (profile : option str)
    (df : DataFrame) (cells : list cell) :
  truthy name = true ->
  latin_1_encodable (path_stem name) = true ->
  read_upload (str_lower (path_suffix name)) content = Ok df ->
  lookup_column (py "text") (data df) = Some cells ->
  frame_ok df ->
  cells <> [] \/ Sk.rejects_empty (Sk.vectorizer b) = None ->
  file_predict (Some b) (Some name) content profile
  = Ok {| filename := py "prediction_" ++ path_stem name ++ py ".csv";
          body :=
            scored_frame df
              (upload_scores b (resolve_threshold profile)
                 (py_str <$> cells)).1
              (upload_scores b (resolve_threshold profile)
                 (py_str <$> cells)).2 |}.
Proof.
  intros Hname Hlatin Hread Hcells Hok Haccepted.
  pose proof (lookup_column_elem _ _ _ Hcells) as Hin.
  assert (Hlen : length cells = nrows df).
  { unfold frame_ok in Hok. rewrite Forall_forall in Hok.
    apply (Hok (py "text", cells)). exact Hin. }
  assert (Hne : data df <> []).
  { intros Hnil. rewrite Hnil in Hin. now apply not_elem_of_nil in Hin. }
  assert (Hcol : py "text" ∈ columns df).
  { unfold columns. apply list_elem_of_fmap. now exists (py "text", cells). }
  destruct (length_upload_scores (resolve_threshold profile)
              (py_str <$> cells)) as [Hlabels Hprobs].
  rewrite length_fmap, Hlen in Hlabels.
  unfold file_predict. cbn [from_option id]. rewrite Hname. cbn [negb].
  rewrite Hread. cbn [mbind result_bind bind].
  rewrite bool_decide_eq_true_2 by exact Hcol. cbn [negb].
  unfold getcol. rewrite Hcells. cbn [mbind result_bind bind].
  rewrite transform_call_accepted.
  2:{ destruct Haccepted as [Hcs | Hnone]; [left|now right].
      intros Hnil. apply fmap_nil_inv in Hnil. contradiction. }
  cbn [mbind result_bind bind]. rewrite latin_1_header, Hlatin.
  unfold upload_scores in *.
  destruct (Sk.predict_proba (Sk.model b)) as [pp|] eqn:Hpp.
  - destruct (spam_columns_chosen (Sk.model b) pp
                (Sk.transform (Sk.vectorizer b) (py_str <$> cells)))
      as (_ & _ & -> & _).
    rewrite (chosen_column b contract pp _ Hpp).
    cbn [mbind result_bind bind fst snd] in *.
    rewrite ?length_fmap in Hlabels.
    rewrite setcol_nonempty by (rewrite ?length_fmap; assumption).
    cbn [mbind result_bind bind].
    rewrite setcol_nonempty; cbn [nrows data].
    + reflexivity.
    + apply assign_nonempty.
    + specialize (Hprobs _ eq_refl). rewrite !length_fmap in *. congruence.
  - cbn [mbind result_bind bind fst snd] in *.
    rewrite ?length_fmap in Hlabels.
    rewrite setcol_nonempty by (rewrite ?length_fmap; assumption).
    reflexivity.
Qed.

End Upload.

Lemma pred_is_not_proba_spam : py "pred" <> py "proba_spam".
Proof. intros Heq. vm_compute in Heq. discriminate Heq. Qed.

Lemma frame_ok_text_frame (lines : list str) : frame_ok (text_frame lines).
Proof.
  unfold frame_ok, text_frame. cbn. constructor; [|constructor].
  cbn. apply length_fmap.
Qed.

Lemma scored_text_frame (lines labels : list str) (probs : option (list float)) :
  scored_frame (text_frame lines) labels probs
  = {| nrows := length lines;
       data := (py "text", CStr <$> lines)
               :: (py "pred", CStr <$> labels)
               :: match probs with
                  | Some ps => [(py "proba_spam", CFloat <$> ps)]
                  | None => []
                  end |}.
Proof. destruct probs; reflexivity. Qed.

Section UploadRows.

Context `{Runtime} `{Settings} {Features : Type}.
Variable b : Bundle Features.
Hypothesis contract : row_per_text b.

Lemma read_upload_txt (content : bytes) :
  read_upload (py ".txt") content
  = match decode utf_8 content with
    | Some s => Ok (text_frame (nonblank_lines (splitlines s)))
    | None => Raise (HTTPException 400 (CouldNotReadFile UnicodeDecodeError))
    end.
Proof.
  unfold read_upload, read_by_extension, bytes_decode.
  change (str_eqb (py ".txt") (py ".csv")) with false.
  change (str_eqb (py ".txt") (py ".xlsx")) with false.
  change (str_eqb (py ".txt") (py ".xls")) with false.
  change (str_eqb (py ".txt") (py ".txt")) with true.
  cbn [orb]. now destruct (decode utf_8 content).
Qed.

Lemma read_upload_csv (content : bytes) :
  read_upload (py ".csv") content
  = match decode utf_8 content with
    | Some s =>
        match read_csv s with
        | Ok df => Ok df
        | Raise _ => Ok (text_frame (nonblank_lines (splitlines s)))
        end
    | None => Raise (HTTPException 400 (CouldNotReadFile UnicodeDecodeError))
    end.
Proof.
  unfold read_upload, read_by_extension, bytes_decode.
  change (str_eqb (py ".csv") (py ".csv")) with true. cbv iota.
  destruct (decode utf_8 content) as [s|]; cbn; [|reflexivity].
  now destruct (read_csv s).
Qed.

Lemma read_upload_lines (ext : str) (content : bytes) (s : str) :
  reads_as_lines ext content s ->
  read_upload ext content = Ok (text_frame (nonblank_lines (splitlines s))).
Proof.
  unfold reads_as_lines, bytes_decode.
  intros [Hs [-> | [-> [e He]]]].
  - rewrite read_upload_txt. destruct (decode utf_8 content); congruence.
  - rewrite read_upload_csv.
    destruct (decode utf_8 content) as [s'|]; [|discriminate].
    injection Hs as ->. now rewrite He.
Qed.

Lemma read_upload_table (ext : str) (content : bytes) (df : DataFrame) :
  reads_as_table ext content df ->
  read_upload ext content = Ok df.
Proof.
  unfold reads_as_table, bytes_decode.
  intros [[-> (s & Hs & Hdf)] | [Hext Hdf]].
  - rewrite read_upload_csv.
    destruct (decode utf_8 content) as [s'|]; [|discriminate].
    injection Hs as ->. now rewrite Hdf.
  - unfold read_upload, read_by_extension.
    destruct Hext as [-> | ->].
    + change (str_eqb (py ".xlsx") (py ".csv")) with false.
      change (str_eqb (py ".xlsx") (py ".xlsx")) with true.
      cbn [orb]. now rewrite Hdf.
    + change (str_eqb (py ".xls") (py ".csv")) with false.
      change (str_eqb (py ".xls") (py ".xlsx")) with false.
      change (str_eqb (py ".xls") (py ".xls")) with true.
      cbn [orb]. now rewrite Hdf.
Qed.

(** The whole of [file_predict] on a line-oriented upload. *)
Lemma file_predict_lines (name : str) (content : bytes) (profile : option str)
    (s : str) :
  truthy name = true ->
  latin_1_encodable (path_stem name) = true ->
  reads_as_lines (str_lower (path_suffix name)) content s ->
  nonblank_lines (splitlines s) <> []
  \/ Sk.rejects_empty (Sk.vectorizer b) = None ->
  file_predict (Some b) (Some name) content profile
  = Ok {| filename := py "prediction_" ++ path_stem name ++ py ".csv";
          body :=
            scored_frame (text_frame (nonblank_lines (splitlines s)))
              (upload_scores b (resolve_threshold profile)
                 (nonblank_lines (splitlines s))).1
              (upload_scores b (resolve_threshold profile)
                 (nonblank_lines (splitlines s))).2 |}.
Proof.
  intros Hname Hlatin Hlines Haccepted.
  rewrite (file_predict_frame b contract name content profile
             (text_frame (nonblank_lines (splitlines s)))
             (CStr <$> nonblank_lines (splitlines s)) Hname Hlatin
             (read_upload_lines _ _ _ Hlines) eq_refl
             (frame_ok_text_frame _)).
  - now rewrite py_str_lines.
  - destruct Haccepted as [Hne | Hnone]; [left|now right].
    intros Hnil. apply fmap_nil_inv in Hnil. contradiction.
Qed.

Lemma file_predict_line_table (name : str) (content : bytes)
    (profile : option str) (s : str) :
  truthy name = true ->
  latin_1_encodable (path_stem name) = true ->
  reads_as_lines (str_lower (path_suffix name)) content s ->
  let lines := nonblank_lines (splitlines s) in
  let scores := upload_scores b (resolve_threshold profile) lines in
  lines <> [] \/ Sk.rejects_empty (Sk.vectorizer b) = None ->
  file_predict (Some b) (Some name) content profile
  = Ok {| filename := py "prediction_" ++ path_stem name ++ py ".csv";
          body :=
            {| nrows := length lines;
               data := (py "text", CStr <$> lines)
                       :: (py "pred", CStr <$> scores.1)
                       :: match scores.2 with
                          | Some ps => [(py "proba_spam", CFloat <$> ps)]
                          | None => []
                          end |} |} /\
  length scores.1 = length lines /\
  (forall ps, scores.2 = Some ps -> length ps = length lines).
Proof.
  intros Hname Hlatin Hlines lines scores Haccepted. split.
  - rewrite (file_predict_lines name content profile s Hname Hlatin Hlines
               Haccepted).
    now rewrite scored_text_frame.
  - apply (length_upload_scores b contract).
Qed.

(** C6.  A line-oriented upload is answered with no other table than the
    one with one row per non-blank line, in the order of the lines: the
    column [text] is the stripped non-blank lines, [pred] their labels,
    [proba_spam] their probabilities when the classifier has them.  An
    upload that [pd.read_csv] or [pd.read_excel] parses to a frame with a
    column [text] is answered with no other table than that frame with
    its rows scored: the same number of rows, every parsed column other
    than [pred] and [proba_spam] as it was, and in [pred] the label of
    each row's text.  The table is returned when the file name fits the
    response header (Latin-1) and the vectorizer takes the texts: the
    list is not empty or the vectorizer takes an empty list, and, for a
    parsed frame, no entry of the text column is missing. *)
Theorem upload_rows (name : str) (content : bytes) (profile : option str) :
  truthy name = true ->
  let answer := file_predict (Some b) (Some name) content profile in
  let named (table : DataFrame) : FileResponse :=
    {| filename := py "prediction_" ++ path_stem name ++ py ".csv";
       body := table |} in
  (forall s : str,
     reads_as_lines (str_lower (path_suffix name)) content s ->
     let lines := nonblank_lines (splitlines s) in
     let scores := upload_scores b (resolve_threshold profile) lines in
     let table :=
       {| nrows := length lines;
          data := (py "text", CStr <$> lines)
                  :: (py "pred", CStr <$> scores.1)
                  :: match scores.2 with
                     | Some ps => [(py "proba_spam", CFloat <$> ps)]
                     | None => []
                     end |} in
     (forall resp, answer = Ok resp -> resp = named table) /\
     (latin_1_encodable (path_stem name) = true ->
      lines <> [] \/ Sk.rejects_empty (Sk.vectorizer b) = None ->
      answer = Ok (named table)) /\
     length scores.1 = length lines /\
     (forall ps, scores.2 = Some ps -> length ps = length lines)) /\
  (forall (df : DataFrame) (cells : list cell),
     reads_as_table (str_lower (path_suffix name)) content df ->
     lookup_column (py "text") (data df) = Some cells ->
     let scores :=
       upload_scores b (resolve_threshold profile) (py_str <$> cells) in
     let table := scored_frame df scores.1 scores.2 in
     (forall resp, answer = Ok resp -> resp = named table) /\
     (latin_1_encodable (path_stem name) = true ->
      frame_ok df ->
      Forall (fun c => isna c = false) cells ->
      cells <> [] \/ Sk.rejects_empty (Sk.vectorizer b) = None ->
      answer = Ok (named table)) /\
     nrows table = nrows df /\
     (forall c : str,
        c <> py "pred" -> c <> py "proba_spam" ->
        lookup_column c (data table) = lookup_column c (data df)) /\
     length scores.1 = length cells /\
     lookup_column (py "pred") (data table) = Some (CStr <$> scores.1)).
Proof.
  intros Hname answer named. split.
  - intros s Hlines lines scores table.
    destruct (length_upload_scores b contract (resolve_threshold profile)
                lines) as [Hlabels Hprobs].
    split; [|split; [|split; assumption]].
    + intros resp Hresp.
      destruct (file_predict_table b name content profile _ resp Hname
                  (read_upload_lines _ _ _ Hlines) Hresp)
        as (cells & Hcells & -> & _).
      injection Hcells as <-. rewrite py_str_lines.
      unfold named. f_equal. apply scored_text_frame.
    + intros Hlatin Haccepted.
      now apply file_predict_line_table.
  - intros df cells Htable Hcells scores table.
    pose proof (read_upload_table _ _ _ Htable) as Hread.
    split; [|split].
    + intros resp Hresp.
      destruct (file_predict_table b name content profile _ resp Hname
                  Hread Hresp) as (cells' & Hcells' & -> & _).
      rewrite Hcells in Hcells'. now injection Hcells' as <-.
    + intros Hlatin Hok _ Haccepted.
      now apply (file_predict_frame b contract name content profile df cells).
    + subst table. cbn [scored_frame nrows data].
      split; [reflexivity|]. split; [|split].
      * intros c Hpred Hproba.
        destruct scores.2; now rewrite ?lookup_assign_other by assumption.
      * destruct (length_upload_scores b contract (resolve_threshold profile)
                    (py_str <$> cells)) as [Hlen _].
        fold scores in Hlen. now rewrite Hlen, length_fmap.
      * destruct scores.2.
        -- rewrite lookup_assign_other by exact pred_is_not_proba_spam.
           apply lookup_assign_same.
        -- apply lookup_assign_same.
Qed.

End UploadRows.

(* ===================================================================== *)
(** * Character encodings: the upload and the offline scorer *)
(* ===================================================================== *)

Section Encodings.

Context `{Runtime} `{Settings} {Features : Type}.

Lemma _iter_csv_from_first (path : str) (chunksize : Z)
    (before : list encoding) (enc : encoding) (after : list encoding)
    (reader : TextFileReader) (last_err : option exn) :
  Forall (open_fails path chunksize) before ->
  read_csv_chunks path enc chunksize = Ok reader ->
  BatchPredict._iter_csv_from path chunksize (before ++ enc :: after) last_err
  = Ok reader.
Proof.
  intros Hbefore Henc. revert last_err.
  induction Hbefore as [|e before [err He] _ IH]; intros last_err; cbn.
  - now rewrite Henc.
  - rewrite He. apply IH.
Qed.

Lemma _iter_csv_from_raises (path : str) (chunksize : Z)
    (encodings : list encoding) (last_err : option exn) (err : exn) :
  BatchPredict._iter_csv_from path chunksize encodings last_err = Raise err ->
  Forall (open_fails path chunksize) encodings /\
  match last encodings with
  | Some enc => read_csv_chunks path enc chunksize = Raise err
  | None => err = default (Exception RuntimeError) last_err
  end.
Proof.
  revert last_err. induction encodings as [|enc encodings IH];
    intros last_err; cbn.
  - intros [= <-]. split; [constructor | reflexivity].
  - destruct (read_csv_chunks path enc chunksize) as [r|e] eqn:He;
      [discriminate|].
    intros Hrest. destruct (IH _ Hrest) as [Hall Hlast].
    split; [constructor; [now exists e | exact Hall]|].
    destruct encodings as [|enc' encodings]; [cbn in *; congruence|].
    change (last (enc :: enc' :: encodings)) with (last (enc' :: encodings)).
    destruct (last (enc' :: encodings)) eqn:Hl; [exact Hlast|].
    now apply last_None in Hl.
Qed.

Lemma _iter_csv_from_all_fail (path : str) (chunksize : Z)
    (encodings : list encoding) (last_err : option exn) :
  Forall (open_fails path chunksize) encodings ->
  exists err,
    BatchPredict._iter_csv_from path chunksize encodings last_err = Raise err.
Proof.
  intros Hall. revert last_err.
  induction Hall as [|enc encodings [e He] _ IH]; intros last_err; cbn.
  - eauto.
  - rewrite He. apply IH.
Qed.

(** An upload that is not valid UTF-8 is answered 400, for [.txt] and for
    [.csv] alike. *)
Lemma file_predict_not_utf8 (b : Bundle Features) (name : str)
    (content : bytes) (profile : option str) :
  truthy name = true ->
  str_lower (path_suffix name) = py ".txt"
  \/ str_lower (path_suffix name) = py ".csv" ->
  decode utf_8 content = None ->
  file_predict (Some b) (Some name) content profile
  = Raise (HTTPException 400 (CouldNotReadFile UnicodeDecodeError)).
Proof.
  intros Hname Hext Hdecode. unfold file_predict. cbn [from_option id].
  rewrite Hname. cbn [negb].
  destruct Hext as [-> | ->].
  - now rewrite read_upload_txt, Hdecode.
  - now rewrite read_upload_csv, Hdecode.
Qed.

(** C2, as the code has it.  The upload endpoint decodes [.txt] and [.csv]
    content as UTF-8 and nothing else: content that is not valid UTF-8 is
    answered 400, whatever other encoding would decode it.  The ordered
    list of encodings belongs to the offline batch scorer: [_iter_csv]
    returns the reader of the first encoding of [FALLBACK_ENCODINGS] with
    which the file opens, and raises, with the error of the last encoding,
    only when the file opens with none of them. *)
Theorem decoding_by_path (b : Bundle Features) (name : str) (content : bytes)
    (profile : option str) (path : str) (chunksize : Z) :
  truthy name = true ->
  str_lower (path_suffix name) = py ".txt"
  \/ str_lower (path_suffix name) = py ".csv" ->
  (decode utf_8 content = None ->
   file_predict (Some b) (Some name) content profile
   = Raise (HTTPException 400 (CouldNotReadFile UnicodeDecodeError))) /\
  (forall before enc after reader,
     BatchPredict.FALLBACK_ENCODINGS = before ++ enc :: after ->
     Forall (open_fails path chunksize) before ->
     read_csv_chunks path enc chunksize = Ok reader ->
     BatchPredict._iter_csv path chunksize = Ok reader) /\
  (forall err,
     BatchPredict._iter_csv path chunksize = Raise err
     <-> Forall (open_fails path chunksize) BatchPredict.FALLBACK_ENCODINGS
         /\ read_csv_chunks path ISO_8859_1 chunksize = Raise err).
Proof.
  intros Hname Hext. split; [|split].
  - now apply file_predict_not_utf8.
  - intros before enc after reader Hsplit Hbefore Henc.
    unfold BatchPredict._iter_csv. rewrite Hsplit.
    now apply _iter_csv_from_first.
  - intros err. unfold BatchPredict._iter_csv. split.
    + intros Hraise. apply _iter_csv_from_raises in Hraise. exact Hraise.
    + intros [Hall Hlast].
      destruct (_iter_csv_from_all_fail path chunksize
                  BatchPredict.FALLBACK_ENCODINGS None Hall) as [err' Herr'].
      pose proof (_iter_csv_from_raises _ _ _ _ _ Herr') as [_ Hlast'].
      cbn in Hlast'. congruence.
Qed.

End Encodings.

(** C2 on the examples: [note.txt] is refused, and [inbox.csv], which is
    not UTF-8 either, is opened by the offline scorer as Windows-1252, the
    third encoding of the list. *)
Lemma decoding_by_path_witness :
  @file_predict Demo.runtime Demo.settings _ (Some Demo.bundle)
    (Some (py "note.txt")) Demo.note_txt None
  = Raise (HTTPException 400 (CouldNotReadFile UnicodeDecodeError)) /\
  @BatchPredict._iter_csv Demo.runtime (py "inbox.csv") 5000
  = Demo.open_file (py "inbox.csv") cp1252 5000.
Proof.
  destruct (@decoding_by_path Demo.runtime Demo.settings _ Demo.bundle
              (py "note.txt") Demo.note_txt None (py "inbox.csv") 5000
              eq_refl (or_introl eq_refl)) as (Hupload & Hfirst & _).
  split; [apply Hupload; reflexivity|].
  apply (Hfirst [utf_8; utf_8_sig] cp1252 [latin_1; ISO_8859_1]).
  - reflexivity.
  - repeat constructor; eexists; vm_compute; reflexivity.
  - vm_compute. reflexivity.
Defined.

(** C2 as stated fails on the upload endpoint: [note.txt] is not UTF-8,
    the first encoding of the list, and decodes as Latin-1, a later one;
    the upload is answered 400 all the same. *)
Lemma latin1_upload_refused :
  decode utf_8 Demo.note_txt = None /\
  decode latin_1 Demo.note_txt = Some [99; 97; 102; 233]%N /\
  In latin_1 BatchPredict.FALLBACK_ENCODINGS /\
  @file_predict Demo.runtime Demo.settings _ (Some Demo.bundle)
    (Some (py "note.txt")) Demo.note_txt None
  = Raise (HTTPException 400 (CouldNotReadFile UnicodeDecodeError)) /\
  status_of (@file_predict Demo.runtime Demo.settings _ (Some Demo.bundle)
               (Some (py "note.txt")) Demo.note_txt None) = 400.
Proof.
  split; [reflexivity|]. split; [reflexivity|].
  split; [cbn; tauto|]. split; vm_compute; reflexivity.
Qed.

(* ===================================================================== *)
(** * The uploads of the examples *)
(* ===================================================================== *)

Lemma sms_txt_lines :
  exists s : str,
    @reads_as_lines Demo.runtime
      (@str_lower Demo.runtime (path_suffix (py "sms.txt"))) Demo.sms_txt s /\
    length (nonblank_lines (splitlines s)) = 4%nat.
Proof.
  eexists. split; [split; [vm_compute; reflexivity | left; reflexivity]|].
  vm_compute. reflexivity.
Qed.

(** C6 on [sms.txt]: six lines, four of them not blank, four rows. *)
Lemma upload_rows_witness :
  exists resp : FileResponse,
    @file_predict Demo.runtime Demo.settings _ (Some Demo.bundle)
      (Some (py "sms.txt")) Demo.sms_txt None = Ok resp /\
    nrows (body resp) = 4%nat /\
    columns (body resp) = [py "text"; py "pred"; py "proba_spam"].
Proof.
  destruct sms_txt_lines as (s & Hlines & Hfour).
  destruct (@upload_rows Demo.runtime Demo.settings _ Demo.bundle demo_rows
              (py "sms.txt") Demo.sms_txt None eq_refl) as [Hline _].
  destruct (Hline s Hlines) as (_ & Hresp & _ & _).
  eexists. split; [apply Hresp|].
  - reflexivity.
  - left. intros Hnil. rewrite Hnil in Hfour. discriminate Hfour.
  - split; [exact Hfour | reflexivity].
Defined.

(** The table of [sms.txt], computed: the lines in order, stripped, each
    with its label under the default threshold 0.55 and its probability. *)
Example sms_txt_table :
  body <$> @file_predict Demo.runtime Demo.settings _ (Some Demo.bundle)
             (Some (py "sms.txt")) Demo.sms_txt None
  = Ok {| nrows := 4;
          data :=
            [ (py "text",
               [ CStr (py "Free entry in 2 a wkly comp to win FA Cup final tickets!");
                 CStr (py "Your OTP code is 394021.");
                 CStr (py "Congratulations! You won a FREE vacation, click now!");
                 CStr (py "Hey, are we still meeting at 5 pm today?") ]);
              (py "pred",
               [ CStr (py "spam"); CStr (py "spam"); CStr (py "spam");
                 CStr (py "spam") ]);
              (py "proba_spam",
               [ CFloat 0.6; CFloat 0.6; CFloat 0.6; CFloat 0.6 ]) ] |}.
Proof. vm_compute. reflexivity. Qed.

(* ===================================================================== *)
(** * The offline batch scorer: the columns of every written chunk *)
(* ===================================================================== *)



Section CliColumns.

Context `{Runtime} {Features : Type}.


Lemma getcol_Ok (df : DataFrame) (name : str) (v : list cell) :
  lookup_column name (data df) = Some v -> getcol df name = Ok v.
Proof. unfold getcol. now intros ->. Qed.




End CliColumns.



(** Without [predict_proba] and without [decision_function] the column is
    there all the same, filled with NaN, and [pred] is what [predict]
    says. *)
Example inbox_run_without_scores :
  (@BatchPredict.main Demo.runtime _
     (Dict (Some Demo.toy_vectorizer) (Some (Sk.model Demo.bundle_labels)))
     (py "inbox.csv") None 5000 None).1
  = [(true,
      {| nrows := 1;
         data := [ (py "text", [CStr [99; 97; 102; 233]%N]);
                   (py "pred", [CStr (py "ham")]);
                   (py "proba_spam", [CFloat nan]) ] |})].
Proof. vm_compute. reflexivity. Qed.

(* ===================================================================== *)
(** * More on profiles and thresholds *)
(* ===================================================================== *)

(** The two dictionaries, entry by entry. *)
Lemma aliases_listed (alias canonical : str) :
  PROFILE_ALIASES !! alias = Some canonical ->
  (alias, canonical)
    ∈ [ (py "financial", py "bank"); (py "telecom", py "telco");
        (py "email_marketing", py "marketing");
        (py "newsletter", py "marketing") ].
Proof.
  unfold PROFILE_ALIASES. intros Hlook.
  apply elem_of_list_to_map_2 in Hlook. exact Hlook.
Qed.

Lemma thresholds_listed (key : str) (t : float) :
  PROFILE_THRESHOLDS !! key = Some t ->
  (key, t) ∈ (fun kv => (kv.1, threshold kv.2)) <$> PROFILE_DEFINITIONS.
Proof.
  unfold PROFILE_THRESHOLDS. intros Hlook.
  now apply elem_of_list_to_map_2 in Hlook.
Qed.

Ltac list_cases H :=
  repeat (apply elem_of_cons in H as [H | H]);
  [.. | now apply not_elem_of_nil in H].

Section MoreThresholds.

Context `{Runtime} `{Settings}.

(** X1.  An alias resolves as the profile it stands for: for every entry
    [alias -> canonical] of [PROFILE_ALIASES] (written in lower case, so
    that [lower()] leaves both names alone), the canonical name is a key of
    the catalog, and a request for the alias gets the same threshold as a
    request for the canonical name, the one of the catalog. *)
Theorem alias_resolves_as_canonical (alias canonical : str) :
  PROFILE_ALIASES !! alias = Some canonical ->
  str_lower alias = alias ->
  str_lower canonical = canonical ->
  exists t : float,
    PROFILE_THRESHOLDS !! canonical = Some t /\
    resolve_threshold (Some alias) = t /\
    resolve_threshold (Some canonical) = t.
Proof.
  intros Halias Hla Hlc. apply aliases_listed in Halias.
  list_cases Halias; injection Halias as -> ->;
    eexists; (split; [vm_compute; reflexivity|]);
    split; apply resolve_threshold_hit; try reflexivity;
    unfold canonical_key; rewrite ?Hla, ?Hlc; vm_compute; reflexivity.
Qed.

Lemma catalog_bounds (key : str) (t : float) :
  PROFILE_THRESHOLDS !! key = Some t ->
  (0.45 <=? t)%float = true /\ (t <=? 0.65)%float = true.
Proof.
  intros Hkey. apply thresholds_listed in Hkey.
  cbn [fmap list_fmap PROFILE_DEFINITIONS fst snd threshold] in Hkey.
  list_cases Hkey; injection Hkey as -> ->; split; reflexivity.
Qed.

Lemma default_in_catalog :
  no_valid_override ->
  exists key, PROFILE_THRESHOLDS !! key = Some SPAM_THRESHOLD.
Proof.
  unfold no_valid_override, SPAM_THRESHOLD, compute_spam_threshold.
  intros Hnone.
  assert (Hfrom : exists key,
    PROFILE_THRESHOLDS !! key
    = Some (dict_get PROFILE_THRESHOLDS
              (dict_get PROFILE_ALIASES SYSTEM_PROFILE SYSTEM_PROFILE)
              (dict_get PROFILE_THRESHOLDS (py "default") 0%float))).
  { unfold dict_get at 1.
    destruct (PROFILE_THRESHOLDS
                !! dict_get PROFILE_ALIASES SYSTEM_PROFILE SYSTEM_PROFILE)
      as [t|] eqn:Ht; [eauto|].
    exists (py "default"). vm_compute. reflexivity. }
  destruct SPAM_THRESHOLD_env as [e|]; [|exact Hfrom].
  now rewrite (Hnone e eq_refl).
Qed.

(** X2.  Without a usable override (the variable unset, or set to a text
    [float()] rejects) every threshold the service applies comes from the
    catalog, whatever the system profile and whatever profile a request
    names: it is the threshold of some key of the catalog, and so lies
    between 0.45 and 0.65. *)
Theorem thresholds_stay_in_catalog (profile : option str) :
  no_valid_override ->
  (exists key, PROFILE_THRESHOLDS !! key = Some (resolve_threshold profile)) /\
  (0.45 <=? resolve_threshold profile)%float = true /\
  (resolve_threshold profile <=? 0.65)%float = true.
Proof.
  intros Hnone.
  assert (Hin : exists key,
            PROFILE_THRESHOLDS !! key = Some (resolve_threshold profile)).
  { destruct (default_in_catalog Hnone) as [k Hk].
    unfold resolve_threshold. destruct profile as [p|]; [|eauto].
    destruct (truthy p); [|eauto]. cbv zeta.
    destruct (PROFILE_THRESHOLDS
                !! dict_get PROFILE_ALIASES (str_lower p) (str_lower p))
      as [t|] eqn:Ht; eauto. }
  split; [exact Hin|]. destruct Hin as [k Hk]. now apply (catalog_bounds k).
Qed.

(** X3.  What [/profiles] advertises is what the service applies: the
    default threshold it reports is the one of a request without profile;
    the listed keys are distinct; and a request that names a listed key
    (lower case) is resolved to the threshold listed for that key. *)
Theorem listed_thresholds_are_applied :
  listed_default_threshold list_profiles = resolve_threshold None /\
  NoDup (entry_key <$> listed_profiles list_profiles) /\
  forall e : profile_entry,
    e ∈ listed_profiles list_profiles ->
    str_lower (entry_key e) = entry_key e ->
    resolve_threshold (Some (entry_key e)) = entry_threshold e.
Proof.
  split; [reflexivity|]. split.
  - apply (bool_decide_unpack _). vm_compute. exact I.
  - intros e He Hlower. unfold list_profiles in He.
    cbn [listed_profiles fmap list_fmap PROFILE_DEFINITIONS fst snd label
         threshold description] in He.
    list_cases He; subst e; cbn [entry_key entry_threshold] in *;
      apply resolve_threshold_hit; try reflexivity;
      unfold canonical_key; rewrite Hlower; vm_compute; reflexivity.
Qed.

End MoreThresholds.

Lemma ascii_lower_fixes_lower_case (s : str) :
  forallb (fun c => negb ((65 <=? c) && (c <=? 90))%N) s = true ->
  Demo.ascii_lower s = s.
Proof.
  unfold Demo.ascii_lower. induction s as [|c s IH]; cbn; [reflexivity|].
  intros Hs. apply andb_prop in Hs as [Hc Hs]. rewrite (IH Hs).
  destruct ((65 <=? c) && (c <=? 90))%N; [discriminate | reflexivity].
Qed.

(** X1 for [financial -> bank]. *)
Lemma alias_resolves_as_canonical_witness :
  @resolve_threshold Demo.runtime Demo.settings (Some (py "financial"))
  = @resolve_threshold Demo.runtime Demo.settings (Some (py "bank")).
Proof.
  destruct (@alias_resolves_as_canonical Demo.runtime Demo.settings
              (py "financial") (py "bank") eq_refl eq_refl eq_refl)
    as (t & _ & Ha & Hc).
  now rewrite Ha, Hc.
Defined.

(** X2 with [SPAM_THRESHOLD=high] and the system profile [Newsletter]:
    the default is the 0.45 of [marketing]. *)
Lemma thresholds_stay_in_catalog_witness :
  (0.45 <=? @resolve_threshold Demo.runtime settings_invalid_override None)%float
  = true /\
  @resolve_threshold Demo.runtime settings_invalid_override None = 0.45%float.
Proof.
  assert (Hnone : @no_valid_override settings_invalid_override)
    by (intros e [= <-]; reflexivity).
  destruct (@thresholds_stay_in_catalog Demo.runtime settings_invalid_override
              None Hnone) as (_ & Hlow & _).
  split; [exact Hlow | vm_compute; reflexivity].
Defined.

(** X3 for the entry [conservative]. *)
Lemma listed_thresholds_are_applied_witness :
  @resolve_threshold Demo.runtime Demo.settings (Some (py "conservative"))
  = 0.60%float.
Proof.
  destruct (@listed_thresholds_are_applied Demo.runtime Demo.settings)
    as (_ & _ & Happlied).
  apply (Happlied {| entry_key := py "conservative";
                     entry_label := py "Conservative (protect REAL messages)";
                     entry_threshold := 0.60;
                     entry_description :=
                       py "More conservative: only flag spam when probability is high." |}).
  - unfold list_profiles. cbn [listed_profiles]. vm_compute.
    do 6 apply list_elem_of_further. apply list_elem_of_here.
  - reflexivity.
Defined.

(* ===================================================================== *)
(** * Stripped lines *)
(* ===================================================================== *)

Lemma lstrip_starts_clean (s : str) : starts_clean (lstrip s).
Proof.
  induction s as [|c s IH]; cbn; [exact I|].
  destruct (isspace c) eqn:Hc; [exact IH | exact Hc].
Qed.

Lemma lstrip_clean (s : str) : starts_clean s -> lstrip s = s.
Proof. destruct s as [|c s]; cbn; [reflexivity|]. now intros ->. Qed.

Lemma lstrip_suffix (s : str) : exists spaces, s = spaces ++ lstrip s.
Proof.
  induction s as [|c s [spaces IH]]; [now exists []|]. cbn.
  destruct (isspace c); [|now exists []].
  exists (c :: spaces). cbn. now rewrite <- IH.
Qed.

Lemma rstrip_keeps_start (s : str) : starts_clean s -> starts_clean (rstrip s).
Proof.
  unfold rstrip. intros Hs.
  destruct (lstrip_suffix (rev s)) as [spaces Hsplit].
  apply (f_equal (@rev N)) in Hsplit.
  rewrite rev_involutive, rev_app_distr in Hsplit.
  destruct (rev (lstrip (rev s))) as [|c r]; [exact I|].
  rewrite Hsplit in Hs. exact Hs.
Qed.

Lemma rstrip_ends_clean (s : str) : starts_clean (rev (rstrip s)).
Proof. unfold rstrip. rewrite rev_involutive. apply lstrip_starts_clean. Qed.

Lemma strip_fixed (s : str) :
  starts_clean s -> starts_clean (rev s) -> strip s = s.
Proof.
  intros Hstart Hend. unfold strip, rstrip.
  rewrite (lstrip_clean s Hstart), (lstrip_clean (rev s) Hend).
  apply rev_involutive.
Qed.

Lemma strip_idempotent (s : str) : strip (strip s) = strip s.
Proof.
  apply strip_fixed.
  - apply rstrip_keeps_start, lstrip_starts_clean.
  - apply rstrip_ends_clean.
Qed.

Lemma nonblank_lines_elem (lines : list str) (ln : str) :
  ln ∈ nonblank_lines lines ->
  exists raw, raw ∈ lines /\ ln = strip raw /\ truthy ln = true.
Proof.
  unfold nonblank_lines. intros Hln.
  apply list_elem_of_fmap in Hln as (raw & -> & Hraw).
  apply list_elem_of_filter in Hraw as [Htruthy Hraw].
  now exists raw.
Qed.

(** X4.  The messages taken from a line-oriented upload are never blank
    and carry no white space at either end: every line kept by
    [nonblank_lines] is non-empty and is left alone by a further [strip],
    and no more lines are kept than were read. *)
Theorem nonblank_lines_stripped (lines : list str) :
  Forall (fun ln => truthy ln = true /\ strip ln = ln) (nonblank_lines lines) /\
  (length (nonblank_lines lines) <= length lines)%nat.
Proof.
  split.
  - apply Forall_forall. intros ln Hln.
    apply nonblank_lines_elem in Hln as (raw & _ & -> & Htruthy).
    split; [exact Htruthy | apply strip_idempotent].
  - unfold nonblank_lines. rewrite length_fmap. apply length_filter.
Qed.

Lemma strip_nonblank_lines (lines : list str) :
  strip <$> nonblank_lines lines = nonblank_lines lines.
Proof.
  unfold nonblank_lines. rewrite <- list_fmap_compose.
  apply list_fmap_ext. intros i raw _. cbn. apply strip_idempotent.
Qed.

(** The six lines of [sms.txt] give four messages, stripped. *)
Example sms_txt_messages :
  nonblank_lines
    (splitlines (default [] (decode utf_8 Demo.sms_txt)))
  = [ py "Free entry in 2 a wkly comp to win FA Cup final tickets!";
      py "Your OTP code is 394021.";
      py "Congratulations! You won a FREE vacation, click now!";
      py "Hey, are we still meeting at 5 pm today?" ].
Proof. vm_compute. reflexivity. Qed.

(* ===================================================================== *)
(** * The statuses of the three endpoints *)
(* ===================================================================== *)

Ltac status_list :=
  lazymatch goal with
  | |- _ ⊆ _ =>
      let x := fresh "x" in
      let Hx := fresh "Hx" in
      intros x Hx;
      repeat (apply elem_of_cons in Hx as [-> | Hx]);
      [.. | now apply not_elem_of_nil in Hx];
      status_list
  | |- _ ∈ _ =>
      repeat first [apply list_elem_of_here | apply list_elem_of_further]
  end.

Lemma raises_only_Ok {A} (allowed : list Z) (a : A) : raises_only allowed (Ok a).
Proof. intros s d [=]. Qed.

Lemma raises_only_plain {A} (allowed : list Z) (k : kind) :
  raises_only allowed (@Raise A (Exception k)).
Proof. intros s d [=]. Qed.

Lemma raises_only_http {A} (allowed : list Z) (s : Z) (d : detail) :
  s ∈ allowed -> raises_only allowed (@Raise A (HTTPException s d)).
Proof. intros Hs s' d' [= <- <-]. exact Hs. Qed.

Lemma raises_only_bind {A B} (allowed : list Z) (r : result A)
    (k : A -> result B) :
  raises_only allowed r ->
  (forall a, r = Ok a -> raises_only allowed (k a)) ->
  raises_only allowed (r ≫= k).
Proof.
  intros Hr Hk. destruct r as [a|e]; cbn.
  - now apply Hk.
  - intros s d [= ->]. now apply (Hr s d).
Qed.

Lemma raises_only_Raise {A B} (allowed : list Z) (e : exn) :
  raises_only allowed (@Raise A e) -> raises_only allowed (@Raise B e).
Proof. intros Hr s d [= ->]. now apply (Hr s d). Qed.

Lemma raises_only_weaken {A} (allowed allowed' : list Z) (r : result A) :
  allowed ⊆ allowed' -> raises_only allowed r -> raises_only allowed' r.
Proof. intros Hsub Hr s d Hs. apply Hsub. now apply (Hr s d). Qed.

Lemma raises_only_status {A} (allowed : list Z) (r : result A) :
  raises_only allowed r ->
  status_of r = 200 \/ status_of r = 500 \/ status_of r ∈ allowed.
Proof.
  intros Hr. destruct r as [a|[s d|k]]; cbn; auto.
  right. right. now apply (Hr s d).
Qed.

Lemma column_plain (a : ndarray2) (j : nat) : raises_only [] (column a j).
Proof.
  unfold column. destruct (j <? shape1 a)%nat;
    [apply raises_only_Ok | apply raises_only_plain].
Qed.

Lemma getitem_plain {A} (l : list A) (i : nat) : raises_only [] (getitem l i).
Proof.
  unfold getitem. destruct (l !! i);
    [apply raises_only_Ok | apply raises_only_plain].
Qed.

Lemma transform_call_plain {Features : Type} (vec : Vectorizer Features)
    (texts : list str) :
  raises_only [] (Sk.transform_call vec texts).
Proof.
  unfold Sk.transform_call.
  destruct texts; [destruct (Sk.rejects_empty vec)|];
    try apply raises_only_Ok; apply raises_only_plain.
Qed.

Lemma getcol_plain (df : DataFrame) (name : str) : raises_only [] (getcol df name).
Proof.
  unfold getcol. destruct (lookup_column name (data df));
    [apply raises_only_Ok | apply raises_only_plain].
Qed.

Lemma setcol_plain (df : DataFrame) (name : str) (v : list cell) :
  raises_only [] (setcol df name v).
Proof.
  unfold setcol. destruct (data df), (nrows df);
    try apply raises_only_Ok;
    destruct (_ =? _)%nat; try apply raises_only_Ok; apply raises_only_plain.
Qed.

Section Statuses.

Context `{Runtime} `{Settings} {Features : Type}.

Lemma spam_columns_plain (clf : Classifier Features)
    (pp : Features -> ndarray2) (X : Features) :
  raises_only [] (predict_spam_column clf pp X) /\
  raises_only [] (batch_spam_column clf pp X) /\
  raises_only [] (file_predict_spam_column clf pp X).
Proof. repeat split; apply column_plain. Qed.

Lemma batch_fill_plain (thr : float) (ps : list float) :
  forall i preds probs, raises_only [] (batch_fill thr i ps preds probs).
Proof.
  induction ps as [|p ps IH]; intros i preds probs; cbn [batch_fill].
  - apply raises_only_Ok.
  - destruct (negb _); [apply raises_only_plain|].
    destruct (negb _); [apply raises_only_plain | apply IH].
Qed.

Lemma batch_score_plain (b : Bundle Features) (texts : list str)
    (rid profile : option str) :
  raises_only [] (batch_score b texts rid profile).
Proof.
  unfold batch_score. cbv zeta. apply raises_only_bind.
  - destruct (Sk.predict_proba (Sk.model b)) as [pp|];
      [|apply raises_only_Ok].
    apply raises_only_bind; [apply spam_columns_plain|].
    intros ps _. apply batch_fill_plain.
  - intros [preds probs] _. apply raises_only_Ok.
Qed.

(** [/predict] with the model loaded, case by case. *)
Lemma predict_blank (b : Bundle Features) (t : str) (rid profile : option str) :
  truthy (strip t) = false ->
  predict (Some b) t rid profile = Raise (HTTPException 422 EmptyText).
Proof. unfold predict. now intros ->. Qed.

Lemma predict_nonblank_plain (b : Bundle Features) (t : str)
    (rid profile : option str) :
  truthy (strip t) = true ->
  raises_only [] (predict (Some b) t rid profile).
Proof.
  unfold predict. intros ->. cbn [negb]. cbv zeta.
  destruct (Sk.predict_proba (Sk.model b)) as [pp|].
  - apply raises_only_bind; [apply spam_columns_plain|]. intros col _.
    apply raises_only_bind; [apply getitem_plain|]. intros p _.
    apply raises_only_Ok.
  - apply raises_only_bind; [apply getitem_plain|]. intros raw _.
    apply raises_only_Ok.
Qed.

(** X5.  [/predict] with the model loaded refuses a text exactly when
    nothing is left of it after [strip]: the answer is 422 if and only if
    the stripped text is empty.  Any other text is scored (200) unless the
    classifier's output has no row or no such column (500); no other
    status occurs. *)
Theorem predict_statuses (b : Bundle Features) (t : str)
    (rid profile : option str) :
  (status_of (predict (Some b) t rid profile) = 422 <-> strip t = []) /\
  (strip t <> [] ->
   status_of (predict (Some b) t rid profile) = 200
   \/ status_of (predict (Some b) t rid profile) = 500).
Proof.
  destruct (truthy (strip t)) eqn:Ht.
  - pose proof (raises_only_status _ _ (predict_nonblank_plain b t rid profile Ht))
      as [H200 | [H500 | Hnone]]; [| |now apply not_elem_of_nil in Hnone].
    + rewrite H200. split; [|auto]. split; [discriminate|].
      intros Hnil. now rewrite Hnil in Ht.
    + rewrite H500. split; [|auto]. split; [discriminate|].
      intros Hnil. now rewrite Hnil in Ht.
  - rewrite (predict_blank b t rid profile Ht). cbn.
    destruct (strip t); [|discriminate]. split; [tauto | congruence].
Qed.

End Statuses.

(** White space only is refused, a classifier without output is a 500. *)
Example predict_white_space :
  @predict Demo.runtime Demo.settings _ (Some Demo.bundle)
    [32; 9; 10; 160; 8195]%N None None
  = Raise (HTTPException 422 EmptyText).
Proof. vm_compute. reflexivity. Qed.

(** X5 on a text of a space and a tab. *)
Lemma predict_statuses_witness :
  status_of (@predict Demo.runtime Demo.settings _ (Some Demo.bundle)
               [32; 9]%N None None) = 422.
Proof.
  apply (proj1 (@predict_statuses Demo.runtime Demo.settings _ Demo.bundle
                  [32; 9]%N None None)).
  vm_compute. reflexivity.
Defined.

Section UploadStatuses.

Context `{Runtime} `{Settings} {Features : Type}.

Lemma bytes_decode_plain (content : bytes) (enc : encoding) :
  raises_only [] (bytes_decode content enc).
Proof.
  unfold bytes_decode. destruct (decode enc content);
    [apply raises_only_Ok | apply raises_only_plain].
Qed.

Lemma read_upload_unsupported (ext : str) (content : bytes) :
  supported ext = false ->
  read_upload ext content = Raise (HTTPException 415 (UnsupportedFileType ext)).
Proof.
  unfold supported, read_upload, read_by_extension. intros Hext.
  apply orb_false_elim in Hext as [Hext Htxt].
  apply orb_false_elim in Hext as [Hext Hxls].
  apply orb_false_elim in Hext as [Hcsv Hxlsx].
  now rewrite Hcsv, Hxlsx, Hxls, Htxt.
Qed.

Lemma read_upload_supported (ext : str) (content : bytes) :
  excel_errors_are_plain ->
  supported ext = true ->
  raises_only [400] (read_upload ext content).
Proof.
  intros Hexcel Hext.
  assert (Hplain : raises_only [] (read_by_extension ext content)).
  { unfold read_by_extension.
    destruct (str_eqb ext (py ".csv")) eqn:Hcsv.
    { destruct (_ ≫= _) as [df|e]; [apply raises_only_Ok|].
      apply raises_only_bind; [apply bytes_decode_plain|].
      intros s _. apply raises_only_Ok. }
    destruct (str_eqb ext (py ".xlsx") || str_eqb ext (py ".xls")) eqn:Hx;
      [apply Hexcel|].
    destruct (str_eqb ext (py ".txt")) eqn:Htxt.
    { apply raises_only_bind; [apply bytes_decode_plain|].
      intros s _. apply raises_only_Ok. }
    unfold supported in Hext. apply orb_false_elim in Hx as [Hxlsx Hxls].
    rewrite Hcsv, Hxlsx, Hxls, Htxt in Hext. discriminate Hext. }
  unfold read_upload.
  destruct (read_by_extension ext content) as [df|[s d|k]].
  - apply raises_only_Ok.
  - pose proof (Hplain s d eq_refl) as Hnone.
    now apply not_elem_of_nil in Hnone.
  - apply raises_only_http. apply list_elem_of_here.
Qed.

Lemma file_predict_no_text_column (b : Bundle Features) (name : str)
    (content : bytes) (profile : option str) (df : DataFrame) :
  truthy name = true ->
  read_upload (str_lower (path_suffix name)) content = Ok df ->
  py "text" ∉ columns df ->
  file_predict (Some b) (Some name) content profile
  = Raise (HTTPException 422 MissingTextColumn).
Proof.
  intros Hname Hread Hcol. unfold file_predict. cbn [from_option id].
  rewrite Hname. cbn [negb]. rewrite Hread. cbn [mbind result_bind bind].
  now rewrite bool_decide_eq_false_2 by exact Hcol.
Qed.

Lemma file_predict_with_text_column (b : Bundle Features) (name : str)
    (content : bytes) (profile : option str) (df : DataFrame) :
  truthy name = true ->
  read_upload (str_lower (path_suffix name)) content = Ok df ->
  py "text" ∈ columns df ->
  raises_only [] (file_predict (Some b) (Some name) content profile).
Proof.
  intros Hname Hread Hcol. unfold file_predict. cbn [from_option id].
  rewrite Hname. cbn [negb]. rewrite Hread. cbn [mbind result_bind bind].
  rewrite bool_decide_eq_true_2 by exact Hcol. cbn [negb].
  apply raises_only_bind; [apply getcol_plain|]. intros cells _. cbv zeta.
  apply raises_only_bind; [apply transform_call_plain|]. intros X _.
  apply raises_only_bind.
  { destruct (Sk.predict_proba (Sk.model b)) as [pp|];
      [|apply raises_only_Ok].
    apply raises_only_bind; [apply spam_columns_plain|].
    intros ps _. apply raises_only_Ok. }
  intros [preds probs] _.
  apply raises_only_bind; [apply setcol_plain|]. intros df1 _.
  apply raises_only_bind.
  { destruct probs; [apply setcol_plain | apply raises_only_Ok]. }
  intros df2 _.
  destruct (latin_1_encodable _);
    [apply raises_only_Ok | apply raises_only_plain].
Qed.

Lemma file_predict_named_statuses (b : Bundle Features) (name : str)
    (content : bytes) (profile : option str) :
  excel_errors_are_plain ->
  truthy name = true ->
  supported (str_lower (path_suffix name)) = true ->
  raises_only [400; 422] (file_predict (Some b) (Some name) content profile).
Proof.
  intros Hexcel Hname Hext.
  destruct (read_upload (str_lower (path_suffix name)) content) as [df|e]
    eqn:Hread.
  - destruct (decide (py "text" ∈ columns df)) as [Hcol|Hcol].
    + eapply raises_only_weaken;
        [|apply (file_predict_with_text_column b name content profile df);
          assumption].
      intros x Hx. now apply not_elem_of_nil in Hx.
    + rewrite (file_predict_no_text_column b name content profile df)
        by assumption.
      apply raises_only_http. status_list.
  - pose proof (read_upload_supported _ content Hexcel Hext) as Hraise.
    rewrite Hread in Hraise.
    unfold file_predict. cbn [from_option id]. rewrite Hname. cbn [negb].
    rewrite Hread. cbn [mbind result_bind bind].
    eapply raises_only_weaken; [|exact (raises_only_Raise _ _ Hraise)].
    status_list.
Qed.

(** X6.  The format guard of [/file-predict].  An upload without a file
    name is answered 400.  With a name, the answer is 415 exactly when the
    lower-cased suffix of the name is none of [.csv], [.xlsx], [.xls] and
    [.txt]; such an upload is refused whatever its content, which is not
    even decoded, and whatever the model. *)
Theorem upload_format_guard (b : Bundle Features) (name : str)
    (content : bytes) (profile : option str) :
  excel_errors_are_plain ->
  file_predict (Some b) None content profile
  = Raise (HTTPException 400 MissingFileName) /\
  file_predict (Some b) (Some []) content profile
  = Raise (HTTPException 400 MissingFileName) /\
  (truthy name = true ->
   (supported (str_lower (path_suffix name)) = false ->
    file_predict (Some b) (Some name) content profile
    = Raise (HTTPException 415
               (UnsupportedFileType (str_lower (path_suffix name))))) /\
   (status_of (file_predict (Some b) (Some name) content profile) = 415
    <-> supported (str_lower (path_suffix name)) = false)).
Proof.
  intros Hexcel. split; [reflexivity|]. split; [reflexivity|].
  intros Hname.
  assert (Hrefused :
    supported (str_lower (path_suffix name)) = false ->
    file_predict (Some b) (Some name) content profile
    = Raise (HTTPException 415
               (UnsupportedFileType (str_lower (path_suffix name))))).
  { intros Hext. unfold file_predict. cbn [from_option id].
    rewrite Hname. cbn [negb].
    now rewrite (read_upload_unsupported _ content Hext). }
  split; [exact Hrefused|]. split.
  - intros Hstatus.
    destruct (supported (str_lower (path_suffix name))) eqn:Hext;
      [|reflexivity].
    pose proof (raises_only_status _ _
                  (file_predict_named_statuses b name content profile
                     Hexcel Hname Hext)) as [H1 | [H1 | H1]].
    + congruence.
    + congruence.
    + rewrite Hstatus in H1. list_cases H1; discriminate H1.
  - intros Hext. now rewrite (Hrefused Hext).
Qed.

(** X7.  The column guard of [/file-predict].  Once the upload has been
    read into a frame, the answer is 422 exactly when the frame has no
    column named [text], spelled so; with that column the upload is scored
    (200) unless the vectorizer, the classifier, an assignment or the
    encoding of the response header raises (500). *)
Theorem upload_column_guard (b : Bundle Features) (name : str)
    (content : bytes) (profile : option str) (df : DataFrame) :
  truthy name = true ->
  read_upload (str_lower (path_suffix name)) content = Ok df ->
  (status_of (file_predict (Some b) (Some name) content profile) = 422
   <-> py "text" ∉ columns df) /\
  (py "text" ∈ columns df ->
   status_of (file_predict (Some b) (Some name) content profile) = 200
   \/ status_of (file_predict (Some b) (Some name) content profile) = 500).
Proof.
  intros Hname Hread.
  destruct (decide (py "text" ∈ columns df)) as [Hcol|Hcol].
  - pose proof (raises_only_status _ _
                  (file_predict_with_text_column b name content profile df
                     Hname Hread Hcol)) as [H1 | [H1 | H1]];
      [| |now apply not_elem_of_nil in H1].
    + rewrite H1. split; [split; [discriminate | done] | auto].
    + rewrite H1. split; [split; [discriminate | done] | auto].
  - rewrite (file_predict_no_text_column b name content profile df)
      by assumption.
    cbn. split; [tauto | done].
Qed.

(** X8.  An endpoint answers 503 exactly when no bundle is loaded,
    whatever the request: before the model is there not even an invalid
    request gets its own error, and once it is there no request is
    answered 503. *)
Theorem unavailable_iff_not_loaded (MODEL_BUNDLE : option (Bundle Features))
    (t : str) (texts : list str) (file_filename : option str)
    (content : bytes) (rid profile : option str) :
  excel_errors_are_plain ->
  (status_of (predict MODEL_BUNDLE t rid profile) = 503
   <-> MODEL_BUNDLE = None) /\
  (status_of (batch MODEL_BUNDLE texts rid profile) = 503
   <-> MODEL_BUNDLE = None) /\
  (status_of (file_predict MODEL_BUNDLE file_filename content profile) = 503
   <-> MODEL_BUNDLE = None).
Proof.
  intros Hexcel. destruct MODEL_BUNDLE as [b|]; [|cbn; tauto].
  assert (Hno : forall {A} (r : result A),
            raises_only [400; 413; 415; 422] r ->
            status_of r = 503 <-> Some b = None).
  { intros A r Hr. split; [|discriminate]. intros Hs.
    destruct (raises_only_status _ _ Hr) as [H1 | [H1 | H1]];
      [congruence | congruence |].
    rewrite Hs in H1. list_cases H1; discriminate H1. }
  split; [|split]; apply Hno.
  - destruct (truthy (strip t)) eqn:Ht.
    + eapply raises_only_weaken; [|now apply predict_nonblank_plain].
      status_list.
    + rewrite predict_blank by exact Ht. apply raises_only_http. status_list.
  - unfold batch. destruct texts as [|t0 texts];
      [apply raises_only_http; status_list|].
    destruct (_ >? _); [apply raises_only_http; status_list|].
    eapply raises_only_weaken; [|apply batch_score_plain]. status_list.
  - destruct file_filename as [name|];
      [|apply raises_only_http; status_list].
    destruct (truthy name) eqn:Hname.
    + destruct (supported (str_lower (path_suffix name))) eqn:Hext.
      * eapply raises_only_weaken;
          [|now apply file_predict_named_statuses]. status_list.
      * unfold file_predict. cbn [from_option id]. rewrite Hname. cbn [negb].
        rewrite (read_upload_unsupported _ content Hext).
        apply raises_only_http. status_list.
    + unfold file_predict. cbn [from_option id]. rewrite Hname.
      apply raises_only_http. status_list.
Qed.

End UploadStatuses.

Lemma demo_excel_plain : @excel_errors_are_plain Demo.runtime.
Proof. intros content s d [=]. Qed.

(** X6 on [report.pdf]. *)
Lemma upload_format_guard_witness :
  @file_predict Demo.runtime Demo.settings _ (Some Demo.bundle)
    (Some (py "report.PDF")) Demo.note_txt None
  = Raise (HTTPException 415 (UnsupportedFileType (py ".pdf"))).
Proof.
  destruct (@upload_format_guard Demo.runtime Demo.settings _ Demo.bundle
              (py "report.PDF") Demo.note_txt None demo_excel_plain)
    as (_ & _ & Hnamed).
  destruct (Hnamed eq_refl) as [Hrefused _].
  exact (Hrefused eq_refl).
Defined.

(** X7 on [Text.csv]: the column is [Text], not [text]. *)
Lemma upload_column_guard_witness :
  status_of (@file_predict Demo.runtime Demo.settings _ (Some Demo.bundle)
               (Some (py "Text.csv")) capital_text_csv None) = 422.
Proof.
  refine (proj2 (proj1 (@upload_column_guard Demo.runtime Demo.settings _
                          Demo.bundle (py "Text.csv") capital_text_csv None
                          {| nrows := 1;
                             data := [(py "Text", [CStr (py "hello there")])] |}
                          eq_refl _)) _).
  - vm_compute. reflexivity.
  - vm_compute. intros Hin. apply list_elem_of_singleton in Hin.
    discriminate Hin.
Defined.

(** X8 once the toy pair is loaded. *)
Lemma unavailable_iff_not_loaded_witness :
  status_of (@batch Demo.runtime Demo.settings _ (Some Demo.bundle)
               [] None None) <> 503.
Proof.
  destruct (@unavailable_iff_not_loaded Demo.runtime Demo.settings _
              (Some Demo.bundle) [] [] None [] None None demo_excel_plain)
    as (_ & Hbatch & _).
  intros Hs. apply Hbatch in Hs. discriminate Hs.
Defined.

(* ===================================================================== *)
(** * An upload without a non-blank line *)
(* ===================================================================== *)

Section BlankUpload.

Context `{Runtime} `{Settings} {Features : Type}.
Variable b : Bundle Features.


End BlankUpload.





(** The empty file fares as [blank.txt] does. *)
Example empty_upload_server_error :
  @file_predict Demo.runtime Demo.settings _ (Some Demo.bundle)
    (Some (py "empty.txt")) [] None
  = Raise (Exception ValueError).
Proof. vm_compute. reflexivity. Qed.

(** The empty file, a vectorizer that takes an empty list and a
    classifier without probabilities. *)
Example empty_upload_labels_only :
  @file_predict Demo.runtime Demo.settings _ (Some Demo.bundle_labels_lenient)
    (Some (py "empty.txt")) [] None
  = Ok {| filename := py "prediction_empty.csv";
          body := {| nrows := 0;
                     data := [ (py "text", []); (py "pred", []) ] |} |}.
Proof. vm_compute. reflexivity. Qed.

(** A file name outside Latin-1, here [почта.txt]: the table is computed,
    and building the response raises. *)
Example cyrillic_name_server_error :
  @file_predict Demo.runtime Demo.settings _ (Some Demo.bundle)
    (Some ([1087; 1086; 1095; 1090; 1072]%N ++ py ".txt")) Demo.sms_txt None
  = Raise (Exception UnicodeEncodeError).
Proof. vm_compute. reflexivity. Qed.

(* ===================================================================== *)
(** * A classifier that returns the wrong number of rows *)
(* ===================================================================== *)

Section RowMismatch.

Context `{Runtime} `{Settings} {Features : Type}.

Lemma batch_fill_general (thr : float) (ps : list float) :
  forall (done_preds : list str) (done_probs : list (option float))
         (todo_preds : list str) (todo_probs : list (option float)),
    length done_preds = length done_probs ->
    length todo_preds = length todo_probs ->
    batch_fill thr (length done_preds) ps
      (done_preds ++ todo_preds) (done_probs ++ todo_probs)
    = if (length ps <=? length todo_preds)%nat
      then Ok (done_preds ++ (Spec.label_at thr <$> ps)
                 ++ drop (length ps) todo_preds,
               done_probs ++ (Some <$> ps) ++ drop (length ps) todo_probs)
      else Raise (Exception IndexError).
Proof.
  induction ps as [|p ps IH];
    intros done_preds done_probs todo_preds todo_probs Hdone Htodo.
  - reflexivity.
  - cbn [batch_fill length]. rewrite !length_app.
    destruct todo_preds as [|l todo_preds];
      destruct todo_probs as [|q todo_probs]; try discriminate Htodo.
    + cbn [length]. rewrite Nat.add_0_r, Hdone, Nat.ltb_irrefl. reflexivity.
    + cbn [length] in *.
      destruct (Nat.ltb_spec (length done_preds)
                  (length done_probs + S (length todo_probs))); [|lia].
      cbn [negb].
      destruct (Nat.ltb_spec (length done_preds)
                  (length done_preds + S (length todo_preds))); [|lia].
      cbn [negb].
      rewrite (insert_app_r_alt done_preds _ (length done_preds)) by lia.
      rewrite (insert_app_r_alt done_probs _ (length done_preds)) by lia.
      rewrite Hdone, !Nat.sub_diag. cbn [insert list_insert].
      specialize (IH (done_preds ++ [Spec.label_at thr p])
                     (done_probs ++ [Some p]) todo_preds todo_probs).
      rewrite !length_app in IH. cbn [length] in IH.
      rewrite <- !app_assoc in IH. cbn [app] in IH.
      replace (S (length done_probs)) with (length done_probs + 1)%nat by lia.
      rewrite Hdone in IH.
      etransitivity; [apply IH; lia|].
      cbn [fmap list_fmap drop app length Nat.leb]. reflexivity.
Qed.

Lemma zip_items_app (texts : list str) (la lb : list str)
    (pa pb : list (option float)) :
  length la = length pa ->
  (length la <= length texts)%nat ->
  zip_items texts (la ++ lb) (pa ++ pb)
  = zip_items (take (length la) texts) la pa
    ++ zip_items (drop (length la) texts) lb pb.
Proof.
  revert texts pa. induction la as [|l la IH]; intros texts pa Hlen Hle.
  - destruct pa; [|discriminate]. reflexivity.
  - destruct pa as [|q pa]; [discriminate|].
    destruct texts as [|t texts]; [cbn in Hle; lia|].
    cbn in *. rewrite IH by lia. reflexivity.
Qed.

Lemma zip_items_unscored (texts : list str) (n : nat) :
  length texts = n ->
  zip_items texts (replicate n (py "ham")) (replicate n None)
  = (fun t => item_of t (py "ham") None) <$> texts.
Proof.
  revert n. induction texts as [|t texts IH]; intros n <-; [reflexivity|].
  cbn. now rewrite IH.
Qed.

(** X9.  What [/batch] does when [predict_proba] returns a matrix whose
    number of rows is not the number of texts.  With fewer rows the call
    succeeds: the first texts get the rows there are, and every further
    text is reported as [ham] without a probability, the values the lists
    were initialised with.  With more rows the loop runs past the end of
    the lists and the call ends in an [IndexError], a 500. *)
Theorem batch_row_mismatch (b : Bundle Features) (pp : Features -> ndarray2)
    (texts : list str) (rid profile : option str) (ps : list float) :
  Sk.predict_proba (Sk.model b) = Some pp ->
  batch_spam_column (Sk.model b) pp
    (Sk.transform (Sk.vectorizer b) (strip <$> texts)) = Ok ps ->
  ((length ps <= length texts)%nat ->
   batch_score b texts rid profile
   = Ok {| size := length texts;
           items :=
             zip_with
               (fun t p =>
                  item_of t (Spec.label_at (resolve_threshold profile) p)
                    (Some p))
               (take (length ps) (strip <$> texts)) ps
             ++ ((fun t => item_of t (py "ham") None)
                   <$> drop (length ps) (strip <$> texts));
           batch_request_id := rid |}) /\
  ((length texts < length ps)%nat ->
   batch_score b texts rid profile = Raise (Exception IndexError)).
Proof.
  intros Hpp Hcol.
  assert (Hfill :
    batch_fill (resolve_threshold profile) 0 ps
      (replicate (length (strip <$> texts)) (py "ham"))
      (replicate (length (strip <$> texts)) None)
    = if (length ps <=? length texts)%nat
      then Ok ((Spec.label_at (resolve_threshold profile) <$> ps)
                 ++ replicate (length texts - length ps) (py "ham"),
               (Some <$> ps) ++ replicate (length texts - length ps) None)
      else Raise (Exception IndexError)).
  { pose proof (batch_fill_general (resolve_threshold profile) ps [] []
                  (replicate (length (strip <$> texts)) (py "ham"))
                  (replicate (length (strip <$> texts)) None) eq_refl) as Hgen.
    cbn [app length] in Hgen. rewrite Hgen by now rewrite !length_replicate.
    now rewrite length_replicate, !drop_replicate, length_fmap. }
  unfold batch_score. cbv zeta. rewrite Hpp, Hcol.
  cbn [mbind result_bind bind]. rewrite Hfill. split.
  - intros Hle. destruct (Nat.leb_spec (length ps) (length texts)); [|lia].
    cbn [mbind result_bind bind].
    assert (Hitems :
      zip_items (strip <$> texts)
        ((Spec.label_at (resolve_threshold profile) <$> ps)
           ++ replicate (length texts - length ps) (py "ham"))
        ((Some <$> ps) ++ replicate (length texts - length ps) None)
      = zip_with
          (fun t p =>
             item_of t (Spec.label_at (resolve_threshold profile) p) (Some p))
          (take (length ps) (strip <$> texts)) ps
        ++ ((fun t => item_of t (py "ham") None)
              <$> drop (length ps) (strip <$> texts))).
    { rewrite zip_items_app by (rewrite !length_fmap; lia).
      rewrite length_fmap, zip_items_proba, zip_items_unscored;
        [reflexivity|].
      rewrite length_drop, length_fmap. reflexivity. }
    rewrite Hitems. f_equal. f_equal.
    rewrite length_app, length_fmap, length_drop, length_fmap.
    rewrite length_zip_with_r_eq; [lia|].
    rewrite length_take, length_fmap. lia.
  - intros Hlt. destruct (Nat.leb_spec (length ps) (length texts)); [lia|].
    reflexivity.
Qed.

End RowMismatch.

(** X9 on a classifier that answers for the first text only: the second
    text, which scores 0.6, comes back as [ham] without a probability. *)
Lemma batch_row_mismatch_witness :
  @batch_score Demo.runtime Demo.settings _ first_row_only
    [short_message; long_message] None None
  = Ok {| size := 2;
          items := [ item_of (py "see you at 5") (py "ham") (Some 0.2%float);
                     item_of (py "You won a FREE vacation, click now!")
                       (py "ham") None ];
          batch_request_id := None |}.
Proof.
  destruct (@batch_row_mismatch Demo.runtime Demo.settings _ first_row_only
              (fun X => Demo.toy_proba (take 1 X))
              [short_message; long_message] None None [0.2%float]
              eq_refl eq_refl) as [Hfewer _].
  rewrite Hfewer by (cbn; lia). vm_compute. reflexivity.
Defined.

(** ... and on one that answers twice for every text. *)
Example batch_rows_twice :
  @batch_score Demo.runtime Demo.settings _ every_row_twice
    [short_message; long_message] None None
  = Raise (Exception IndexError).
Proof. vm_compute. reflexivity. Qed.

(* ===================================================================== *)
(** * The columns of a scored upload, and the upload against the batch *)
(* ===================================================================== *)

Lemma columns_assign (name : str) (v : list cell) (d : list (str * list cell)) :
  (assign name v d).*1
  = if bool_decide (name ∈ d.*1) then d.*1 else d.*1 ++ [name].
Proof.
  induction d as [|[n w] d IH]; cbn.
  - rewrite bool_decide_eq_false_2 by apply not_elem_of_nil. reflexivity.
  - unfold str_eqb. destruct (decide (n = name)) as [->|Hn].
    + rewrite (bool_decide_eq_true_2 (name = name)) by reflexivity.
      rewrite bool_decide_eq_true_2 by apply list_elem_of_here.
      reflexivity.
    + rewrite (bool_decide_eq_false_2 (n = name)) by exact Hn.
      cbn. rewrite IH.
      destruct (decide (name ∈ d.*1)) as [Hin|Hin].
      * rewrite (bool_decide_eq_true_2 (name ∈ d.*1)) by exact Hin.
        rewrite bool_decide_eq_true_2 by now apply list_elem_of_further.
        reflexivity.
      * rewrite (bool_decide_eq_false_2 (name ∈ d.*1)) by exact Hin.
        rewrite bool_decide_eq_false_2; [reflexivity|].
        intros Hc. apply elem_of_cons in Hc as [Hc | Hc]; congruence.
Qed.

Lemma item_fields_proba (thr : float) (texts : list str) (ps : list float) :
  length ps = length texts ->
  let its := zip_with (fun t p => item_of t (Spec.label_at thr p) (Some p))
               texts ps in
  item_text <$> its = texts /\
  item_pred <$> its = Spec.label_at thr <$> ps /\
  item_proba_spam <$> its = Some <$> ps.
Proof.
  revert ps. induction texts as [|t texts IH]; intros [|p ps] Hlen;
    try discriminate Hlen; [now repeat split|].
  cbn in Hlen. destruct (IH ps) as (H1 & H2 & H3); [lia|].
  cbn in *. now rewrite H1, H2, H3.
Qed.

Lemma item_fields_labels `{Runtime} (texts : list str) (raws : list cell) :
  length raws = length texts ->
  let its := zip_with (fun t raw => item_of t (py_str raw) None) texts raws in
  item_text <$> its = texts /\
  item_pred <$> its = py_str <$> raws /\
  item_proba_spam <$> its = (fun _ => None) <$> raws.
Proof.
  revert raws. induction texts as [|t texts IH]; intros [|p ps] Hlen;
    try discriminate Hlen; [now repeat split|].
  cbn in Hlen. destruct (IH ps) as (H1 & H2 & H3); [lia|].
  cbn in *. now rewrite H1, H2, H3.
Qed.

Section UploadAgainstBatch.

Context `{Runtime} `{Settings} {Features : Type}.
Variable b : Bundle Features.

(** X10.  Whenever [/file-predict] answers with a table, the table is
    named after the upload, [prediction_<stem>.csv], and keeps the columns
    of the frame that was read, in their order, rows untouched in number.
    [pred] is added at the end unless the frame already has a column of
    that name, which is then overwritten where it stands; the same holds
    for [proba_spam], which is there only when the classifier has
    [predict_proba]. *)
Theorem upload_columns (name : str) (content : bytes) (profile : option str)
    (df : DataFrame) (resp : FileResponse) :
  truthy name = true ->
  read_upload (str_lower (path_suffix name)) content = Ok df ->
  file_predict (Some b) (Some name) content profile = Ok resp ->
  filename resp = py "prediction_" ++ path_stem name ++ py ".csv" /\
  nrows (body resp) = nrows df /\
  let with_pred :=
    if bool_decide (py "pred" ∈ columns df)
    then columns df else columns df ++ [py "pred"] in
  columns (body resp)
  = match Sk.predict_proba (Sk.model b) with
    | Some _ =>
        if bool_decide (py "proba_spam" ∈ columns df)
        then with_pred else with_pred ++ [py "proba_spam"]
    | None => with_pred
    end.
Proof.
  intros Hname Hread Hresp.
  destruct (file_predict_table b name content profile df resp Hname Hread
              Hresp) as (cells & Hcells & -> & _ & _).
  cbn [filename body scored_frame nrows]. split; [reflexivity|].
  split; [reflexivity|]. cbv zeta. unfold columns, upload_scores. cbn [data].
  destruct (Sk.predict_proba (Sk.model b)) as [pp|]; cbn [snd fst].
  - unfold scored_frame. cbn [data]. rewrite !columns_assign.
    destruct (bool_decide (py "pred" ∈ (data df).*1)) eqn:Hpred.
    + reflexivity.
    + assert (Hiff : py "proba_spam" ∈ (data df).*1 ++ [py "pred"]
                     <-> py "proba_spam" ∈ (data df).*1).
      { rewrite elem_of_app, list_elem_of_singleton. split; [|auto].
        intros [Hin | Heq]; [exact Hin|].
        symmetry in Heq. now apply pred_is_not_proba_spam in Heq. }
      now rewrite (bool_decide_ext _ _ Hiff).
  - unfold scored_frame. cbn [data]. now rewrite columns_assign.
Qed.

Hypothesis contract : row_per_text b.

(** X11.  Uploading a text file is scoring its messages as a batch.  For
    a line-oriented upload with at least one non-blank line, a file name
    that fits the response header (Latin-1) and a classifier whose
    probabilities are [float64] numbers, the columns [text], [pred] and
    [proba_spam] of the answer hold, row by row, the texts, labels and
    probabilities of the items that [/batch] computes for the list of
    the upload's non-blank lines under the same profile. *)
Theorem upload_matches_batch (name : str) (content : bytes)
    (rid profile : option str) (s : str) :
  truthy name = true ->
  latin_1_encodable (path_stem name) = true ->
  proba_is_float64 b ->
  reads_as_lines (str_lower (path_suffix name)) content s ->
  nonblank_lines (splitlines s) <> [] ->
  exists (resp : FileResponse) (out : BatchPredictOut),
    file_predict (Some b) (Some name) content profile = Ok resp /\
    batch_score b (nonblank_lines (splitlines s)) rid profile = Ok out /\
    size out = nrows (body resp) /\
    lookup_column (py "text") (data (body resp))
    = Some (CStr <$> (item_text <$> items out)) /\
    lookup_column (py "pred") (data (body resp))
    = Some (CStr <$> (item_pred <$> items out)) /\
    forall ps,
      lookup_column (py "proba_spam") (data (body resp)) = Some ps ->
      Some <$> ps
      = (fun it => CFloat <$> item_proba_spam it) <$> items out.
Proof.
  intros Hname Hlatin Hfloat Hlines Hne.
  set (lines := nonblank_lines (splitlines s)).
  destruct (file_predict_line_table b contract name content profile s
              Hname Hlatin Hlines (or_introl Hne)) as (Hresp & Hlabels & Hprobs).
  fold lines in Hresp, Hlabels, Hprobs. cbv zeta in Hresp, Hlabels, Hprobs.
  rewrite (upload_scores_float64 b _ _ Hfloat) in Hresp, Hlabels, Hprobs.
  unfold score_all in *.
  destruct (Sk.predict_proba (Sk.model b)) as [pp|] eqn:Hpp;
    cbn [fst snd] in *.
  - eexists. eexists. split; [exact Hresp|].
    split; [apply (batch_score_proba b contract pp _ _ _ Hpp)|].
    cbn [size items body nrows data]. unfold lines.
    rewrite strip_nonblank_lines. fold lines.
    destruct (item_fields_proba (resolve_threshold profile) lines
                (spam_probs b pp lines)) as (Ht & Hl & Hp);
      [now apply Hprobs|].
    cbv zeta in Ht, Hl, Hp. rewrite Ht, Hl.
    split; [reflexivity|]. split; [reflexivity|]. split; [reflexivity|].
    intros ps [= <-].
    transitivity (fmap CFloat <$> (Some <$> spam_probs b pp lines)).
    + rewrite <- !list_fmap_compose. reflexivity.
    + rewrite <- Hp, <- list_fmap_compose. reflexivity.
  - eexists. eexists. split; [exact Hresp|].
    split; [apply (batch_score_labels b contract _ _ _ Hpp)|].
    cbn [size items body nrows data]. unfold lines.
    rewrite strip_nonblank_lines. fold lines.
    destruct (item_fields_labels lines (raw_preds b lines)) as (Ht & Hl & _);
      [now rewrite length_fmap in Hlabels|].
    cbv zeta in Ht, Hl. rewrite Ht, Hl.
    split; [reflexivity|]. split; [reflexivity|]. split; [reflexivity|].
    intros ps [=].
Qed.

End UploadAgainstBatch.

Lemma reads_sms_txt :
  @reads_as_lines Demo.runtime
    (@str_lower Demo.runtime (path_suffix (py "sms.txt"))) Demo.sms_txt
    (default [] (decode utf_8 Demo.sms_txt)).
Proof. split; [vm_compute; reflexivity | left; reflexivity]. Qed.

Lemma demo_float64 : @proba_is_float64 _ Demo.bundle.
Proof. intros pp texts [= <-]. reflexivity. Qed.

(** X10 on [sms.txt]. *)
Lemma upload_columns_witness :
  exists resp : FileResponse,
    @file_predict Demo.runtime Demo.settings _ (Some Demo.bundle)
      (Some (py "sms.txt")) Demo.sms_txt None = Ok resp /\
    filename resp = py "prediction_sms.csv" /\
    nrows (body resp) = 4%nat /\
    columns (body resp) = [py "text"; py "pred"; py "proba_spam"].
Proof.
  eassert (Hresp : @file_predict Demo.runtime Demo.settings _
                     (Some Demo.bundle) (Some (py "sms.txt")) Demo.sms_txt None
                   = Ok _) by (vm_compute; reflexivity).
  destruct (@upload_columns Demo.runtime Demo.settings _ Demo.bundle
              (py "sms.txt") Demo.sms_txt None
              (text_frame
                 (nonblank_lines
                    (splitlines (default [] (decode utf_8 Demo.sms_txt)))))
              _ eq_refl
              (@read_upload_lines Demo.runtime _ _ _ reads_sms_txt) Hresp)
    as (Hname & Hrows & Hcols).
  eexists. split; [exact Hresp|]. split; [exact Hname|].
  split; [exact Hrows|]. rewrite Hcols. reflexivity.
Defined.

(** A file that has a column [pred] keeps it where it is, with new
    content: [sender] stays, [proba_spam] comes last. *)
Example labelled_upload :
  body <$> @file_predict runtime_labelled Demo.settings _ (Some Demo.bundle)
             (Some (py "labelled.csv")) [] None
  = Ok {| nrows := 2;
          data := [ (py "pred", [CStr (py "ham"); CStr (py "spam")]);
                    (py "text", [CStr (py "see you at 5");
                                 CStr (py "You won a FREE vacation, click now!")]);
                    (py "sender", [CInt 1; CInt 2]);
                    (py "proba_spam", [CFloat 0.2; CFloat 0.6]) ] |}.
Proof. vm_compute. reflexivity. Qed.

(** X11 on [sms.txt]. *)
Lemma upload_matches_batch_witness :
  exists (resp : FileResponse) (out : BatchPredictOut),
    @file_predict Demo.runtime Demo.settings _ (Some Demo.bundle)
      (Some (py "sms.txt")) Demo.sms_txt None = Ok resp /\
    @batch_score Demo.runtime Demo.settings _ Demo.bundle
      (nonblank_lines (splitlines (default [] (decode utf_8 Demo.sms_txt))))
      None None = Ok out /\
    lookup_column (py "pred") (data (body resp))
    = Some (CStr <$> (item_pred <$> items out)).
Proof.
  destruct (@upload_matches_batch Demo.runtime Demo.settings _ Demo.bundle
              demo_rows (py "sms.txt") Demo.sms_txt None None _ eq_refl
              eq_refl demo_float64 reads_sms_txt)
    as (resp & out & Hresp & Hout & _ & _ & Hpred & _).
  - vm_compute. discriminate.
  - now exists resp, out.
Defined.

(** Why X11 asks for [float64]: [hello.txt] holds one message, which the
    [float32] classifier scores with the [float32] number nearest to 0.45,
    a little below 0.45.  Under the profile [marketing] (0.45) the upload
    compares in [float32] and answers [spam]; [/batch] compares Python
    floats and answers [ham]. *)
Example float32_upload_against_batch :
  (body <$> @file_predict Demo.runtime Demo.settings _
              (Some Demo.bundle_float32) (Some (py "hello.txt"))
              (list_byte_of_string "hello") (Some (py "marketing")))
  ≫= (fun df => getcol df (py "pred"))
  = Ok [CStr (py "spam")] /\
  (fun out => item_pred <$> items out)
    <$> @batch Demo.runtime Demo.settings _ (Some Demo.bundle_float32)
          [py "hello"] None (Some (py "marketing"))
  = Ok [py "ham"].
Proof. split; vm_compute; reflexivity. Qed.

(* ===================================================================== *)
(** * The offline batch scorer: finding the text column *)
(* ===================================================================== *)

Section DetectColumn.

Context `{Runtime}.

Lemma foldl_lower_lookup (cols : list str) :
  forall (m : gmap str str) (k c : str),
    foldl (fun m c => <[str_lower c := c]> m) m cols !! k = Some c ->
    m !! k = Some c \/ (c ∈ cols /\ str_lower c = k).
Proof.
  induction cols as [|c0 cols IH]; intros m k c; cbn; [auto|].
  intros Hk. apply IH in Hk as [Hm | [Hin Hl]].
  - destruct (decide (str_lower c0 = k)) as [<-|Hne].
    + rewrite lookup_insert_eq in Hm. injection Hm as <-.
      right. split; [apply list_elem_of_here | reflexivity].
    + rewrite lookup_insert_ne in Hm by exact Hne. now left.
  - right. split; [now apply list_elem_of_further | exact Hl].
Qed.

Lemma foldl_lower_is_Some (cols : list str) :
  forall (m : gmap str str) (k : str),
    is_Some (m !! k) \/ (exists c, c ∈ cols /\ str_lower c = k) ->
    is_Some (foldl (fun m c => <[str_lower c := c]> m) m cols !! k).
Proof.
  induction cols as [|c0 cols IH]; intros m k; cbn.
  - intros [Hm | (c & Hc & _)]; [exact Hm | now apply not_elem_of_nil in Hc].
  - intros Hk. apply IH.
    destruct (decide (str_lower c0 = k)) as [<-|Hne].
    + left. rewrite lookup_insert_eq. eauto.
    + rewrite lookup_insert_ne by exact Hne.
      destruct Hk as [Hm | (c & Hc & Hl)]; [now left|].
      apply elem_of_cons in Hc as [-> | Hc]; [congruence|].
      right. now exists c.
Qed.

Lemma cols_lower_Some (df : DataFrame) (k c : str) :
  BatchPredict.cols_lower df !! k = Some c ->
  c ∈ columns df /\ str_lower c = k.
Proof.
  unfold BatchPredict.cols_lower. intros Hk.
  apply foldl_lower_lookup in Hk as [Hempty | Hin]; [|exact Hin].
  now rewrite lookup_empty in Hempty.
Qed.

Lemma cols_lower_None (df : DataFrame) (k : str) :
  BatchPredict.cols_lower df !! k = None ->
  forall c, c ∈ columns df -> str_lower c <> k.
Proof.
  unfold BatchPredict.cols_lower. intros Hk c Hc Hl.
  assert (Hsome : is_Some (foldl (fun m c => <[str_lower c := c]> m) ∅
                             (columns df) !! k))
    by (apply foldl_lower_is_Some; right; now exists c).
  rewrite Hk in Hsome. now destruct Hsome.
Qed.

Lemma first_known_Some (keys : list str) (m : gmap str str) (c : str) :
  BatchPredict.first_known keys m = Some c ->
  exists before k after,
    keys = before ++ k :: after /\
    Forall (fun k' => m !! k' = None) before /\
    m !! k = Some c.
Proof.
  induction keys as [|k keys IH]; cbn; [discriminate|].
  destruct (m !! k) as [c'|] eqn:Hk.
  - intros [= <-]. exists [], k, keys. now repeat split.
  - intros Hrest. destruct (IH Hrest) as (before & k' & after & -> & Hb & Hk').
    exists (k :: before), k', after. repeat split; [|exact Hk'].
    now constructor.
Qed.

Lemma first_known_None (keys : list str) (m : gmap str str) :
  BatchPredict.first_known keys m = None <-> Forall (fun k => m !! k = None) keys.
Proof.
  induction keys as [|k keys IH]; cbn; [split; [constructor | reflexivity]|].
  destruct (m !! k) as [c|] eqn:Hk.
  - split; [discriminate|]. intros Hall. inversion Hall; congruence.
  - rewrite IH. split; [now constructor | now inversion 1].
Qed.

Lemma detect_preferred (df : DataFrame) (preferred : option str) (p : str) :
  preferred_column df preferred p ->
  BatchPredict._detect_text_col df preferred = Ok p.
Proof.
  intros (-> & Hp & Hin). unfold BatchPredict._detect_text_col.
  cbn [from_option id]. now rewrite Hp, bool_decide_eq_true_2.
Qed.

Lemma detect_not_preferred (df : DataFrame) (preferred : option str) :
  (forall p, ~ preferred_column df preferred p) ->
  BatchPredict._detect_text_col df preferred
  = match BatchPredict.first_known known_names (BatchPredict.cols_lower df) with
    | Some c => Ok c
    | None =>
        match find (fun c => is_string_dtype c.2) (data df) with
        | Some c => Ok c.1
        | None => Raise (Exception ValueError)
        end
    end.
Proof.
  intros Hno. unfold BatchPredict._detect_text_col. cbv zeta.
  destruct (truthy (default [] preferred)
            && bool_decide (default [] preferred ∈ columns df)) eqn:Hhit;
    [|reflexivity].
  apply andb_prop in Hhit as [Hp Hin]. apply bool_decide_eq_true_1 in Hin.
  destruct preferred as [p|]; [|discriminate Hp].
  now destruct (Hno p).
Qed.

(** X12.  When [_detect_text_col] returns a name, the frame has a column
    of that name, so that reading this column from the first chunk cannot
    fail with a [KeyError]. *)
Theorem detected_column_exists (df : DataFrame) (preferred : option str)
    (c : str) :
  BatchPredict._detect_text_col df preferred = Ok c ->
  c ∈ columns df /\ exists cells, getcol df c = Ok cells.
Proof.
  intros Hdetect.
  assert (Hin : c ∈ columns df).
  { unfold BatchPredict._detect_text_col in Hdetect. cbv zeta in Hdetect.
    destruct (truthy (default [] preferred)
              && bool_decide (default [] preferred ∈ columns df)) eqn:Hhit.
    - injection Hdetect as <-. apply andb_prop in Hhit as [_ Hin].
      now apply bool_decide_eq_true_1 in Hin.
    - destruct (BatchPredict.first_known _ _) as [c'|] eqn:Hknown.
      + injection Hdetect as <-.
        apply first_known_Some in Hknown as (_ & k & _ & _ & _ & Hk).
        now apply cols_lower_Some in Hk.
      + destruct (find _ _) as [[n v]|] eqn:Hfind; [|discriminate].
        injection Hdetect as <-. apply find_some in Hfind as [Hin _].
        unfold columns. apply list_elem_of_fmap. exists (n, v).
        split; [reflexivity | now apply list_elem_of_In]. }
  split; [exact Hin|].
  destruct (lookup_column_is_Some _ _ Hin) as [cells Hcells].
  exists cells. now apply getcol_Ok.
Qed.

(** X13.  The order in which [_detect_text_col] decides.  A requested
    column that exists is returned as it is.  Otherwise the first of
    [text], [message], [sms], [content], [body] that is the lower-case
    form of a column selects the column, whatever the case and the
    position of the column.  Otherwise the first column of string type is
    taken, and without any the call raises [ValueError]. *)
Theorem detection_order (df : DataFrame) (preferred : option str) :
  (forall p, preferred_column df preferred p ->
     BatchPredict._detect_text_col df preferred = Ok p) /\
  ((forall p, ~ preferred_column df preferred p) ->
   (forall before k after,
      known_names = before ++ k :: after ->
      Forall (fun k' => forall c, c ∈ columns df -> str_lower c <> k') before ->
      (exists c, c ∈ columns df /\ str_lower c = k) ->
      exists c, BatchPredict._detect_text_col df preferred = Ok c /\
                c ∈ columns df /\ str_lower c = k) /\
   (Forall (fun k' => forall c, c ∈ columns df -> str_lower c <> k') known_names ->
    BatchPredict._detect_text_col df preferred
    = match find (fun c => is_string_dtype c.2) (data df) with
      | Some c => Ok c.1
      | None => Raise (Exception ValueError)
      end)).
Proof.
  split; [apply detect_preferred|]. intros Hno.
  rewrite (detect_not_preferred df preferred Hno). split.
  - intros before k after Hsplit Hbefore (c & Hc & Hl).
    destruct (BatchPredict.first_known known_names (BatchPredict.cols_lower df))
      as [c'|] eqn:Hknown.
    + apply first_known_Some in Hknown
        as (before' & k' & after' & Hsplit' & Hb' & Hk').
      apply cols_lower_Some in Hk' as Hc'. destruct Hc' as [Hin' Hl'].
      exists c'. split; [reflexivity|]. split; [exact Hin'|].
      rewrite Hsplit in Hsplit'.
      assert (Hk_some : is_Some (BatchPredict.cols_lower df !! k)).
      { unfold BatchPredict.cols_lower. apply foldl_lower_is_Some.
        right. now exists c. }
      assert (Hnodup : NoDup (before ++ k :: after)).
      { rewrite <- Hsplit. apply (bool_decide_unpack _). vm_compute. exact I. }
      destruct (decide (k' = k)) as [->|Hne]; [exact Hl'|]. exfalso.
      assert (Hk'in : k' ∈ before ++ k :: after)
        by (rewrite Hsplit'; apply elem_of_app; right; apply list_elem_of_here).
      assert (Hkin : k ∈ before' ++ k' :: after')
        by (rewrite <- Hsplit'; apply elem_of_app; right;
            apply list_elem_of_here).
      apply elem_of_app in Hkin as [Hkb | Hka].
      * rewrite Forall_forall in Hb'. rewrite (Hb' k Hkb) in Hk_some.
        now destruct Hk_some.
      * apply elem_of_cons in Hka as [Heq | Hka]; [congruence|].
        apply elem_of_app in Hk'in as [Hk'b | Hk'a].
        -- rewrite Forall_forall in Hbefore. now apply (Hbefore k' Hk'b c').
        -- apply elem_of_cons in Hk'a as [Heq | Hk'a]; [congruence|].
           (* [k] comes after [k'] on one side and before it on the other *)
           assert (Hpos : forall (l1 l2 l1' l2' : list str) (x y : str),
                     l1 ++ x :: l2 = l1' ++ y :: l2' ->
                     NoDup (l1 ++ x :: l2) ->
                     y ∈ l2 -> x ∈ l2' -> False).
           { clear. intros l1. induction l1 as [|a l1 IH];
               intros l2 l1' l2' x y Heq Hnd Hy Hx.
             - destruct l1' as [|a' l1']; cbn in Heq; injection Heq as -> ->.
               + apply NoDup_cons in Hnd as [Hfresh _]. contradiction.
               + apply NoDup_cons in Hnd as [Hfresh _]. apply Hfresh.
                 apply elem_of_app. right. now apply list_elem_of_further.
             - destruct l1' as [|a' l1']; cbn in Heq; injection Heq as -> Heq.
               + apply NoDup_cons in Hnd as [Hfresh _]. apply Hfresh.
                 apply elem_of_app. right. now apply list_elem_of_further.
               + apply NoDup_cons in Hnd as [_ Hnd]. eapply IH; eauto. }
           exact (Hpos before after before' after' k k' Hsplit' Hnodup
                    Hk'a Hka).
    + apply first_known_None in Hknown. rewrite Hsplit in Hknown.
      apply Forall_app in Hknown as [_ Hknown].
      apply Forall_cons in Hknown as [Hk _].
      now apply (cols_lower_None df k Hk c) in Hl.
  - intros Hnone.
    assert (Hknown : BatchPredict.first_known known_names
                       (BatchPredict.cols_lower df) = None).
    { apply first_known_None. apply Forall_forall. intros k Hk.
      destruct (BatchPredict.cols_lower df !! k) as [c|] eqn:Hlook;
        [|reflexivity].
      apply cols_lower_Some in Hlook as [Hin Hl].
      rewrite Forall_forall in Hnone. now destruct (Hnone k Hk c Hin). }
    now rewrite Hknown.
Qed.

End DetectColumn.

(** X12 on a frame that has its messages in [text]. *)
Lemma detected_column_exists_witness :
  py "text" ∈ columns labelled_frame /\
  exists cells, getcol labelled_frame (py "text") = Ok cells.
Proof.
  apply (@detected_column_exists Demo.runtime labelled_frame None (py "text")).
  vm_compute. reflexivity.
Defined.

(** X13 on [mixed_case_frame], asked for a column [missing]: [MESSAGE] is
    taken, although [Body] comes first in the frame. *)
Lemma detection_order_witness :
  exists c,
    @BatchPredict._detect_text_col Demo.runtime mixed_case_frame
      (Some (py "missing")) = Ok c /\
    c ∈ columns mixed_case_frame /\
    Demo.ascii_lower c = py "message".
Proof.
  destruct (@detection_order Demo.runtime mixed_case_frame
              (Some (py "missing"))) as [_ Hrest].
  assert (Hno : forall p,
            ~ preferred_column mixed_case_frame (Some (py "missing")) p).
  { intros p (Hp & _ & Hin). injection Hp as <-. revert Hin.
    apply (bool_decide_unpack _). vm_compute. exact I. }
  destruct (Hrest Hno) as [Hknown _].
  apply (Hknown [py "text"] (py "message")
           [py "sms"; py "content"; py "body"]).
  - reflexivity.
  - constructor; [|constructor]. apply Forall_forall.
    apply (bool_decide_unpack _). vm_compute. exact I.
  - exists (py "MESSAGE"). split; [|vm_compute; reflexivity].
    apply (bool_decide_unpack _). vm_compute. exact I.
Defined.

Example detect_mixed_case :
  @BatchPredict._detect_text_col Demo.runtime mixed_case_frame None
  = Ok (py "MESSAGE").
Proof. vm_compute. reflexivity. Qed.

(* ===================================================================== *)
(** * The offline batch scorer: what reaches the output file *)
(* ===================================================================== *)

Section CliOutput.

Context `{Runtime} {Features : Type}.

(** The loop after the first chunk: the text column is fixed. *)
Lemma main_loop_later (vectorizer : Vectorizer Features)
    (model : Classifier Features) (text_col : option str)
    (threshold : option float) (tcol : str) (reader : TextFileReader) :
  forall (i : nat) (file : BatchPredict.output_file),
  exists new : BatchPredict.output_file,
    let run := BatchPredict.main_loop vectorizer model text_col threshold
                 (S i) reader tcol file true in
    run.1 = file ++ new /\
    new.*1 = replicate (length new) false /\
    Forall2
      (fun r entry =>
         exists chunk, r = Ok chunk /\
           BatchPredict.score_chunk vectorizer model threshold tcol chunk
           = Ok entry.2)
      (take (length new) reader) new /\
    (run.2 = Ok () <-> length new = length reader).
Proof.
  induction reader as [|[chunk|e] reader IH]; intros i file;
    cbn [BatchPredict.main_loop].
  - exists []. cbn. rewrite app_nil_r. repeat split; constructor.
  - change (S i =? 0)%nat with false. cbn [mbind result_bind bind].
    destruct (BatchPredict.score_chunk vectorizer model threshold tcol chunk)
      as [out_chunk|e] eqn:Hscore; cbn [mbind result_bind bind].
    + cbn [BatchPredict._write_chunk negb].
      destruct (IH (S i) (file ++ [(false, out_chunk)]))
        as (new & Hfile & Hflags & Hall & Hend).
      exists ((false, out_chunk) :: new). cbv zeta in *.
      split; [rewrite Hfile, <- app_assoc; reflexivity|].
      split; [cbn; now rewrite Hflags|].
      split; [cbn; constructor; [now exists chunk | exact Hall]|].
      rewrite Hend. cbn. lia.
    + exists []. cbn. rewrite app_nil_r.
      split; [reflexivity|]. split; [reflexivity|].
      split; [constructor|]. split; discriminate.
  - exists []. cbn. rewrite app_nil_r.
    split; [reflexivity|]. split; [reflexivity|].
    split; [constructor|]. split; discriminate.
Qed.

(** The whole loop, from the first chunk on. *)
Lemma main_loop_first (vectorizer : Vectorizer Features)
    (model : Classifier Features) (text_col : option str)
    (threshold : option float) (reader : TextFileReader) (tcol0 : str) :
  let run := BatchPredict.main_loop vectorizer model text_col threshold
               0 reader tcol0 [] false in
  run.1.*1 = header_flags (length run.1) /\
  (run.2 = Ok () <-> length run.1 = length reader) /\
  exists tcol,
    (run.1 <> [] ->
     exists first, head reader = Some (Ok first) /\
       BatchPredict._detect_text_col first text_col = Ok tcol) /\
    Forall2
      (fun r entry =>
         exists chunk, r = Ok chunk /\
           BatchPredict.score_chunk vectorizer model threshold tcol chunk
           = Ok entry.2)
      (take (length run.1) reader) run.1.
Proof.
  destruct reader as [|[chunk|e] reader]; cbn [BatchPredict.main_loop].
  - cbn. split; [reflexivity|]. split; [done|].
    exists tcol0. split; [done | constructor].
  - change (0 =? 0)%nat with true.
    destruct (BatchPredict._detect_text_col chunk text_col) as [tcol|e]
      eqn:Hdetect; cbn [mbind result_bind bind].
    + destruct (BatchPredict.score_chunk vectorizer model threshold tcol chunk)
        as [out_chunk|e] eqn:Hscore; cbn [mbind result_bind bind].
      * cbn [BatchPredict._write_chunk negb app].
        destruct (main_loop_later vectorizer model text_col threshold tcol
                    reader 0 [(true, out_chunk)])
          as (new & Hfile & Hflags & Hall & Hend).
        cbv zeta in *. rewrite Hfile. cbn [app length fmap list_fmap fst].
        split; [cbn; now rewrite Hflags|].
        split; [rewrite Hend; cbn; lia|].
        exists tcol. split; [intros _; now exists chunk|].
        cbn. constructor; [now exists chunk | exact Hall].
      * cbn. split; [reflexivity|]. split; [split; discriminate|].
        exists tcol. split; [done | constructor].
    + cbn. split; [reflexivity|]. split; [split; discriminate|].
      exists tcol0. split; [done | constructor].
  - cbn. split; [reflexivity|]. split; [split; discriminate|].
    exists tcol0. split; [done | constructor].
Qed.

(** X14.  The output file starts with the column names and never repeats
    them: of the chunks a run has appended, the first was written with
    the header and every later one without, whatever the model file, the
    input and the way the run ended. *)
Theorem header_written_once (obj : loaded Features) (input_path : str)
    (text_col : option str) (chunksize : Z) (threshold : option float) :
  let run := BatchPredict.main obj input_path text_col chunksize threshold in
  run.1.*1 = header_flags (length run.1).
Proof.
  unfold BatchPredict.main.
  destruct obj as [|[vectorizer|] [model|]]; try reflexivity.
  destruct (BatchPredict._iter_csv input_path chunksize) as [reader|e];
    [|reflexivity].
  apply main_loop_first.
Qed.

(** X15.  The chunks are scored and written in the order they are read,
    none skipped, all with the text column found in the first chunk: the
    output holds one scored chunk for each chunk of a prefix of the input;
    the run ends without an exception exactly when that prefix is the
    whole input, and otherwise what was written before stays in the
    file. *)
Theorem chunks_written_in_order (obj : loaded Features) (input_path : str)
    (text_col : option str) (chunksize : Z) (threshold : option float)
    (vectorizer : Vectorizer Features) (model : Classifier Features)
    (reader : TextFileReader) :
  obj = Dict (Some vectorizer) (Some model) ->
  BatchPredict._iter_csv input_path chunksize = Ok reader ->
  let run := BatchPredict.main obj input_path text_col chunksize threshold in
  (run.2 = Ok () <-> length run.1 = length reader) /\
  exists tcol,
    (run.1 <> [] ->
     exists first, head reader = Some (Ok first) /\
       BatchPredict._detect_text_col first text_col = Ok tcol) /\
    Forall2
      (fun r entry =>
         exists chunk, r = Ok chunk /\
           BatchPredict.score_chunk vectorizer model threshold tcol chunk
           = Ok entry.2)
      (take (length run.1) reader) run.1.
Proof.
  intros -> Hopen. unfold BatchPredict.main. rewrite Hopen.
  apply (main_loop_first vectorizer model text_col threshold reader []).
Qed.

End CliOutput.

(** X15 on the run over [inbox.csv]: one chunk read, one written, no
    exception. *)
Lemma chunks_written_in_order_witness :
  let run := @BatchPredict.main Demo.runtime _
               (Dict (Some Demo.toy_vectorizer) (Some (Sk.model Demo.bundle)))
               (py "inbox.csv") None 5000 (Some 0.5%float) in
  exists reader,
    @BatchPredict._iter_csv Demo.runtime (py "inbox.csv") 5000 = Ok reader /\
    (run.2 = Ok () <-> length run.1 = length reader).
Proof.
  cbv zeta.
  assert (Hopen : @BatchPredict._iter_csv Demo.runtime (py "inbox.csv") 5000
                  = Ok [Ok {| nrows := 1;
                              data := [(py "text", [CStr [99; 97; 102; 233]%N])] |}])
    by (vm_compute; reflexivity).
  eexists. split; [exact Hopen|].
  exact (proj1 (@chunks_written_in_order Demo.runtime _
                  (Dict (Some Demo.toy_vectorizer) (Some (Sk.model Demo.bundle)))
                  (py "inbox.csv") None 5000 (Some 0.5%float)
                  Demo.toy_vectorizer (Sk.model Demo.bundle) _
                  eq_refl Hopen)).
Defined.

(* ===================================================================== *)
(** * The offline batch scorer: the shape of a scored chunk *)
(* ===================================================================== *)

Lemma columns_assign_filter (name : str) (v : list cell)
    (d : list (str * list cell)) :
  (assign name v d).*1 = d.*1 ++ filter (fun c => c ∉ d.*1) [name].
Proof.
  rewrite columns_assign, filter_cons, filter_nil.
  destruct (decide (name ∈ d.*1)) as [Hin|Hin].
  - rewrite bool_decide_eq_true_2 by exact Hin.
    rewrite decide_False by tauto. now rewrite app_nil_r.
  - rewrite bool_decide_eq_false_2 by exact Hin.
    now rewrite decide_True by exact Hin.
Qed.

Lemma filter_agree {A} (P Q : A -> Prop) `{!forall x, Decision (P x)}
    `{!forall x, Decision (Q x)} (l : list A) :
  (forall x, x ∈ l -> (P x <-> Q x)) -> filter P l = filter Q l.
Proof.
  induction l as [|a l IH]; intros Hagree; [reflexivity|].
  rewrite !filter_cons.
  rewrite IH by (intros x Hx; apply Hagree; now apply list_elem_of_further).
  destruct (decide (P a)) as [Hp|Hp], (decide (Q a)) as [Hq|Hq];
    try reflexivity;
    exfalso; pose proof (Hagree a (list_elem_of_here _ _)); tauto.
Qed.

Lemma columns_added (names : list str) :
  NoDup names ->
  forall cols : list str,
    foldl (fun cs n => cs ++ filter (fun c => c ∉ cs) [n]) cols names
    = cols ++ filter (fun c => c ∉ cols) names.
Proof.
  induction 1 as [|a names Hfresh Hnd IH]; intros cols; cbn [foldl].
  - now rewrite filter_nil, app_nil_r.
  - rewrite IH. rewrite (filter_cons _ a names), (filter_cons _ a []), filter_nil.
    destruct (decide (a ∉ cols)) as [Hnew|Hold].
    + rewrite <- app_assoc. cbn. do 2 f_equal.
      apply filter_agree. intros c Hc.
      rewrite elem_of_app, list_elem_of_singleton.
      split; [tauto|]. intros Hcols [Hin | ->]; tauto.
    + now rewrite app_nil_r.
Qed.

Lemma assign_frame_ok (n : nat) (name : str) (v : list cell)
    (d : list (str * list cell)) :
  length v = n ->
  Forall (fun c => length c.2 = n) d ->
  Forall (fun c => length c.2 = n) (assign name v d).
Proof.
  intros Hv. induction 1 as [|[c w] d Hc Hd IH]; cbn.
  - constructor; [exact Hv | constructor].
  - destruct (str_eqb c name); constructor; assumption.
Qed.

Lemma setcol_shape (df df' : DataFrame) (name : str) (v : list cell) :
  data df <> [] ->
  setcol df name v = Ok df' ->
  nrows df' = nrows df /\
  data df' = assign name v (data df) /\
  length v = nrows df.
Proof.
  unfold setcol. intros Hne.
  destruct (data df) as [|c d] eqn:Hdata; [done|].
  destruct (length v =? nrows df)%nat eqn:Hlen; [|discriminate].
  apply Nat.eqb_eq in Hlen. intros [= <-]. cbn. auto.
Qed.

Lemma getcol_nonempty (df : DataFrame) (name : str) (v : list cell) :
  getcol df name = Ok v -> data df <> [].
Proof. unfold getcol. now destruct (data df). Qed.

Section ChunkShape.

Context `{Runtime} {Features : Type}.

(** X16.  Scoring a chunk keeps what was read: the scored chunk has the
    rows of the input chunk and its columns in their order; [pred],
    [proba_spam] and, with a threshold, [pred_thresholded] are added at
    the end in this order unless the input already has a column of that
    name, which is then overwritten in place; every other column is
    unchanged, and the columns stay as long as the chunk has rows. *)
Theorem scored_chunk_shape (vectorizer : Vectorizer Features)
    (model : Classifier Features) (threshold : option float) (tcol : str)
    (chunk out_chunk : DataFrame) :
  BatchPredict.score_chunk vectorizer model threshold tcol chunk = Ok out_chunk ->
  let added :=
    [py "pred"; py "proba_spam"]
    ++ match threshold with
       | Some _ => [py "pred_thresholded"]
       | None => []
       end in
  nrows out_chunk = nrows chunk /\
  columns out_chunk
  = columns chunk ++ filter (fun c => c ∉ columns chunk) added /\
  (forall c, c ∉ added ->
     lookup_column c (data out_chunk) = lookup_column c (data chunk)) /\
  (frame_ok chunk -> frame_ok out_chunk).
Proof.
  unfold BatchPredict.score_chunk. intros Hscore.
  destruct (getcol chunk tcol) as [cells|e] eqn:Hcells; [|discriminate].
  cbn [mbind result_bind bind] in Hscore.
  destruct (BatchPredict.chunk_proba_spam _ _ _) as [ps|e]; [|discriminate].
  cbn [mbind result_bind bind] in Hscore.
  destruct (setcol chunk (py "pred") _) as [df1|e] eqn:H1; [|discriminate].
  cbn [mbind result_bind bind] in Hscore.
  destruct (setcol df1 (py "proba_spam") _) as [df2|e] eqn:H2; [|discriminate].
  cbn [mbind result_bind bind] in Hscore.
  apply getcol_nonempty in Hcells.
  apply setcol_shape in H1 as (Hrows1 & Hdata1 & Hlen1); [|exact Hcells].
  assert (Hne1 : data df1 <> [])
    by (rewrite Hdata1; apply assign_nonempty).
  apply setcol_shape in H2 as (Hrows2 & Hdata2 & Hlen2); [|exact Hne1].
  assert (Hne2 : data df2 <> [])
    by (rewrite Hdata2; apply assign_nonempty).
  destruct threshold as [thr|]; cbv zeta.
  - destruct (getcol df2 (py "proba_spam")) as [cs|e]; [|discriminate].
    cbn [mbind result_bind bind] in Hscore.
    apply setcol_shape in Hscore as (Hrows3 & Hdata3 & Hlen3); [|exact Hne2].
    split; [congruence|]. split; [|split].
    + unfold columns. rewrite Hdata3, Hdata2, Hdata1.
      rewrite !columns_assign_filter.
      apply (columns_added [py "pred"; py "proba_spam"; py "pred_thresholded"]).
      apply (bool_decide_unpack _). vm_compute. exact I.
    + intros c Hc. rewrite Hdata3, Hdata2, Hdata1.
      rewrite !lookup_assign_other; [reflexivity | | |];
        intros ->; apply Hc;
        apply (bool_decide_unpack _); vm_compute; exact I.
    + unfold frame_ok. rewrite Hdata3, Hdata2, Hdata1, Hrows3, Hrows2, Hrows1.
      intros Hok.
      repeat (apply assign_frame_ok; [congruence|]). exact Hok.
  - injection Hscore as <-.
    split; [congruence|]. split; [|split].
    + unfold columns. rewrite Hdata2, Hdata1.
      rewrite !columns_assign_filter.
      apply (columns_added [py "pred"; py "proba_spam"]).
      apply (bool_decide_unpack _). vm_compute. exact I.
    + intros c Hc. rewrite Hdata2, Hdata1.
      rewrite !lookup_assign_other; [reflexivity | |];
        intros ->; apply Hc;
        apply (bool_decide_unpack _); vm_compute; exact I.
    + unfold frame_ok. rewrite Hdata2, Hdata1, Hrows2, Hrows1.
      intros Hok.
      repeat (apply assign_frame_ok; [congruence|]). exact Hok.
Qed.

End ChunkShape.

(** A chunk that already has a column [pred]: it is overwritten where it
    stands, and [sender] is left alone. *)
Example labelled_chunk_scored :
  @BatchPredict.score_chunk Demo.runtime _ Demo.toy_vectorizer
    (Sk.model Demo.bundle) None (py "text") labelled_frame
  = Ok {| nrows := 2;
          data := [ (py "pred", [CStr (py "ham"); CStr (py "spam")]);
                    (py "text", [CStr (py "see you at 5");
                                 CStr (py "You won a FREE vacation, click now!")]);
                    (py "sender", [CInt 1; CInt 2]);
                    (py "proba_spam", [CFloat 0.2; CFloat 0.6]) ] |}.
Proof. vm_compute. reflexivity. Qed.

(** X16 on that chunk. *)
Lemma scored_chunk_shape_witness :
  exists out_chunk,
    nrows out_chunk = 2%nat /\
    columns out_chunk
    = [py "pred"; py "text"; py "sender"; py "proba_spam"].
Proof.
  eexists.
  destruct (@scored_chunk_shape Demo.runtime _ Demo.toy_vectorizer
              (Sk.model Demo.bundle) None (py "text") labelled_frame _
              labelled_chunk_scored) as (Hrows & Hcols & _).
  split; [exact Hrows|]. rewrite Hcols. vm_compute. reflexivity.
Defined.

(* ===================================================================== *)
(** * The interface: labels, counts and the threshold on show *)
(* ===================================================================== *)

Lemma demo_lower_is_ascii : @lower_is_ascii Demo.runtime.
Proof. intros s _. reflexivity. Qed.

Lemma apply_normalize_label_length `{Runtime} (col : list cell)
    (labels : list str) :
  Ui.apply_normalize_label col = inl labels -> length labels = length col.
Proof.
  revert labels. induction col as [|c col IH]; intros labels; cbn.
  - now intros [= <-].
  - destruct (Ui.normalize_label c) as [l|e]; [|discriminate].
    destruct (Ui.apply_normalize_label col) as [ls|e]; [|discriminate].
    intros [= <-]. cbn. f_equal. now apply IH.
Qed.

Lemma count_eq_disjoint (x y : str) (labels : list str) :
  x <> y ->
  (Ui.count_eq x labels + Ui.count_eq y labels <= length labels)%nat.
Proof.
  intros Hne. unfold Ui.count_eq.
  induction labels as [|l labels IH]; [cbn; lia|].
  rewrite !filter_cons. cbn [length].
  destruct (decide (l = x)) as [Hx|Hx]; destruct (decide (l = y)) as [Hy|Hy];
    cbn [length]; try lia. congruence.
Qed.

Lemma length_filter_split {A} (P : A -> Prop) `{!forall x, Decision (P x)}
    (l : list A) :
  (length (filter P l) + length (filter (fun x => ~ P x) l) = length l)%nat.
Proof.
  induction l as [|a l IH]; [reflexivity|].
  rewrite !filter_cons.
  destruct (decide (P a));
    [rewrite decide_False by tauto | rewrite decide_True by tauto];
    cbn [length]; lia.
Qed.

Section InterfaceLabels.

Context `{Runtime}.
Hypothesis lower : lower_is_ascii.

Lemma normalize_known (l : str) :
  l ∈ known_labels ->
  Ui.normalize_label (CStr l)
  = inl (if bool_decide (l ∈ [py "spam"; py "Spam"])
         then py "Spam" else py "Real").
Proof.
  intros Hl. unfold known_labels in Hl.
  assert (Hs : str_lower (py "spam") = py "spam")
    by (rewrite lower; [reflexivity|];
        apply (bool_decide_unpack _); vm_compute; exact I).
  assert (Hh : str_lower (py "ham") = py "ham")
    by (rewrite lower; [reflexivity|];
        apply (bool_decide_unpack _); vm_compute; exact I).
  assert (HS : str_lower (py "Spam") = py "spam")
    by (rewrite lower; [reflexivity|];
        apply (bool_decide_unpack _); vm_compute; exact I).
  assert (HR : str_lower (py "Real") = py "real")
    by (rewrite lower; [reflexivity|];
        apply (bool_decide_unpack _); vm_compute; exact I).
  list_cases Hl; subst l; unfold Ui.normalize_label; cbv zeta.
  - change (strip (py "spam")) with (py "spam"). rewrite Hs. reflexivity.
  - change (strip (py "ham")) with (py "ham"). rewrite Hh. reflexivity.
  - change (strip (py "Spam")) with (py "Spam"). rewrite HS. reflexivity.
  - change (strip (py "Real")) with (py "Real"). rewrite HR. reflexivity.
Qed.

(** X17.  Normalising a label twice is normalising it once: whatever
    [normalize_label] returns for an entry, it returns again for that
    result.  The display code relies on it, as it normalises the column
    [pred] before the dashboard normalises it once more. *)
Theorem normalize_label_idempotent (raw_label : cell) (l : str) :
  Ui.normalize_label raw_label = inl l ->
  Ui.normalize_label (CStr l) = inl l.
Proof.
  assert (Hspam : Ui.normalize_label (CStr (py "Spam")) = inl (py "Spam")).
  { rewrite normalize_known; [reflexivity|].
    apply (bool_decide_unpack _). vm_compute. exact I. }
  assert (Hreal : Ui.normalize_label (CStr (py "Real")) = inl (py "Real")).
  { rewrite normalize_known; [reflexivity|].
    apply (bool_decide_unpack _). vm_compute. exact I. }
  assert (Hempty : str_lower (strip []) = []).
  { change (strip []) with (@nil N). rewrite lower; [reflexivity | constructor]. }
  destruct raw_label as [s|f|z]; cbn [Ui.normalize_label]; cbv zeta.
  - destruct (str_eqb (str_lower (strip s)) (py "spam")) eqn:Hv1.
    { now intros [= <-]. }
    destruct (str_eqb (str_lower (strip s)) (py "ham")
              || str_eqb (str_lower (strip s)) (py "real")) eqn:Hv2.
    { now intros [= <-]. }
    intros [= <-]. cbn [Ui.normalize_label]. cbv zeta. now rewrite Hv1, Hv2.
  - destruct (Ui.cell_truthy (CFloat f)); [discriminate|].
    rewrite Hempty. cbn. intros [= <-].
    cbn [Ui.normalize_label]. cbv zeta. rewrite Hempty. reflexivity.
  - destruct (Ui.cell_truthy (CInt z)); [discriminate|].
    rewrite Hempty. cbn. intros [= <-].
    cbn [Ui.normalize_label]. cbv zeta. rewrite Hempty. reflexivity.
Qed.

Lemma apply_normalize_known (ls : list str) :
  Forall (fun l => l ∈ known_labels) ls ->
  Ui.apply_normalize_label (CStr <$> ls)
  = inl ((fun l => if bool_decide (l ∈ [py "spam"; py "Spam"])
                   then py "Spam" else py "Real") <$> ls).
Proof.
  induction 1 as [|l ls Hl _ IH]; [reflexivity|].
  cbn [fmap list_fmap Ui.apply_normalize_label].
  change (list_fmap str cell CStr ls) with (CStr <$> ls).
  now rewrite (normalize_known l Hl), IH.
Qed.

Lemma count_normalized (ls : list str) :
  Ui.count_eq (py "Spam")
    ((fun l => if bool_decide (l ∈ [py "spam"; py "Spam"])
               then py "Spam" else py "Real") <$> ls)
  = length (filter (fun l => l ∈ [py "spam"; py "Spam"]) ls) /\
  Ui.count_eq (py "Real")
    ((fun l => if bool_decide (l ∈ [py "spam"; py "Spam"])
               then py "Spam" else py "Real") <$> ls)
  = length (filter (fun l => l ∉ [py "spam"; py "Spam"]) ls).
Proof.
  unfold Ui.count_eq. induction ls as [|l ls [IHs IHr]]; [split; reflexivity|].
  cbn [fmap list_fmap]. rewrite !filter_cons.
  destruct (decide (l ∈ [py "spam"; py "Spam"])) as [Hin|Hout].
  - rewrite bool_decide_eq_true_2 by exact Hin.
    rewrite (decide_True (P := py "Spam" = py "Spam")) by reflexivity.
    rewrite (decide_False (P := py "Spam" = py "Real"))
      by (intros Heq; vm_compute in Heq; discriminate Heq).
    rewrite (decide_False (P := l ∉ _)) by tauto.
    cbn [length]. split; [f_equal; exact IHs | exact IHr].
  - rewrite bool_decide_eq_false_2 by exact Hout.
    rewrite (decide_False (P := py "Real" = py "Spam"))
      by (intros Heq; vm_compute in Heq; discriminate Heq).
    rewrite (decide_True (P := py "Real" = py "Real")) by reflexivity.
    rewrite (decide_True (P := l ∉ _)) by exact Hout.
    cbn [length]. split; [exact IHs | f_equal; exact IHr].
Qed.

(** X18.  The counts of the dashboard.  Whatever the table, [spam] and
    [real] together never exceed [total], and [total] is the number of
    entries of the column [pred].  When the column holds the labels the
    API writes ([spam], [ham]) or those the interface shows ([Spam],
    [Real]), no entry makes the call fail, [spam] counts the entries
    [spam] and [Spam], [real] counts the others, and the two add up to
    [total]. *)
Theorem dashboard_counts (df : DataFrame) :
  (forall m, Ui.compute_dashboard_metrics df = inl m ->
     (Ui.spam m + Ui.real m <= Ui.total m)%nat /\
     (Ui.df_empty df = false ->
      exists pred_column,
        lookup_column (py "pred") (data df) = Some pred_column /\
        Ui.total m = length pred_column)) /\
  (forall ls : list str,
     Ui.df_empty df = false ->
     lookup_column (py "pred") (data df) = Some (CStr <$> ls) ->
     Forall (fun l => l ∈ known_labels) ls ->
     exists m,
       Ui.compute_dashboard_metrics df = inl m /\
       Ui.total m = length ls /\
       Ui.spam m
       = length (filter (fun l => l ∈ [py "spam"; py "Spam"]) ls) /\
       Ui.real m
       = length (filter (fun l => l ∉ [py "spam"; py "Spam"]) ls) /\
       (Ui.spam m + Ui.real m = Ui.total m)%nat).
Proof.
  split.
  - intros m. unfold Ui.compute_dashboard_metrics.
    destruct (Ui.df_empty df).
    { intros [= <-]. cbn. split; [lia | discriminate]. }
    destruct (lookup_column (py "pred") (data df)) as [col|]; [|discriminate].
    destruct (Ui.apply_normalize_label col) as [labels|e] eqn:Happly;
      [|discriminate].
    intros [= <-]. cbn. split.
    + apply count_eq_disjoint. intros Heq. vm_compute in Heq. discriminate Heq.
    + intros _. exists col. split; [reflexivity|].
      now apply apply_normalize_label_length.
  - intros ls Hne Hcol Hknown. unfold Ui.compute_dashboard_metrics.
    rewrite Hne, Hcol, (apply_normalize_known ls Hknown).
    eexists. split; [reflexivity|]. cbn [Ui.total Ui.spam Ui.real].
    destruct (count_normalized ls) as [-> ->].
    rewrite length_fmap. split; [reflexivity|]. split; [reflexivity|].
    split; [reflexivity|]. apply length_filter_split.
Qed.

End InterfaceLabels.

(** X17 on the entry [ SPAM ] of a column: it is shown as [Spam], and so
    is [Spam]. *)
Lemma normalize_label_idempotent_witness :
  @Ui.normalize_label Demo.runtime (CStr (py " SPAM ")) = inl (py "Spam") /\
  @Ui.normalize_label Demo.runtime (CStr (py "Spam")) = inl (py "Spam").
Proof.
  assert (Hfirst : @Ui.normalize_label Demo.runtime (CStr (py " SPAM "))
                   = inl (py "Spam")) by (vm_compute; reflexivity).
  split; [exact Hfirst|].
  exact (@normalize_label_idempotent Demo.runtime demo_lower_is_ascii
           (CStr (py " SPAM ")) (py "Spam") Hfirst).
Defined.

(** X18 on the scored [inbox.csv]: one message, not spam. *)
Lemma dashboard_counts_witness :
  exists m,
    @Ui.compute_dashboard_metrics Demo.runtime inbox_scored = inl m /\
    Ui.total m = 1%nat /\ Ui.spam m = 0%nat /\ Ui.real m = 1%nat.
Proof.
  destruct (proj2 (@dashboard_counts Demo.runtime demo_lower_is_ascii
                     inbox_scored) [py "ham"])
    as (m & Hm & Htotal & Hspam & Hreal & _).
  - reflexivity.
  - vm_compute. reflexivity.
  - constructor; [|constructor].
    apply (bool_decide_unpack _). vm_compute. exact I.
  - exists m. split; [exact Hm|]. split; [exact Htotal|].
    split; [rewrite Hspam | rewrite Hreal]; vm_compute; reflexivity.
Defined.

(** An entry that is a number other than zero stops the dashboard, a
    missing column [pred] too. *)
Example dashboard_failures :
  @Ui.compute_dashboard_metrics Demo.runtime
    {| nrows := 1; data := [(py "pred", [CInt 1])] |} = inr Ui.NotAString /\
  @Ui.compute_dashboard_metrics Demo.runtime (text_frame [py "hello"])
  = inr Ui.NoSuchColumn /\
  @Ui.compute_dashboard_metrics Demo.runtime (text_frame [])
  = inl {| Ui.total := 0; Ui.spam := 0; Ui.real := 0; Ui.spam_rate := 0 |}.
Proof. repeat split; vm_compute; reflexivity. Qed.

Section InterfaceProfiles.

Context `{Runtime} `{Settings}.

(** X19.  The threshold on show is the threshold applied.  With the
    listing of GET /profiles, a key of the listing (written in lower case,
    so that [lower()] leaves it alone) selects the entry of that key,
    whatever label the session remembers and whatever the default key is,
    and the threshold of that entry is the one the API resolves for a
    request that names the key. *)
Theorem shown_threshold_is_applied (active_label : option str) (key : str) :
  let page := Ui.bootstrap (Ui.fetch_profiles (Some list_profiles)) in
  let shown := Ui.get_profile_by_key active_label page.1 key page.2 in
  key ∈ entry_key <$> listed_profiles list_profiles ->
  str_lower key = key ->
  Ui.p_key shown = Some key /\
  Ui.p_threshold shown = Some (resolve_threshold (Some key)).
Proof.
  cbv zeta. intros Hkey Hlower.
  cbn [list_profiles listed_profiles fmap list_fmap PROFILE_DEFINITIONS fst snd
       label threshold description entry_key] in Hkey.
  list_cases Hkey; subst key;
    (split; [vm_compute; reflexivity|]);
    lazymatch goal with
    | |- ?L = _ => let L' := eval vm_compute in L in change L with L'
    end;
    f_equal; symmetry; apply resolve_threshold_hit; try reflexivity;
    unfold canonical_key; rewrite Hlower; vm_compute; reflexivity.
Qed.

End InterfaceProfiles.

(** X19 for the key [bank]. *)
Lemma shown_threshold_is_applied_witness :
  let page := Ui.bootstrap
                (Ui.fetch_profiles
                   (Some (@list_profiles Demo.runtime Demo.settings))) in
  Ui.p_threshold
    (Ui.get_profile_by_key (Some (py "Balanced (general use)")) page.1
       (py "bank") page.2)
  = Some (@resolve_threshold Demo.runtime Demo.settings (Some (py "bank"))).
Proof.
  cbv zeta.
  refine (proj2 (@shown_threshold_is_applied Demo.runtime Demo.settings
                   (Some (py "Balanced (general use)")) (py "bank") _ _)).
  - apply (bool_decide_unpack _). vm_compute. exact I.
  - reflexivity.
Defined.

(** With [SYSTEM_PROFILE=Newsletter] the default key of the page is the
    alias [newsletter], which no entry of the listing has: the profile on
    show is the built-in one with 0.40, while the API works with the 0.45
    of [marketing]. *)
Example alias_as_system_profile :
  let listing := @list_profiles Demo.runtime settings_invalid_override in
  let page := Ui.bootstrap (Ui.fetch_profiles (Some listing)) in
  page.2 = py "newsletter" /\
  Ui.p_threshold (Ui.get_active_profile None page.1 page.2) = Some 0.40%float /\
  listed_default_threshold listing = 0.45%float.
Proof. repeat split; vm_compute; reflexivity. Qed.

(* ===================================================================== *)
(** * Cleaning a message *)
(* ===================================================================== *)

Lemma token_char_range (c : N) :
  Preprocess.is_token_char c = true -> (48 <= c <= 122)%N.
Proof.
  unfold Preprocess.is_token_char. intros Hc.
  repeat (apply orb_prop in Hc as [Hc|Hc]);
    apply andb_prop in Hc as [Hlo Hhi];
    apply N.leb_le in Hlo, Hhi; lia.
Qed.

Lemma isspace_range (c : N) : isspace c = true -> (c <= 32 \/ 133 <= c)%N.
Proof.
  unfold isspace. intros Hc.
  repeat (apply orb_prop in Hc as [Hc|Hc]);
    try (apply andb_prop in Hc as [Hlo Hhi]; apply N.leb_le in Hlo, Hhi; lia);
    apply N.eqb_eq in Hc; lia.
Qed.

Lemma token_char_not_space (c : N) :
  Preprocess.is_token_char c = true -> isspace c = false.
Proof.
  intros Hc. apply token_char_range in Hc.
  destruct (isspace c) eqn:Hs; [|reflexivity].
  apply isspace_range in Hs. lia.
Qed.

Lemma word_char_of_token (c : N) :
  Preprocess.is_token_char c = true -> ~ (65 <= c <= 90)%N ->
  is_word_char c = true.
Proof.
  unfold Preprocess.is_token_char, is_word_char. intros Hc Hsmall.
  apply orb_prop in Hc as [Hc|Hc]; [apply orb_prop in Hc as [Hc|Hc]|].
  - now rewrite Hc.
  - apply andb_prop in Hc as [Hlo Hhi]. apply N.leb_le in Hlo, Hhi. lia.
  - rewrite Hc. apply orb_true_r.
Qed.

Lemma word_char_is_token (c : N) :
  is_word_char c = true -> Preprocess.is_token_char c = true.
Proof.
  unfold Preprocess.is_token_char, is_word_char. intros Hc.
  apply orb_prop in Hc as [Hc|Hc]; rewrite Hc; [reflexivity|].
  apply orb_true_r.
Qed.

Lemma word_char_small (c : N) :
  is_word_char c = true -> ((65 <=? c) && (c <=? 90))%N = false.
Proof.
  unfold is_word_char. intros Hc.
  apply andb_false_iff.
  apply orb_prop in Hc as [Hc|Hc]; apply andb_prop in Hc as [Hlo Hhi];
    apply N.leb_le in Hlo, Hhi; [left | right]; apply N.leb_gt; lia.
Qed.

Lemma URL_RE_sub_from_Forall (P : N -> Prop) (s : str) :
  P 32%N -> Forall P s ->
  forall in_match, Forall P (Preprocess.URL_RE_sub_from in_match s).
Proof.
  intros Hspace. induction 1 as [|c s Hc Hs IH]; intros in_match;
    cbn [Preprocess.URL_RE_sub_from]; [constructor|].
  destruct in_match.
  - destruct (isspace c); [constructor|]; auto.
  - destruct (Preprocess.url_starts (c :: s)); constructor; auto.
Qed.

Lemma HTML_RE_sub_from_Forall (P : N -> Prop) (s : str) :
  P 32%N -> Forall P s ->
  forall in_match, Forall P (Preprocess.HTML_RE_sub_from in_match s).
Proof.
  intros Hspace. induction 1 as [|c s Hc Hs IH]; intros in_match;
    cbn [Preprocess.HTML_RE_sub_from]; [constructor|].
  destruct in_match.
  - destruct (c =? 62)%N; auto.
  - destruct (Preprocess.tag_starts (c :: s)); constructor; auto.
Qed.

Lemma findall_from_Forall (P : N -> Prop) (s : str) :
  Forall P s ->
  forall cur, Forall P cur ->
    Forall (Forall P) (Preprocess.TOK_RE_findall_from cur s).
Proof.
  induction 1 as [|c s Hc Hs IH]; intros cur Hcur;
    cbn [Preprocess.TOK_RE_findall_from].
  - destruct cur; [constructor|]. constructor; [|constructor].
    now apply Forall_rev.
  - destruct (Preprocess.is_token_char c).
    + apply IH. now constructor.
    + destruct cur; [now apply IH|].
      constructor; [now apply Forall_rev | apply IH; constructor].
Qed.

Lemma findall_from_tokens (s : str) :
  forall cur,
    Forall (fun c => Preprocess.is_token_char c = true) cur ->
    Forall (fun tok => tok <> [] /\
                       Forall (fun c => Preprocess.is_token_char c = true) tok)
      (Preprocess.TOK_RE_findall_from cur s).
Proof.
  assert (Hrev : forall (c : N) (cur : str), rev (c :: cur) <> []).
  { intros c cur Heq. apply (f_equal (@length N)) in Heq.
    rewrite length_rev in Heq. discriminate Heq. }
  induction s as [|c s IH]; intros cur Hcur;
    cbn [Preprocess.TOK_RE_findall_from].
  - destruct cur as [|d cur]; [constructor|]. constructor; [|constructor].
    split; [apply Hrev | now apply Forall_rev].
  - destruct (Preprocess.is_token_char c) eqn:Hc.
    + apply IH. now constructor.
    + destruct cur as [|d cur]; [apply IH; constructor|].
      constructor; [|apply IH; constructor].
      split; [apply Hrev | now apply Forall_rev].
Qed.

Lemma findall_from_run (tok : str) :
  Forall (fun c => Preprocess.is_token_char c = true) tok ->
  forall cur rest,
    Preprocess.TOK_RE_findall_from cur (tok ++ rest)
    = Preprocess.TOK_RE_findall_from (rev tok ++ cur) rest.
Proof.
  induction 1 as [|c tok Hc Htok IH]; intros cur rest; [reflexivity|].
  cbn [app Preprocess.TOK_RE_findall_from]. rewrite Hc, IH.
  cbn [rev]. now rewrite <- app_assoc.
Qed.

(** Tokens joined by single spaces are found again, one by one. *)
Lemma findall_join (tokens : list str) :
  Forall (fun tok => tok <> [] /\
                     Forall (fun c => Preprocess.is_token_char c = true) tok)
    tokens ->
  Preprocess.TOK_RE_findall (Preprocess.join [32%N] tokens) = tokens.
Proof.
  unfold Preprocess.TOK_RE_findall.
  induction 1 as [|p tokens [Hne Hp] Htokens IH]; [reflexivity|].
  assert (Hrev : rev p <> []).
  { intros Heq. apply Hne. apply (f_equal (@rev N)) in Heq.
    now rewrite rev_involutive in Heq. }
  cbn [Preprocess.join]. destruct tokens as [|q tokens].
  - rewrite <- (app_nil_r p) at 1. rewrite (findall_from_run p Hp).
    rewrite app_nil_r. cbn [Preprocess.TOK_RE_findall_from].
    destruct (rev p) eqn:Hp'; [done|]. rewrite <- Hp'.
    now rewrite rev_involutive.
  - rewrite (findall_from_run p Hp). rewrite app_nil_r.
    cbn [app Preprocess.TOK_RE_findall_from].
    change (Preprocess.is_token_char 32) with false. cbv iota.
    destruct (rev p) eqn:Hp'; [done|]. rewrite <- Hp'.
    rewrite rev_involutive. f_equal. exact IH.
Qed.

Lemma join_chars (P : N -> Prop) (tokens : list str) :
  P 32%N -> Forall (Forall P) tokens ->
  Forall P (Preprocess.join [32%N] tokens).
Proof.
  intros Hspace. induction 1 as [|p tokens Hp Htokens IH]; [constructor|].
  cbn [Preprocess.join]. destruct tokens as [|q tokens]; [exact Hp|].
  apply Forall_app. split; [exact Hp|]. constructor; [exact Hspace | exact IH].
Qed.

Lemma join_starts_clean (tokens : list str) :
  Forall (fun tok => tok <> [] /\
                     Forall (fun c => Preprocess.is_token_char c = true) tok)
    tokens ->
  starts_clean (Preprocess.join [32%N] tokens).
Proof.
  destruct 1 as [|p tokens [Hne Hp] _]; [exact I|].
  cbn [Preprocess.join].
  destruct p as [|c p]; [done|]. inversion Hp as [|? ? Hc _]; subst.
  destruct tokens; cbn; now apply token_char_not_space.
Qed.

Lemma rev_join (tokens : list str) :
  rev (Preprocess.join [32%N] tokens)
  = Preprocess.join [32%N] (rev (@rev N <$> tokens)).
Proof.
  assert (Hsnoc : forall (parts : list str) (p : str),
            parts <> [] ->
            Preprocess.join [32%N] (parts ++ [p])
            = Preprocess.join [32%N] parts ++ [32%N] ++ p).
  { induction parts as [|q parts IH]; intros p Hne; [done|].
    destruct parts as [|r parts]; [reflexivity|].
    change (Preprocess.join [32%N] ((q :: r :: parts) ++ [p]))
      with (q ++ [32%N] ++ Preprocess.join [32%N] ((r :: parts) ++ [p])).
    rewrite IH by discriminate.
    change (Preprocess.join [32%N] (q :: r :: parts))
      with (q ++ [32%N] ++ Preprocess.join [32%N] (r :: parts)).
    now rewrite <- !app_assoc. }
  induction tokens as [|p tokens IH]; [reflexivity|].
  destruct tokens as [|q tokens]; [reflexivity|].
  change (Preprocess.join [32%N] (p :: q :: tokens))
    with (p ++ [32%N] ++ Preprocess.join [32%N] (q :: tokens)).
  rewrite !rev_app_distr, IH.
  change (@rev N <$> p :: q :: tokens) with (rev p :: (@rev N <$> q :: tokens)).
  cbn [rev]. rewrite Hsnoc; [now rewrite <- app_assoc|].
  change (@rev N <$> q :: tokens) with (rev q :: (@rev N <$> tokens)).
  cbn [rev]. intros Heq. now apply app_eq_nil in Heq as [_ Heq].
Qed.

Lemma join_strip (tokens : list str) :
  Forall (fun tok => tok <> [] /\
                     Forall (fun c => Preprocess.is_token_char c = true) tok)
    tokens ->
  strip (Preprocess.join [32%N] tokens) = Preprocess.join [32%N] tokens.
Proof.
  intros Htokens. apply strip_fixed; [now apply join_starts_clean|].
  rewrite rev_join. apply join_starts_clean.
  apply Forall_rev. apply Forall_fmap. eapply Forall_impl; [exact Htokens|].
  intros tok [Hne Htok]. cbn. split; [|now apply Forall_rev].
  intros Heq. apply Hne. apply (f_equal (@rev N)) in Heq.
  now rewrite rev_involutive in Heq.
Qed.

Lemma after_prefix_Some (p s rest : str) :
  Preprocess.after_prefix p s = Some rest -> s = p ++ rest.
Proof.
  revert s. induction p as [|a p IH]; intros s; cbn.
  - now intros [= ->].
  - destruct s as [|b s]; [discriminate|].
    destruct (N.eqb_spec a b) as [->|]; [|discriminate].
    intros Hrest. now rewrite (IH s Hrest).
Qed.

Lemma url_starts_marks (s : str) :
  Preprocess.url_starts s = true -> 58%N ∈ s \/ 46%N ∈ s.
Proof.
  assert (Hfollows : forall p, Preprocess.nonspace_follows
                                 (Preprocess.after_prefix p s) = true ->
                               exists rest, s = p ++ rest).
  { intros p. destruct (Preprocess.after_prefix p s) as [rest|] eqn:Hp;
      [|discriminate].
    intros _. exists rest. now apply after_prefix_Some. }
  unfold Preprocess.url_starts. intros Hs.
  apply orb_prop in Hs as [Hs|Hs]; [apply orb_prop in Hs as [Hs|Hs]|];
    apply Hfollows in Hs as [rest ->]; [left | left | right];
    apply elem_of_app; left;
    apply (bool_decide_unpack _); vm_compute; exact I.
Qed.

Lemma URL_RE_sub_plain (s : str) :
  Forall (fun c => c <> 58%N /\ c <> 46%N) s -> Preprocess.URL_RE_sub s = s.
Proof.
  unfold Preprocess.URL_RE_sub.
  induction 1 as [|c s Hc Hs IH]; [reflexivity|].
  cbn [Preprocess.URL_RE_sub_from].
  destruct (Preprocess.url_starts (c :: s)) eqn:Hurl; [|now rewrite IH].
  exfalso. apply url_starts_marks in Hurl.
  assert (Hall : Forall (fun c => c <> 58%N /\ c <> 46%N) (c :: s))
    by now constructor.
  rewrite Forall_forall in Hall.
  destruct Hurl as [Hin|Hin]; apply Hall in Hin; tauto.
Qed.

Lemma HTML_RE_sub_plain (s : str) :
  Forall (fun c => c <> 60%N) s -> Preprocess.HTML_RE_sub s = s.
Proof.
  unfold Preprocess.HTML_RE_sub.
  induction 1 as [|c s Hc Hs IH]; [reflexivity|].
  cbn [Preprocess.HTML_RE_sub_from].
  destruct (Preprocess.tag_starts (c :: s)) eqn:Htag; [|now rewrite IH].
  exfalso. unfold Preprocess.tag_starts in Htag.
  destruct c as [|c]; [discriminate|].
  do 6 (destruct c as [c|c|]; try discriminate). now apply Hc.
Qed.

Lemma demo_lower_no_capitals : @lower_has_no_capitals Demo.runtime.
Proof.
  intros s. cbn. unfold Demo.ascii_lower. apply Forall_fmap, Forall_forall.
  intros c _. cbn.
  destruct ((65 <=? c) && (c <=? 90))%N eqn:Hc.
  - apply andb_prop in Hc as [Hlo Hhi]. apply N.leb_le in Hlo, Hhi. lia.
  - apply andb_false_iff in Hc as [Hc|Hc]; apply N.leb_gt in Hc; lia.
Qed.

Section CleanText.

Context `{Runtime}.

Lemma clean_text_tokens (s : cell) :
  lower_has_no_capitals ->
  exists words,
    Preprocess.clean_text s = Preprocess.join [32%N] words /\
    Forall (fun w => w <> [] /\
                     Forall (fun c => Preprocess.is_token_char c = true) w)
      words /\
    Forall (Forall (fun c => ~ (65 <= c <= 90)%N)) words.
Proof.
  intros Hlower. unfold Preprocess.clean_text. cbv zeta.
  eexists. split; [reflexivity|]. split.
  - apply findall_from_tokens. constructor.
  - apply findall_from_Forall; [|constructor].
    apply HTML_RE_sub_from_Forall; [lia|].
    apply URL_RE_sub_from_Forall; [lia|]. apply Hlower.
Qed.

Lemma clean_text_words (s : cell) :
  lower_has_no_capitals ->
  exists words,
    spaced_words words (Preprocess.clean_text s) /\
    Forall (fun w => w <> [] /\
                     Forall (fun c => Preprocess.is_token_char c = true) w)
      words.
Proof.
  intros Hlower.
  destruct (clean_text_tokens s Hlower) as (words & Hjoin & Htok & Hsmall).
  exists words. split; [|exact Htok]. split; [exact Hjoin|].
  apply Forall_forall. intros w Hw.
  rewrite Forall_forall in Htok, Hsmall.
  destruct (Htok w Hw) as [Hne Hchars]. split; [exact Hne|].
  specialize (Hsmall w Hw). rewrite Forall_forall in Hchars, Hsmall.
  apply Forall_forall. intros c Hc.
  apply word_char_of_token; auto.
Qed.

(** X20.  What [clean_text] returns.  The result is a sequence of words
    of small letters and digits with exactly one space between two words:
    no other character is left, no space at either end, and the words are
    found again by the token pattern. *)
Theorem clean_text_shape (s : cell) :
  lower_has_no_capitals ->
  exists words,
    spaced_words words (Preprocess.clean_text s) /\
    Preprocess.TOK_RE_findall (Preprocess.clean_text s) = words /\
    strip (Preprocess.clean_text s) = Preprocess.clean_text s /\
    Forall (fun c => is_word_char c = true \/ c = 32%N)
      (Preprocess.clean_text s).
Proof.
  intros Hlower.
  destruct (clean_text_words s Hlower) as (words & Hwords & Htok).
  exists words. split; [exact Hwords|].
  destruct Hwords as [Hjoin Hsmall]. rewrite Hjoin.
  split; [now apply findall_join|]. split; [now apply join_strip|].
  apply join_chars; [now right|].
  eapply Forall_impl; [exact Hsmall|]. intros w [_ Hw]. cbn.
  eapply Forall_impl; [exact Hw|]. intros c Hc. now left.
Qed.

(** X21.  Cleaning is idempotent: a cleaned message is left as it is by
    a second cleaning. *)
Theorem clean_text_idempotent (s : cell) :
  lower_is_ascii ->
  lower_has_no_capitals ->
  Preprocess.clean_text (CStr (Preprocess.clean_text s))
  = Preprocess.clean_text s.
Proof.
  intros Hascii Hlower.
  destruct (clean_text_words s Hlower) as (words & [Hjoin Hsmall] & Htok).
  assert (Hchars : Forall (fun c => is_word_char c = true \/ c = 32%N)
                     (Preprocess.clean_text s)).
  { rewrite Hjoin. apply join_chars; [now right|].
    eapply Forall_impl; [exact Hsmall|]. intros w [_ Hw]. cbn.
    eapply Forall_impl; [exact Hw|]. intros c Hc. now left. }
  assert (Hrange : forall c, is_word_char c = true \/ c = 32%N ->
                             (48 <= c <= 57 \/ 97 <= c <= 122 \/ c = 32)%N).
  { intros c [Hc| ->]; [|now right; right].
    unfold is_word_char in Hc.
    apply orb_prop in Hc as [Hc|Hc]; apply andb_prop in Hc as [Hlo Hhi];
      apply N.leb_le in Hlo, Hhi; lia. }
  assert (Hsame : str_lower (Preprocess.clean_text s) = Preprocess.clean_text s).
  { rewrite Hascii.
    - apply ascii_lower_fixes_lower_case. apply forallb_forall.
      rewrite Forall_forall in Hchars. intros c Hc.
      apply list_elem_of_In, Hchars in Hc as [Hc| ->]; [|reflexivity].
      now rewrite (word_char_small c Hc).
    - eapply Forall_impl; [exact Hchars|]. intros c Hc.
      apply Hrange in Hc. lia. }
  unfold Preprocess.clean_text at 1. cbv zeta. cbn [py_str].
  rewrite Hsame, URL_RE_sub_plain, HTML_RE_sub_plain.
  - rewrite Hjoin at 1. rewrite (findall_join words Htok). now rewrite Hjoin.
  - eapply Forall_impl; [exact Hchars|]. intros c Hc. apply Hrange in Hc. lia.
  - eapply Forall_impl; [exact Hchars|]. intros c Hc. apply Hrange in Hc. lia.
Qed.

End CleanText.

(** A message with a link, a tag and capitals. *)
Example clean_text_message :
  @Preprocess.clean_text Demo.runtime
    (CStr (py "WIN a <b>FREE</b> prize at http://spam.example/win?x=1 now!!"))
  = py "win a free prize at now".
Proof. vm_compute. reflexivity. Qed.

(** A number is cleaned as its text; [<>], a lone [<] and [www.] before
    a space are left to the token pattern; a link takes everything up to
    the next white space with it. *)
Example clean_text_edges :
  @Preprocess.clean_text Demo.runtime (CInt 42) = py "42" /\
  @Preprocess.clean_text Demo.runtime (CStr (py "a <> b < c www. d"))
  = py "a b c www d" /\
  @Preprocess.clean_text Demo.runtime (CStr (py "see www.x.org/y<br/>Tom&Co now"))
  = py "see now".
Proof. repeat split; vm_compute; reflexivity. Qed.

(** X20 on that message. *)
Lemma clean_text_shape_witness :
  strip (py "win a free prize at now") = py "win a free prize at now" /\
  Preprocess.TOK_RE_findall (py "win a free prize at now")
  = [py "win"; py "a"; py "free"; py "prize"; py "at"; py "now"].
Proof.
  destruct (@clean_text_shape Demo.runtime
              (CStr (py "WIN a <b>FREE</b> prize at http://spam.example/win?x=1 now!!"))
              demo_lower_no_capitals) as (words & _ & Hfind & Hstrip & _).
  rewrite clean_text_message in Hfind, Hstrip.
  split; [exact Hstrip | vm_compute; reflexivity].
Defined.

(** X21 on that message. *)
Lemma clean_text_idempotent_witness :
  @Preprocess.clean_text Demo.runtime (CStr (py "win a free prize at now"))
  = py "win a free prize at now".
Proof.
  pose proof (@clean_text_idempotent Demo.runtime
                (CStr (py "WIN a <b>FREE</b> prize at http://spam.example/win?x=1 now!!"))
                demo_lower_is_ascii demo_lower_no_capitals) as Hidem.
  rewrite clean_text_message in Hidem. exact Hidem.
Defined.

(* ===================================================================== *)
(** * Loading the training data *)
(* ===================================================================== *)

Lemma select_rows_fmap {A B} (f : A -> B) (mask : list bool) (l : list A) :
  Preprocess.select_rows mask (f <$> l) = f <$> Preprocess.select_rows mask l.
Proof.
  revert l. induction mask as [|b mask IH]; intros [|x l]; try reflexivity.
  cbn. destruct b; cbn; now rewrite IH.
Qed.

Lemma select_rows_zip {A B} (mask : list bool) (a : list A) (b : list B) :
  length a = length b ->
  zip (Preprocess.select_rows mask a) (Preprocess.select_rows mask b)
  = Preprocess.select_rows mask (zip a b).
Proof.
  revert a b. induction mask as [|m mask IH]; intros [|x a] [|y b] Hlen;
    try reflexivity; try discriminate Hlen.
  injection Hlen as Hlen. cbn. destruct m; cbn; now rewrite IH.
Qed.

Lemma select_rows_by (f : str * str -> bool) (l : list (str * str)) :
  Preprocess.select_rows (f <$> l) l = filter (fun r => f r = true) l.
Proof.
  induction l as [|x l IH]; [reflexivity|].
  cbn [fmap list_fmap Preprocess.select_rows]. rewrite filter_cons.
  change (list_fmap _ _ f l) with (f <$> l). rewrite IH.
  destruct (f x) eqn:Hx.
  - now rewrite decide_True by reflexivity.
  - now rewrite decide_False by discriminate.
Qed.

Lemma select_rows_length {A} (mask : list bool) (l : list A) :
  length mask = length l ->
  length (Preprocess.select_rows mask l)
  = length (filter (fun b => b = true) mask).
Proof.
  revert l. induction mask as [|b mask IH]; intros [|x l] Hlen;
    try reflexivity; try discriminate Hlen.
  injection Hlen as Hlen. cbn [Preprocess.select_rows]. rewrite filter_cons.
  destruct b.
  - rewrite decide_True by reflexivity. cbn. now rewrite IH.
  - rewrite decide_False by discriminate. now apply IH.
Qed.

Lemma first_occurrences_length (keys : list (str * str)) :
  forall seen, length (Preprocess.first_occurrences seen keys) = length keys.
Proof.
  induction keys as [|k keys IH]; intros seen; [reflexivity|].
  cbn. now rewrite IH.
Qed.

(** Keeping the first occurrences: no row twice, no row lost, the order
    kept. *)
Lemma first_occurrences_spec (keys : list (str * str)) :
  forall seen,
    let kept :=
      Preprocess.select_rows (Preprocess.first_occurrences seen keys) keys in
    NoDup kept /\
    (forall k, k ∈ kept <-> k ∈ keys /\ k ∉ seen) /\
    kept `sublist_of` keys.
Proof.
  induction keys as [|k keys IH]; intros seen; cbv zeta.
  - cbn. split; [constructor|]. split; [|constructor].
    intros k. split; [intros Hk | intros [Hk _]];
      now apply not_elem_of_nil in Hk.
  - cbn [Preprocess.first_occurrences Preprocess.select_rows].
    destruct (IH (k :: seen)) as (Hnd & Hin & Hsub).
    destruct (decide (k ∈ seen)) as [Hseen|Hnew].
    + rewrite bool_decide_eq_true_2 by exact Hseen. cbn [negb].
      split; [exact Hnd|]. split; [|now apply sublist_cons].
      intros k'. rewrite Hin, not_elem_of_cons, elem_of_cons.
      destruct (decide (k' = k)) as [->|Hne]; tauto.
    + rewrite bool_decide_eq_false_2 by exact Hnew. cbn [negb].
      split; [|split; [|now apply sublist_skip]].
      * apply NoDup_cons. split; [|exact Hnd].
        rewrite Hin, not_elem_of_cons. tauto.
      * intros k'. rewrite (elem_of_cons _ k' k), Hin, not_elem_of_cons,
          elem_of_cons.
        destruct (decide (k' = k)) as [->|Hne]; tauto.
Qed.

Lemma lookup_filter_rows (name : str) (mask : list bool) (df : DataFrame) :
  lookup_column name (data (Preprocess.filter_rows mask df))
  = Preprocess.select_rows mask <$> lookup_column name (data df).
Proof.
  unfold Preprocess.filter_rows. cbn [data].
  induction (data df) as [|[n w] d IH]; [reflexivity|].
  cbn. destruct (str_eqb n name); [reflexivity | exact IH].
Qed.

Section LoadAndClean.

Context `{Runtime}.

(** The rows of the file as [load_and_clean] sees them: the cleaned text
    and the label, stripped and in lower case. *)
Lemma load_and_clean_steps (df : DataFrame) (text_col label_col : str)
    (texts labels : list cell) :
  text_col <> label_col ->
  lookup_column text_col (data df) = Some texts ->
  lookup_column label_col (data df) = Some labels ->
  length texts = length labels ->
  let cleaned :=
    zip (Preprocess.clean_text <$> texts)
        ((fun c => str_lower (strip (py_str c))) <$> labels) in
  let nonempty := filter (fun r => (0 <? length r.1)%nat = true) cleaned in
  let rows :=
    Preprocess.select_rows (Preprocess.first_occurrences [] nonempty)
      nonempty in
  Preprocess.load_and_clean (Ok df) text_col label_col
  = Ok {| nrows := length rows;
          data := [(text_col, CStr <$> rows.*1);
                   (label_col, CStr <$> rows.*2)] |}.
Proof.
  intros Hne Htexts Hlabels Hlen. cbv zeta.
  set (t1 := Preprocess.clean_text <$> texts).
  set (l1 := (fun c => str_lower (strip (py_str c))) <$> labels).
  assert (Hlen1 : length t1 = length l1)
    by (unfold t1, l1; now rewrite !length_fmap).
  set (cleaned := zip t1 l1).
  set (mask1 := (fun r : str * str => (0 <? length r.1)%nat) <$> cleaned).
  set (nonempty := filter (fun r => (0 <? length r.1)%nat = true) cleaned).
  assert (Hnonempty : Preprocess.select_rows mask1 cleaned = nonempty)
    by apply select_rows_by.
  set (mask2 := Preprocess.first_occurrences [] nonempty).
  unfold Preprocess.load_and_clean. cbn [mbind result_bind bind].
  assert (Htin : text_col ∈ columns df).
  { apply lookup_column_elem in Htexts. unfold columns.
    apply list_elem_of_fmap. now exists (text_col, texts). }
  assert (Hlin : label_col ∈ columns df).
  { apply lookup_column_elem in Hlabels. unfold columns.
    apply list_elem_of_fmap. now exists (label_col, labels). }
  rewrite (bool_decide_eq_true_2 _ Htin), (bool_decide_eq_true_2 _ Hlin).
  cbn [negb orb].
  rewrite (getcol_Ok df label_col labels Hlabels).
  cbn [mbind result_bind bind].
  (* the label column *)
  set (df1 := Preprocess.set_series df label_col _).
  assert (Ht1 : lookup_column text_col (data df1) = Some texts).
  { unfold df1, Preprocess.set_series. cbn [data].
    now rewrite lookup_assign_other. }
  assert (Hl1 : lookup_column label_col (data df1) = Some (CStr <$> l1)).
  { unfold df1, Preprocess.set_series, l1. cbn [data].
    rewrite lookup_assign_same. f_equal. now rewrite <- list_fmap_compose. }
  rewrite (getcol_Ok df1 text_col texts Ht1). cbn [mbind result_bind bind].
  (* the text column *)
  set (df2 := Preprocess.set_series df1 text_col _).
  assert (Ht2 : lookup_column text_col (data df2) = Some (CStr <$> t1)).
  { unfold df2, Preprocess.set_series, t1. cbn [data].
    rewrite lookup_assign_same. f_equal. rewrite <- list_fmap_compose.
    reflexivity. }
  assert (Hl2 : lookup_column label_col (data df2) = Some (CStr <$> l1)).
  { unfold df2, Preprocess.set_series. cbn [data].
    rewrite lookup_assign_other by congruence. exact Hl1. }
  rewrite (getcol_Ok df2 text_col _ Ht2). cbn [mbind result_bind bind].
  (* the empty messages *)
  assert (Hmask1 : (fun c => (0 <? length (py_str c))%nat) <$> (CStr <$> t1)
                   = mask1).
  { unfold mask1, cleaned. rewrite <- list_fmap_compose.
    rewrite <- (fst_zip t1 l1) at 1 by lia.
    rewrite <- list_fmap_compose. reflexivity. }
  rewrite Hmask1.
  set (df3 := Preprocess.filter_rows mask1 df2).
  assert (Ht3 : lookup_column text_col (data df3)
                = Some (CStr <$> nonempty.*1)).
  { unfold df3. rewrite lookup_filter_rows, Ht2. cbn. f_equal.
    rewrite select_rows_fmap. f_equal.
    rewrite <- Hnonempty. unfold cleaned.
    rewrite <- select_rows_zip by exact Hlen1.
    rewrite fst_zip; [reflexivity|].
    rewrite !select_rows_length; [lia | |];
      unfold mask1, cleaned; rewrite length_fmap, length_zip; lia. }
  assert (Hl3 : lookup_column label_col (data df3)
                = Some (CStr <$> nonempty.*2)).
  { unfold df3. rewrite lookup_filter_rows, Hl2. cbn. f_equal.
    rewrite select_rows_fmap. f_equal.
    rewrite <- Hnonempty. unfold cleaned.
    rewrite <- select_rows_zip by exact Hlen1.
    rewrite snd_zip; [reflexivity|].
    rewrite !select_rows_length; [lia | |];
      unfold mask1, cleaned; rewrite length_fmap, length_zip; lia. }
  rewrite (getcol_Ok df3 text_col _ Ht3). cbn [mbind result_bind bind].
  rewrite (getcol_Ok df3 label_col _ Hl3). cbn [mbind result_bind bind].
  (* the duplicates *)
  assert (Hkeys : zip (py_str <$> (CStr <$> nonempty.*1))
                      (py_str <$> (CStr <$> nonempty.*2)) = nonempty).
  { rewrite !py_str_lines. apply zip_fst_snd. }
  rewrite Hkeys. fold mask2.
  set (df4 := Preprocess.filter_rows mask2 df3).
  set (rows := Preprocess.select_rows mask2 nonempty).
  assert (Hlen2 : length mask2 = length nonempty)
    by apply first_occurrences_length.
  assert (Hrows : zip (Preprocess.select_rows mask2 nonempty.*1)
                      (Preprocess.select_rows mask2 nonempty.*2) = rows).
  { rewrite select_rows_zip by now rewrite !length_fmap.
    unfold rows. now rewrite zip_fst_snd. }
  assert (Ht4 : lookup_column text_col (data df4) = Some (CStr <$> rows.*1)).
  { unfold df4. rewrite lookup_filter_rows, Ht3. cbn. f_equal.
    rewrite select_rows_fmap. f_equal. rewrite <- Hrows.
    rewrite fst_zip; [reflexivity|].
    rewrite !select_rows_length; [lia | |]; rewrite length_fmap; lia. }
  assert (Hl4 : lookup_column label_col (data df4) = Some (CStr <$> rows.*2)).
  { unfold df4. rewrite lookup_filter_rows, Hl3. cbn. f_equal.
    rewrite select_rows_fmap. f_equal. rewrite <- Hrows.
    rewrite snd_zip; [reflexivity|].
    rewrite !select_rows_length; [lia | |]; rewrite length_fmap; lia. }
  rewrite (getcol_Ok df4 text_col _ Ht4). cbn [mbind result_bind bind].
  rewrite (getcol_Ok df4 label_col _ Hl4). cbn [mbind result_bind bind].
  do 2 f_equal. unfold df4, Preprocess.filter_rows. cbn [nrows].
  unfold rows. now rewrite select_rows_length.
Qed.

(** X22.  What [load_and_clean] returns for a file that has the two
    columns.  The table has exactly the text and the label column; its
    rows are rows of the file, with the text cleaned and the label
    stripped and in lower case, in the order of the file; no row has an
    empty text, no row occurs twice, and every row of the file whose
    cleaned text is not empty is there. *)
Theorem load_and_clean_rows (df : DataFrame) (text_col label_col : str)
    (texts labels : list cell) :
  text_col <> label_col ->
  lookup_column text_col (data df) = Some texts ->
  lookup_column label_col (data df) = Some labels ->
  length texts = length labels ->
  let cleaned :=
    zip (Preprocess.clean_text <$> texts)
        ((fun c => str_lower (strip (py_str c))) <$> labels) in
  exists rows : list (str * str),
    Preprocess.load_and_clean (Ok df) text_col label_col
    = Ok {| nrows := length rows;
            data := [(text_col, CStr <$> rows.*1);
                     (label_col, CStr <$> rows.*2)] |} /\
    rows `sublist_of` cleaned /\
    NoDup rows /\
    Forall (fun r => r.1 <> []) rows /\
    (forall r, r ∈ cleaned -> r.1 <> [] -> r ∈ rows).
Proof.
  intros Hne Htexts Hlabels Hlen. cbv zeta.
  eexists. split.
  { exact (load_and_clean_steps df text_col label_col texts labels
             Hne Htexts Hlabels Hlen). }
  match goal with
  | |- context [Preprocess.first_occurrences [] ?l] => set (nonempty := l)
  end.
  destruct (first_occurrences_spec nonempty []) as (Hnd & Hin & Hsub).
  cbv zeta in *.
  assert (Hpos : forall r : str * str,
            (0 <? length r.1)%nat = true <-> r.1 <> []).
  { intros [t l]. cbn. destruct t; cbn; split; try done. }
  split; [|split; [exact Hnd | split]].
  - etransitivity; [exact Hsub|]. apply sublist_filter.
  - apply Forall_forall. intros r Hr. apply Hin in Hr as [Hr _].
    apply list_elem_of_filter in Hr as [Hr _]. now apply Hpos.
  - intros r Hr Hrne. apply Hin. split; [|apply not_elem_of_nil].
    apply list_elem_of_filter. split; [now apply Hpos | exact Hr].
Qed.

End LoadAndClean.

(** The small training file, loaded. *)
Example training_frame_loaded :
  @Preprocess.load_and_clean Demo.runtime (Ok training_frame)
    (py "text") (py "label")
  = Ok {| nrows := 2;
          data := [ (py "text", [CStr (py "win a prize"); CStr (py "see you")]);
                    (py "label", [CStr (py "spam"); CStr (py "ham")]) ] |}.
Proof. vm_compute. reflexivity. Qed.

(** X22 on that file. *)
Lemma load_and_clean_rows_witness :
  exists rows : list (str * str),
    @Preprocess.load_and_clean Demo.runtime (Ok training_frame)
      (py "text") (py "label")
    = Ok {| nrows := length rows;
            data := [(py "text", CStr <$> rows.*1);
                     (py "label", CStr <$> rows.*2)] |} /\
    NoDup rows /\
    Forall (fun r => r.1 <> []) rows.
Proof.
  destruct (@load_and_clean_rows Demo.runtime training_frame
              (py "text") (py "label")
              [CStr (py "WIN a prize!"); CStr (py "<b>!!!</b>");
               CStr (py "win a PRIZE"); CStr (py "see you")]
              [CStr (py " Spam "); CStr (py "ham");
               CStr (py "SPAM"); CStr (py "ham")])
    as (rows & Hload & _ & Hnd & Hne & _).
  - intros Heq. vm_compute in Heq. discriminate Heq.
  - vm_compute. reflexivity.
  - vm_compute. reflexivity.
  - reflexivity.
  - now exists rows.
Defined.

(** Without the label column the file is refused, and what the reader
    raised is passed on. *)
Example load_and_clean_refusals :
  @Preprocess.load_and_clean Demo.runtime (Ok (text_frame [py "hello"]))
    (py "text") (py "label") = Raise (Exception ValueError) /\
  @Preprocess.load_and_clean Demo.runtime (Raise (Exception LibraryError))
    (py "text") (py "label") = Raise (Exception LibraryError).
Proof. split; vm_compute; reflexivity. Qed.
